(** * Product content pipeline: shallow embedding and verified properties

    The Python sources embedded here are
    - [src/templates/template_engine.py]   (templates, price difference),
    - [src/content_blocks/ingredients_block.py] (ingredient comparison),
    - [src/tools/product_tools.py]          (pure tools of the agents),
    - [src/agents/*.py]                     (the seven stages),
    - [src/state/product_state_schema.py], [src/workflow/product_workflow.py]
      (shared state, graph and run).

    Python values are dynamically typed: one type [value] carries every
    JSON-like datum, and an operation that Python would reject raises. *)

From Stdlib Require Import ZArith NArith QArith String Ascii List Bool Lia.
From Stdlib Require Import DecimalString Permutation SpecFloat.
Import ListNotations.
Close Scope Q_scope.
Open Scope string_scope.
Open Scope list_scope.
Open Scope bool_scope.

(* ===================================================================== *)
(** ** Python values, exceptions, results *)
(* ===================================================================== *)

Module Py.

#[local] Set Warnings "-register-all".

(** JSON-like Python data.  A [dict] is an association list read by key
    (first binding wins, keys are meant to be distinct); no code below
    iterates over such a dictionary.  Numbers are exact rationals: the code
    observes only their truth value, equality and order. *)
Inductive value : Type :=
| VNone
| VBool (b : bool)
| VNum (q : Q)
| VStr (s : string)
| VList (l : list value)
| VDict (d : list (string * value)).

Definition dict := list (string * value).

Inductive exn : Type :=
| ValueError (msg : string)
| TypeError
| AttributeError
| IndexError
| JSONDecodeError
| RecursionError
| ValidationError
| BackendError
| InvalidUpdateError (key : string)
| GraphRecursionError.

Inductive result (A : Type) : Type :=
| Ok (a : A)
| Raise (e : exn).
Arguments Ok {A} a.
Arguments Raise {A} e.

Definition rbind {A B} (r : result A) (k : A -> result B) : result B :=
  match r with Ok a => k a | Raise e => Raise e end.

(** [try: r  except Exception: h] *)
Definition rcatch {A} (r : result A) (h : exn -> result A) : result A :=
  match r with Ok a => Ok a | Raise e => h e end.

Definition is_ok {A} (r : result A) : bool :=
  match r with Ok _ => true | Raise _ => false end.

(** *** Dictionaries *)

Fixpoint dict_get (k : string) (d : dict) : option value :=
  match d with
  | [] => None
  | (k', v) :: d' => if String.eqb k k' then Some v else dict_get k d'
  end.

(** [d.get(k, default)] *)
Definition get_default (k : string) (default : value) (d : dict) : value :=
  match dict_get k d with Some v => v | None => default end.

(** [d.get(k)]: [None] when the key is missing *)
Definition get (k : string) (d : dict) : value := get_default k VNone d.

(** [k in d] *)
Definition has_key (k : string) (d : dict) : bool :=
  match dict_get k d with Some _ => true | None => false end.

(** [d[k] = v] *)
Fixpoint dict_set (k : string) (v : value) (d : dict) : dict :=
  match d with
  | [] => [(k, v)]
  | (k', v') :: d' =>
      if String.eqb k k' then (k, v) :: d' else (k', v') :: dict_set k v d'
  end.

(** [d.update(u)] *)
Definition dict_update (d u : dict) : dict :=
  fold_left (fun acc kv => dict_set (fst kv) (snd kv) acc) u d.

Definition keys (d : dict) : list string := map fst d.

(** *** Truth value, equality, hashing *)

Definition is_empty_string (s : string) : bool :=
  match s with EmptyString => true | _ => false end.

Definition is_nil {A} (l : list A) : bool :=
  match l with [] => true | _ => false end.

(** [bool(v)] *)
Definition truthy (v : value) : bool :=
  match v with
  | VNone => false
  | VBool b => b
  | VNum q => negb (Qeq_bool q 0%Q)
  | VStr s => negb (is_empty_string s)
  | VList l => negb (is_nil l)
  | VDict d => negb (is_nil d)
  end.

Definition Q_of_bool (b : bool) : Q := if b then 1%Q else 0%Q.

(** [a == b].  Booleans are numbers; dictionaries compare by content, not
    by the order of their keys. *)
Fixpoint py_eqb (a b : value) {struct a} : bool :=
  match a, b with
  | VNone, VNone => true
  | VBool x, VBool y => Bool.eqb x y
  | VBool x, VNum q => Qeq_bool (Q_of_bool x) q
  | VNum q, VBool y => Qeq_bool q (Q_of_bool y)
  | VNum p, VNum q => Qeq_bool p q
  | VStr s, VStr t => String.eqb s t
  | VList l, VList m =>
      (fix all2 (l : list value) (m : list value) {struct l} : bool :=
         match l, m with
         | [], [] => true
         | x :: l', y :: m' => py_eqb x y && all2 l' m'
         | _, _ => false
         end) l m
  | VDict d, VDict e =>
      Nat.eqb (length d) (length e) &&
      (fix sub (d : list (string * value)) {struct d} : bool :=
         match d with
         | [] => true
         | (k, v) :: d' =>
             match dict_get k e with
             | Some w => py_eqb v w && sub d'
             | None => false
             end
         end) d
  | _, _ => false
  end.

(** [x in l] for a list [l] *)
Definition py_mem (x : value) (l : list value) : bool :=
  existsb (py_eqb x) l.

(** lists and dictionaries cannot be members of a set *)
Definition hashable (v : value) : bool :=
  match v with VList _ | VDict _ => false | _ => true end.

(** A Python set is kept as the list of its members, each once, in order
    of first occurrence.  That is not the order in which Python iterates
    the set: see [list_of_set] below. *)
Fixpoint dedup (l : list value) : list value :=
  match l with
  | [] => []
  | x :: l' => x :: filter (fun y => negb (py_eqb y x)) (dedup l')
  end.

(** [set(l)] *)
Definition py_set (l : list value) : result (list value) :=
  if forallb hashable l then Ok (dedup l) else Raise TypeError.

(** [s & t] and [s - t] *)
Definition set_inter (s t : list value) : list value :=
  filter (fun x => py_mem x t) s.
Definition set_diff (s t : list value) : list value :=
  filter (fun x => negb (py_mem x t)) s.

(** [l[:n]] *)
Definition slice_to (n : Z) {A} (l : list A) : list A :=
  if (0 <=? n)%Z then firstn (Z.to_nat n) l
  else firstn (length l - Z.to_nat (- n)) l.

(** *** Strings (as UTF-8 bytes) *)

Definition is_digit (c : ascii) : bool :=
  let n := nat_of_ascii c in (48 <=? n)%nat && (n <=? 57)%nat.

Definition digit_value (c : ascii) : N := N.of_nat (nat_of_ascii c - 48).

Definition is_upper (c : ascii) : bool :=
  let n := nat_of_ascii c in (65 <=? n)%nat && (n <=? 90)%nat.

Definition lower_ascii (c : ascii) : ascii :=
  if is_upper c then ascii_of_nat (nat_of_ascii c + 32) else c.

(** lower-casing of the ASCII letters, bytes of other characters being
    kept: [str.lower] on ASCII text *)
Fixpoint lower (s : string) : string :=
  match s with
  | EmptyString => EmptyString
  | String c s' => String (lower_ascii c) (lower s')
  end.

Definition is_space (c : ascii) : bool :=
  let n := nat_of_ascii c in
  ((9 <=? n)%nat && (n <=? 13)%nat) || ((28 <=? n)%nat && (n <=? 32)%nat).

Fixpoint lstrip (s : string) : string :=
  match s with
  | String c s' => if is_space c then lstrip s' else s
  | EmptyString => EmptyString
  end.

Fixpoint rstrip (s : string) : string :=
  match s with
  | String c s' =>
      let r := rstrip s' in
      if is_space c && is_empty_string r then EmptyString else String c r
  | EmptyString => EmptyString
  end.

(** removal of ASCII white space at both ends: [str.strip] on ASCII text *)
Definition strip (s : string) : string := rstrip (lstrip s).

(** [needle in hay] *)
Fixpoint contains (needle hay : string) : bool :=
  String.prefix needle hay ||
  match hay with
  | EmptyString => false
  | String _ hay' => contains needle hay'
  end.

(** [any(word in text for word in words)] *)
Definition any_in (words : list string) (text : string) : bool :=
  existsb (fun w => contains w text) words.

(** [f"{l}"] for a list [l] of strings: the [repr] of the list, each
    string between single quotes.  The strings formatted this way by the
    code are field names written in the code, which hold no quote, no
    backslash and no character that [repr] escapes. *)
Definition repr_str_list (l : list string) : string :=
  ("[" ++ String.concat ", " (map (fun s => "'" ++ s ++ "'") l) ++ "]")%string.

(** [s.replace(c, '')] for a one-character [c] *)
Fixpoint remove_char (c : ascii) (s : string) : string :=
  match s with
  | EmptyString => EmptyString
  | String a s' =>
      if Ascii.eqb a c then remove_char c s' else String a (remove_char c s')
  end.

(** the longest prefix of digits and what follows it *)
Fixpoint span_digits (s : string) : string * string :=
  match s with
  | String c s' =>
      if is_digit c
      then let (run, rest) := span_digits s' in (String c run, rest)
      else (EmptyString, s)
  | EmptyString => (EmptyString, EmptyString)
  end.

(** [re.findall(r'\d+', s)[0]]: the first maximal run of decimal digits,
    [None] standing for the [IndexError] of an empty match list.  The
    digits are the ASCII digits: the model covers text without other
    Unicode decimal digits. *)
Fixpoint first_digit_run (s : string) : option string :=
  match s with
  | EmptyString => None
  | String c s' =>
      if is_digit c then Some (fst (span_digits s)) else first_digit_run s'
  end.

(** the number written by a run of digits *)
Definition digits_value (run : string) : N :=
  (fix go (acc : N) (s : string) : N :=
     match s with
     | EmptyString => acc
     | String c s' => go (acc * 10 + digit_value c)%N s'
     end) 0%N run.

(** decimal notation of a natural number *)
Definition decimal (n : N) : string := NilZero.string_of_uint (N.to_uint n).

Definition string_of_bytes (l : list nat) : string :=
  string_of_list_ascii (map ascii_of_nat l).

End Py.
Import Py.

Module PyNotations.
  Notation "x <- c1 ;; c2" := (rbind c1 (fun x => c2))
    (at level 61, c1 at next level, right associativity).
End PyNotations.
Import PyNotations.

(** [[f(x) for x in l]] where [f] may raise *)
Fixpoint mapM {A B} (f : A -> result B) (l : list A) : result (list B) :=
  match l with
  | [] => Ok []
  | x :: l' => y <- f x ;; ys <- mapM f l' ;; Ok (y :: ys)
  end.

(** [v.get(...)] needs a dictionary *)
Definition as_dict (v : value) : result dict :=
  match v with VDict d => Ok d | _ => Raise AttributeError end.

(** [v.lower()], [v.replace(...)] need a string *)
Definition as_str (v : value) : result string :=
  match v with VStr s => Ok s | _ => Raise AttributeError end.

(** a byte 10xxxxxx continues the UTF-8 encoding of a character *)
Definition is_continuation (c : ascii) : bool :=
  let n := nat_of_ascii c in (128 <=? n)%nat && (n <? 192)%nat.

(** the characters of a string, last first *)
Fixpoint rev_chars (acc : list string) (s : string) : list string :=
  match s with
  | EmptyString => acc
  | String c s' =>
      match acc with
      | cur :: done =>
          if is_continuation c
          then rev_chars ((cur ++ String c EmptyString)%string :: done) s'
          else rev_chars (String c EmptyString :: acc) s'
      | [] => rev_chars [String c EmptyString] s'
      end
  end.

(** [list(s)]: the characters of a string *)
Definition chars (s : string) : list value := map VStr (rev (rev_chars [] s)).

(** [iter(v)]: a list yields its items, a dictionary its keys, a string its
    characters *)
Definition py_iter (v : value) : result (list value) :=
  match v with
  | VList l => Ok l
  | VDict d => Ok (map VStr (keys d))
  | VStr s => Ok (chars s)
  | _ => Raise TypeError
  end.

(** [len(v)] *)
Definition py_len (v : value) : result nat :=
  match v with
  | VList l => Ok (length l)
  | VDict d => Ok (length d)
  | VStr s => Ok (length (chars s))
  | _ => Raise TypeError
  end.

(** [set(v)] *)
Definition set_of (v : value) : result (list value) :=
  l <- py_iter v ;; py_set l.

Definition VNat (n : nat) : value := VNum (inject_Z (Z.of_nat n)).

(** *** Floating point

    A Python [float] is an IEEE 754 binary64 number.  Its arithmetic is
    that of [SpecFloat] at precision 53 and exponent bound 1024: every
    operation gives the nearest double of the exact result, ties going to
    the even mantissa. *)
Definition double : Type := spec_float.

(** [float(n)] for an integer [n], exact below 2^53 *)
Definition double_of_Z (n : Z) : double := binary_normalize 53 1024 n 0 false.

(** [x / y] and [x * y] on floats *)
Definition double_div (x y : double) : double := SFdiv 53 1024 x y.
Definition double_mul (x y : double) : double := SFmul 53 1024 x y.

(** the number a finite double stands for.  [VNum] holds that number; an
    infinity or a NaN has none, and no expression of the code modelled
    here gives one. *)
Definition double_value (x : double) : Q :=
  match x with
  | S754_finite s m e =>
      let n := if s then Z.neg m else Z.pos m in
      (inject_Z n *
       (if (0 <=? e)%Z then inject_Z (2 ^ e) else / inject_Z (2 ^ (- e))))%Q
  | _ => 0%Q
  end.

(** What the code calls but the repository does not define: the
    interpreter's [str()] of a value that is not a string (used by
    f-strings), its [str.lower] and [str.strip] (which follow the Unicode
    tables); [json.loads], which returns a value or raises ([None]), and
    what it raises then ([JSONDecodeError] for a text that is not JSON,
    [RecursionError] for one nested too deep, [ValueError] for a number of
    too many digits); whether the tool runtime accepts and completes a tool
    call requested by the backend (it raises otherwise), and the integer it
    makes of an argument declared [int] (it coerces some values that are
    not integers, and refuses others); the order in which the process
    lists the members of a set.  That order follows the hashes of the
    members, which change from one process to the next, and the insertions
    that built the set: within one process it is a function of the members
    in order of first insertion and, for a set computed from other sets,
    of these sets.  The runtime gives it as the positions of the members,
    in the order of listing. *)
Record Runtime : Type := {
  py_repr : value -> string;
  py_lower : string -> string;
  py_strip : string -> string;
  json_loads : string -> option value;
  json_error : string -> exn;
  tool_completes : string -> value -> bool;
  tool_int : value -> option Z;
  set_order : list (list value) -> list value -> list nat
}.

Fixpoint distinct (l : list nat) : bool :=
  match l with
  | [] => true
  | i :: l' => negb (existsb (Nat.eqb i) l') && distinct l'
  end.

(** the positions 0 .. n-1, each once, in some order *)
Definition is_rearrangement (n : nat) (positions : list nat) : bool :=
  Nat.eqb (length positions) n && forallb (fun i => i <? n)%nat positions &&
  distinct positions.

(** [list(s)] for a set [s] computed from the sets [made_from] (none for a
    set made from a list), and the order in which [s] is iterated: the
    members in the order the runtime gives.  An answer of the runtime that
    is not a rearrangement of the members is none an interpreter gives;
    the members are then listed as they came. *)
Definition list_of_set (rt : Runtime) (made_from : list (list value))
    (s : list value) : list value :=
  let positions := set_order rt made_from s in
  if is_rearrangement (length s) positions
  then map (fun i => nth i s VNone) positions
  else s.

Definition py_str (rt : Runtime) (v : value) : string :=
  match v with VStr s => s | _ => py_repr rt v end.

(* ===================================================================== *)
(** ** src/tools/product_tools.py *)
(* ===================================================================== *)

Module Tools.

Definition product_required_fields : list string :=
  ["product_name"; "concentration"; "skin_type";
   "key_ingredients"; "benefits"; "how_to_use"; "price"].

(** [categorize_question(question_text, product_data)] *)
Definition categorize_question (rt : Runtime) (question_text : string)
  : string :=
  let question_lower := py_lower rt question_text in
  if any_in ["side effect"; "safe"; "irritat"; "sensitive"; "warning"; "risk"]
       question_lower then "Safety"
  else if any_in ["how to use"; "apply"; "frequency"; "when"; "how often"; "steps"]
       question_lower then "Usage"
  else if any_in ["price"; "cost"; "buy"; "purchase"; "where to buy"; "available"]
       question_lower then "Purchase"
  else if any_in ["compare"; "vs"; "versus"; "better than"; "difference"; "alternative"]
       question_lower then "Comparison"
  else "Informational".

Record product_validation : Type := {
  pv_valid : bool;
  pv_missing_fields : list string;
  pv_field_count : nat;
  pv_total_required : nat
}.

(** [validate_product_structure(product)] *)
Definition validate_product_structure (product : dict) : product_validation :=
  let missing :=
    filter (fun f => negb (has_key f product)) product_required_fields in
  {| pv_valid := Nat.eqb (length missing) 0;
     pv_missing_fields := missing;
     pv_field_count :=
       length (filter (fun f => has_key f product) product_required_fields);
     pv_total_required := length product_required_fields |}.

(** [validate_product_structure.invoke({"product": p})]: the tool runtime
    checks the argument against [Dict[str, Any]] before the call *)
Definition validate_product_structure_invoke (p : value)
  : result product_validation :=
  match p with
  | VDict d => Ok (validate_product_structure d)
  | _ => Raise ValidationError
  end.

Record data_validation : Type := {
  dv_valid : bool;
  dv_missing_fields : list string;
  dv_present_fields : list string;
  dv_field_count : nat
}.

Definition is_none (v : value) : bool :=
  match v with VNone => true | _ => false end.

(** [validate_data_structure(data, required_fields)] *)
Definition validate_data_structure (data : dict) (required_fields : list string)
  : data_validation :=
  let absent f := negb (has_key f data) || is_none (get f data) in
  let missing := filter absent required_fields in
  {| dv_valid := Nat.eqb (length missing) 0;
     dv_missing_fields := missing;
     dv_present_fields :=
       filter (fun f => has_key f data && negb (is_none (get f data)))
              required_fields;
     dv_field_count := length (filter (fun f => has_key f data) required_fields) |}.

(** [list(set(a.get(k, [])) & set(b.get(k, [])))] *)
Definition overlap (rt : Runtime) (k : string) (a b : dict) : result value :=
  s <- set_of (get_default k (VList []) a) ;;
  t <- set_of (get_default k (VList []) b) ;;
  Ok (VList (list_of_set rt [s; t] (set_inter s t))).

(** [list(set(a.get(k, [])) - set(b.get(k, [])))] *)
Definition unique (rt : Runtime) (k : string) (a b : dict) : result value :=
  s <- set_of (get_default k (VList []) a) ;;
  t <- set_of (get_default k (VList []) b) ;;
  Ok (VList (list_of_set rt [s; t] (set_diff s t))).

(** [compare_products(product1, product2)] *)
Definition compare_products (rt : Runtime) (product1 product2 : dict)
  : result dict :=
  let price_difference :=
    negb (py_eqb (get_default "price" (VStr EmptyString) product1)
                 (get_default "price" (VStr EmptyString) product2)) in
  io <- overlap rt "key_ingredients" product1 product2 ;;
  u1 <- unique rt "key_ingredients" product1 product2 ;;
  u2 <- unique rt "key_ingredients" product2 product1 ;;
  bo <- overlap rt "benefits" product1 product2 ;;
  so <- overlap rt "skin_type" product1 product2 ;;
  Ok [("price_difference", VBool price_difference);
      ("ingredient_overlap", io);
      ("ingredient_unique_1", u1);
      ("ingredient_unique_2", u2);
      ("benefit_overlap", bo);
      ("skin_type_overlap", so)].

(** [len(x.get("answer", ""))] *)
Definition answer_length (q : value) : result nat :=
  d <- as_dict q ;; py_len (get_default "answer" (VStr EmptyString) d).

(** the local dictionary [categorized]: keys in insertion order *)
Fixpoint categorized_add (cat q : value) (c : list (value * list value))
  : list (value * list value) :=
  match c with
  | [] => [(cat, [q])]
  | (k, qs) :: c' =>
      if py_eqb cat k then (k, qs ++ [q]) :: c'
      else (k, qs) :: categorized_add cat q c'
  end.

Definition categorize_all (questions : list value)
  : result (list (value * list value)) :=
  fold_left
    (fun acc q =>
       c <- acc ;;
       d <- as_dict q ;;
       let cat := get_default "category" (VStr "Informational") d in
       if hashable cat then Ok (categorized_add cat q c) else Raise TypeError)
    questions (Ok []).

(** [max(qs, key=answer length)]: the first item of greatest key *)
Fixpoint max_by_answer (best : value) (best_len : nat) (qs : list value)
  : result value :=
  match qs with
  | [] => Ok best
  | q :: qs' =>
      n <- answer_length q ;;
      if (best_len <? n)%nat then max_by_answer q n qs'
      else max_by_answer best best_len qs'
  end.

Definition best_of (qs : list value) : result (option value) :=
  match qs with
  | [] => Ok None
  | q :: qs' =>
      n <- answer_length q ;;
      b <- max_by_answer q n qs' ;;
      Ok (Some b)
  end.

(** stable insertion for [sort(key=..., reverse=True)]: an item goes after
    every item whose key is at least its own *)
Fixpoint insert_desc (x : value * nat) (l : list (value * nat))
  : list (value * nat) :=
  match l with
  | [] => [x]
  | y :: l' =>
      if (snd y <? snd x)%nat then x :: y :: l' else y :: insert_desc x l'
  end.

Definition sort_desc (l : list (value * nat)) : list (value * nat) :=
  fold_left (fun acc x => insert_desc x acc) l [].

(** [select_best_questions(questions, count)] *)
Definition select_best_questions (questions : list value) (count : Z)
  : result (list value) :=
  if (Z.of_nat (length questions) <=? count)%Z then Ok questions
  else
    categorized <- categorize_all questions ;;
    selected <-
      fold_left
        (fun acc (entry : value * list value) =>
           sel <- acc ;;
           if negb (is_nil (snd entry)) && (Z.of_nat (length sel) <? count)%Z
           then
             b <- best_of (snd entry) ;;
             match b with
             | Some q => Ok (sel ++ [q])
             | None => Ok sel
             end
           else Ok sel)
        categorized (Ok []) ;;
    let remaining := filter (fun q => negb (py_mem q selected)) questions in
    keyed <- mapM (fun q => n <- answer_length q ;; Ok (q, n)) remaining ;;
    let sorted := map fst (sort_desc keyed) in
    let selected :=
      selected ++ slice_to (count - Z.of_nat (length selected)) sorted in
    Ok (slice_to count selected).

Record faq_validation : Type := {
  fv_valid : bool;
  fv_missing_fields : list string;
  fv_item_count : nat;
  fv_meets_minimum : bool;
  fv_all_items_valid : bool
}.

Definition item_has_question_and_answer (item : value) : result bool :=
  match item with
  | VDict d => Ok (has_key "question" d && has_key "answer" d)
  | VStr s => Ok (contains "question" s && contains "answer" s)
  | VList l => Ok (py_mem (VStr "question") l && py_mem (VStr "answer") l)
  | _ => Raise TypeError
  end.

(** [all("question" in item and "answer" in item for item in items)]:
    the items are looked at in order, up to the first one that fails *)
Fixpoint all_items_valid (items : list value) : result bool :=
  match items with
  | [] => Ok true
  | item :: rest =>
      ok <- item_has_question_and_answer item ;;
      if ok then all_items_valid rest else Ok false
  end.

(** [validate_faq_structure(faq_page)] *)
Definition validate_faq_structure (faq_page : dict) : result faq_validation :=
  let missing :=
    filter (fun f => negb (has_key f faq_page))
           ["page_type"; "product_name"; "faq_items"] in
  let faq_items := get_default "faq_items" (VList []) faq_page in
  item_count <- py_len faq_items ;;
  items <- py_iter faq_items ;;
  all_valid <- all_items_valid items ;;
  Ok {| fv_valid := Nat.eqb (length missing) 0 && (5 <=? item_count)%nat;
        fv_missing_fields := missing;
        fv_item_count := item_count;
        fv_meets_minimum := (5 <=? item_count)%nat;
        fv_all_items_valid := all_valid |}.

End Tools.

(* ===================================================================== *)
(** ** src/content_blocks/ingredients_block.py *)
(* ===================================================================== *)

Module IngredientsBlock.

(** [len(common) / max(len(a), len(b), 1) * 100]: the quotient of two
    integers is a float, and so is its product by 100.  The lengths of
    lists are far below 2^53, where [float(n)] is exact and the quotient of
    the integers is the quotient of the floats. *)
Definition similarity_double (common la lb : nat) : double :=
  double_mul
    (double_div (double_of_Z (Z.of_nat common))
                (double_of_Z (Z.of_nat (Nat.max (Nat.max la lb) 1))))
    (double_of_Z 100).

Definition similarity (common la lb : nat) : Q :=
  double_value (similarity_double common la lb).

(** [compare_ingredients(product1_ingredients, product2_ingredients)] *)
Definition compare_ingredients (rt : Runtime)
    (product1_ingredients product2_ingredients : value) : result dict :=
  s1 <- set_of product1_ingredients ;;
  s2 <- set_of product2_ingredients ;;
  let common := list_of_set rt [s1; s2] (set_inter s1 s2) in
  let unique_to_1 := list_of_set rt [s1; s2] (set_diff s1 s2) in
  let unique_to_2 := list_of_set rt [s2; s1] (set_diff s2 s1) in
  l1 <- py_len product1_ingredients ;;
  l2 <- py_len product2_ingredients ;;
  Ok [("common_ingredients", VList common);
      ("unique_to_product1", VList unique_to_1);
      ("unique_to_product2", VList unique_to_2);
      ("similarity_score", VNum (similarity (length common) l1 l2))].

End IngredientsBlock.

(* ===================================================================== *)
(** ** src/content_blocks/benefits_block.py and ingredients_block.py:
       the generators *)
(* ===================================================================== *)

(** The two generators, on the fields of a product the model [Product] has
    accepted: [benefits] and [key_ingredients] are lists of strings and
    [concentration] is a string. *)
Module ContentBlocks.
Section WithRuntime.
Variable rt : Runtime.

(** [str.split()]: the words of a text, cut at white space (which follows
    the Unicode tables) *)
Variable py_split : string -> list string.

(** [ingredient_lower in benefit_lower or
     any(word in benefit_lower for word in ingredient_lower.split())] *)
Definition related (ingredient benefit : string) : bool :=
  let ingredient_lower := py_lower rt ingredient in
  let benefit_lower := py_lower rt benefit in
  contains ingredient_lower benefit_lower ||
  existsb (fun word => contains word benefit_lower) (py_split ingredient_lower).

(** the first loop of [generate_benefits_content] *)
Definition ingredient_benefits (benefits ingredients : list string) : dict :=
  fold_left
    (fun acc ingredient =>
       let related_benefits := filter (related ingredient) benefits in
       if negb (is_nil related_benefits)
       then dict_set ingredient (VStr (String.concat ", " related_benefits)) acc
       else acc)
    ingredients [].

(** one turn of its second loop *)
Definition formatted_benefit (ingredients : list string) (benefit : string)
  : value :=
  let supported_by := filter (fun ingredient => related ingredient benefit)
                             ingredients in
  VDict [("benefit", VStr benefit);
         ("description",
          VStr ("Provides " ++ py_lower rt benefit ++ " benefits")%string);
         ("supported_by",
          VList (map VStr (if negb (is_nil supported_by) then supported_by
                           else ingredients)))].

(** [generate_benefits_content(product_data)] *)
Definition generate_benefits_content (benefits ingredients : list string)
  : dict :=
  [("primary_benefits", VList (map VStr benefits));
   ("benefit_count", VNat (length benefits));
   ("ingredient_benefits", VDict (ingredient_benefits benefits ingredients));
   ("formatted_benefits", VList (map (formatted_benefit ingredients) benefits))].

(** [re.search(r'(\d+%)', s)]: the first run of decimal digits that a
    percent sign follows, with the sign.  The digits are the ASCII ones:
    this is the search on a text whose other characters are ASCII or rupee
    signs, which holds no other decimal digit. *)
Fixpoint percent_match (s : string) : option string :=
  match s with
  | EmptyString => None
  | String c s' =>
      if is_digit c then
        match snd (span_digits s) with
        | String "%" _ => Some (fst (span_digits s) ++ "%")%string
        | _ => percent_match s'
        end
      else percent_match s'
  end.

(** [concentration.lower() if concentration else ""] *)
Definition concentration_text (concentration : string) : string :=
  if truthy (VStr concentration) then py_lower rt concentration
  else EmptyString.

(** the entry of [ingredient_details] for one ingredient *)
Definition ingredient_detail (concentration : string)
    (product_benefits : list string) (ingredient : string) : value :=
  let ingredient_lower := py_lower rt ingredient in
  let ingredient_concentration :=
    if contains ingredient_lower (concentration_text concentration) then
      match percent_match concentration with
      | Some found => found
      | None => concentration
      end
    else "As listed" in
  let related_benefits := filter (related ingredient) product_benefits in
  VDict [("type", VStr "active");
         ("benefits",
          VList (map VStr (if negb (is_nil related_benefits)
                           then related_benefits
                           else firstn 2 product_benefits)));
         ("concentration", VStr ingredient_concentration);
         ("description",
          VStr (ingredient ++ " - Key active ingredient in this product")%string)].

(** [generate_ingredients_content(product_data)] *)
Definition generate_ingredients_content (ingredients : list string)
    (concentration : string) (product_benefits : list string) : dict :=
  [("key_ingredients", VList (map VStr ingredients));
   ("concentration", VStr concentration);
   ("ingredient_details",
    VDict (fold_left
             (fun details ingredient =>
                dict_set ingredient
                  (ingredient_detail concentration product_benefits ingredient)
                  details)
             ingredients []));
   ("ingredient_count", VNat (length ingredients));
   ("active_ingredients", VList (map VStr ingredients));
   ("supporting_ingredients", VList [])].

End WithRuntime.
End ContentBlocks.

(* ===================================================================== *)
(** ** src/templates/template_engine.py *)
(* ===================================================================== *)

Module Templates.

(** the literal in front of [{diff:.0f}], byte for byte as the source file
    has it *)
Definition currency_prefix : string :=
  string_of_bytes [195; 162; 226; 128; 154; 194; 185].

(** [float(re.findall(r'\d+', price.replace(',', ''))[0])].  The float of a
    digit run is exact below 2^53; the model keeps the integer. *)
Definition price_number (price : string) : option N :=
  option_map digits_value (first_digit_run (remove_char "," price)).

(** [_calculate_price_difference(price1, price2)].  The bare [except]
    turns every failure into the empty string: a price that is not a string
    ([AttributeError] on [replace]) or holds no digit ([IndexError]). *)
Definition _calculate_price_difference (price1 price2 : value) : string :=
  match price1, price2 with
  | VStr p1, VStr p2 =>
      match price_number p1, price_number p2 with
      | Some num1, Some num2 =>
          let diff := Z.abs_N (Z.of_N num1 - Z.of_N num2) in
          (currency_prefix ++ decimal diff)%string
      | _, _ => EmptyString
      end
  | _, _ => EmptyString
  end.

(** [similarity > 70] *)
Definition greater_than_70 (similarity : value) : result bool :=
  match similarity with
  | VNum q => Ok (negb (Qle_bool q 70%Q))
  | VBool b => Ok false
  | _ => Raise TypeError
  end.

(** [_generate_recommendation(product1, product2, comparison)] *)
Definition _generate_recommendation (product1 product2 comparison : dict)
  : result string :=
  let similarity := get_default "similarity_score" (VNum 0%Q) comparison in
  b <- greater_than_70 similarity ;;
  if b then Ok "Both products are similar. Choose based on price and specific needs."
  else Ok "Products differ significantly. Consider your specific skin concerns and budget.".

(** the keyword cascade of [FAQTemplate.apply], on the lowered question *)
Definition infer_category (question_text : string) : string :=
  if any_in ["safe"; "side effect"; "irritat"] question_text then "Safety"
  else if any_in ["how to"; "use"; "apply"] question_text then "Usage"
  else if any_in ["price"; "cost"; "buy"] question_text then "Purchase"
  else if any_in ["compare"; "vs"; "versus"] question_text then "Comparison"
  else "Informational".

(** [questions[:5]], then iterated *)
Definition first_five (questions : value) : result (list value) :=
  match questions with
  | VList l => Ok (firstn 5 l)
  | VStr s => Ok (firstn 5 (chars s))
  | _ => Raise TypeError
  end.

Definition item_category (item : value) : value :=
  match item with VDict d => get "category" d | _ => VNone end.

Record Template : Type := {
  get_fields : list string;
  apply : dict -> dict -> result dict
}.

Section WithRuntime.
Variable rt : Runtime.

(** one turn of the loop of [FAQTemplate.apply] *)
Definition faq_item (qa : value) : result value :=
  d <- as_dict qa ;;
  let category := get "category" d in
  category <-
    (if truthy category then Ok category
     else
       question_text <- as_str (get_default "question" (VStr EmptyString) d) ;;
       Ok (VStr (infer_category (py_lower rt question_text)))) ;;
  Ok (VDict [("question", get_default "question" (VStr EmptyString) d);
             ("answer", get_default "answer" (VStr EmptyString) d);
             ("category", category)]).

Definition FAQTemplate : Template :=
  {| get_fields := ["questions"; "product_data"];
     apply := fun data content_blocks =>
       let questions := get_default "questions" (VList []) data in
       let product_data := get_default "product_data" (VDict []) data in
       batch <- first_five questions ;;
       faq_items <- mapM faq_item batch ;;
       pd <- as_dict product_data ;;
       categories <- py_set (map item_category faq_items) ;;
       Ok [("page_type", VStr "faq");
           ("product_name", get_default "product_name" (VStr EmptyString) pd);
           ("faq_items", VList faq_items);
           ("total_questions", VNat (length faq_items));
           ("categories", VList (list_of_set rt [] categories))] |}.

Definition ProductDescriptionTemplate : Template :=
  {| get_fields := ["product_data"; "benefits_content"; "usage_content";
                    "ingredients_content"; "safety_content"];
     apply := fun data content_blocks =>
       let e := VStr EmptyString in
       pd <- as_dict (get_default "product_data" (VDict []) data) ;;
       ingredients <- as_dict (get_default "ingredients" (VDict []) content_blocks) ;;
       benefits <- as_dict (get_default "benefits" (VDict []) content_blocks) ;;
       usage <- as_dict (get_default "usage" (VDict []) content_blocks) ;;
       safety <- as_dict (get_default "safety" (VDict []) content_blocks) ;;
       Ok [("page_type", VStr "product_description");
           ("product_name", get_default "product_name" e pd);
           ("price", get_default "price" e pd);
           ("concentration", get_default "concentration" e pd);
           ("sections", VDict [
              ("overview", VDict [
                 ("description",
                  VStr (py_str rt (get_default "product_name" e pd) ++ " - " ++
                        py_str rt (get_default "concentration" e pd))%string);
                 ("key_highlights", get_default "benefits" (VList []) pd)]);
              ("ingredients", VDict [
                 ("key_ingredients", get_default "key_ingredients" (VList []) ingredients);
                 ("ingredient_details", get_default "ingredient_details" (VDict []) ingredients);
                 ("concentration", get_default "concentration" e ingredients)]);
              ("benefits", VDict [
                 ("primary_benefits", get_default "primary_benefits" (VList []) benefits);
                 ("formatted_benefits", get_default "formatted_benefits" (VList []) benefits)]);
              ("usage", VDict [
                 ("instructions", get_default "instructions" e usage);
                 ("steps", get_default "steps" (VList []) usage);
                 ("frequency", get_default "frequency" e usage);
                 ("tips", get_default "application_tips" (VList []) usage)]);
              ("safety", VDict [
                 ("side_effects", get_default "side_effects" e safety);
                 ("warnings", get_default "warnings" (VList []) safety);
                 ("precautions", get_default "safety_notes" (VList []) safety)]);
              ("skin_type", VDict [
                 ("suitable_for", get_default "skin_type" (VList []) pd)])])] |}.

Definition product_summary (p : dict) : value :=
  let e := VStr EmptyString in
  VDict [("name", get_default "product_name" e p);
         ("price", get_default "price" e p);
         ("concentration", get_default "concentration" e p);
         ("key_ingredients", get_default "key_ingredients" (VList []) p);
         ("benefits", get_default "benefits" (VList []) p);
         ("skin_type", get_default "skin_type" (VList []) p)].

Definition ComparisonTemplate : Template :=
  {| get_fields := ["product1_data"; "product2_data"];
     apply := fun data content_blocks =>
       let e := VStr EmptyString in
       product1 <- as_dict (get_default "product1_data" (VDict []) data) ;;
       product2 <- as_dict (get_default "product2_data" (VDict []) data) ;;
       comparison <-
         as_dict (get_default "ingredients_comparison" (VDict []) content_blocks) ;;
       b1 <- set_of (get_default "benefits" (VList []) product1) ;;
       b2 <- set_of (get_default "benefits" (VList []) product2) ;;
       recommendation <- _generate_recommendation product1 product2 comparison ;;
       Ok [("page_type", VStr "comparison");
           ("products", VDict [("product1", product_summary product1);
                               ("product2", product_summary product2)]);
           ("comparison", VDict [
              ("ingredients", VDict [
                 ("common", get_default "common_ingredients" (VList []) comparison);
                 ("unique_to_product1", get_default "unique_to_product1" (VList []) comparison);
                 ("unique_to_product2", get_default "unique_to_product2" (VList []) comparison);
                 ("similarity_score", get_default "similarity_score" (VNum 0%Q) comparison)]);
              ("price", VDict [
                 ("product1_price", get_default "price" e product1);
                 ("product2_price", get_default "price" e product2);
                 ("price_difference",
                  VStr (_calculate_price_difference (get_default "price" e product1)
                                                    (get_default "price" e product2)))]);
              ("benefits", VDict [
                 ("product1_benefits", get_default "benefits" (VList []) product1);
                 ("product2_benefits", get_default "benefits" (VList []) product2);
                 ("shared_benefits",
                  VList (list_of_set rt [b1; b2] (set_inter b1 b2)))])]);
           ("recommendation", VStr recommendation)] |}.

(** [TemplateEngine]: the registry built by [__init__] *)
Record TemplateEngine : Type := { templates : list (string * Template) }.

Definition new_engine : TemplateEngine :=
  {| templates := [("faq", FAQTemplate);
                   ("product_description", ProductDescriptionTemplate);
                   ("comparison", ComparisonTemplate)] |}.

Fixpoint find_template (name : string) (ts : list (string * Template))
  : option Template :=
  match ts with
  | [] => None
  | (n, t) :: ts' => if String.eqb name n then Some t else find_template name ts'
  end.

(** [TemplateEngine.apply_template(template_name, data, content_blocks)] *)
Definition apply_template (self : TemplateEngine) (template_name : string)
    (data content_blocks : dict) : result dict :=
  match find_template template_name (templates self) with
  | None => Raise (ValueError ("Unknown template: " ++ template_name)%string)
  | Some template =>
      let required_fields := get_fields template in
      let missing := filter (fun f => negb (has_key f data)) required_fields in
      if negb (is_nil missing)
      then Raise (ValueError ("Missing required fields: " ++
                              repr_str_list missing)%string)
      else apply template data content_blocks
  end.

End WithRuntime.

End Templates.

(* ===================================================================== *)
(** ** The objects of the interpreter *)
(* ===================================================================== *)

(** Lists and dictionaries are objects: a variable or a field holds a
    reference to one, two references can name the same object, and
    [append] changes the object for every holder.  The templates are
    embedded a second time on such objects, operation by operation, to
    state what a call leaves behind. *)
Module Heap.

Definition loc := nat.

(** what a variable, an item or a field holds *)
Inductive hval : Type :=
| HNone
| HBool (b : bool)
| HNum (q : Q)
| HStr (s : string)
| HRef (l : loc).

Inductive obj : Type :=
| OList (items : list hval)
| ODict (entries : list (string * hval)).

(** the objects, each at its location *)
Definition heap := list obj.

(** a computation on the objects: what it returns or raises, and the
    objects it leaves *)
Definition Mem (A : Type) : Type := heap -> result A * heap.

Definition ret {A} (a : A) : Mem A := fun h => (Ok a, h).

Definition raise {A} (e : exn) : Mem A := fun h => (Raise e, h).

Definition lift {A} (r : result A) : Mem A := fun h => (r, h).

Definition bind {A B} (c : Mem A) (k : A -> Mem B) : Mem B :=
  fun h =>
    match c h with
    | (Ok a, h') => k a h'
    | (Raise e, h') => (Raise e, h')
    end.

(** a computation that only looks at the objects *)
Definition read {A} (f : heap -> result A) : Mem A := fun h => (f h, h).

(** a list display [[...]] or a dictionary display [{...}]: a new object *)
Definition alloc (o : obj) : Mem hval :=
  fun h => (Ok (HRef (length h)), h ++ [o]).

Fixpoint replace_at (l : loc) (o : obj) (h : heap) : heap :=
  match h, l with
  | [], _ => []
  | _ :: h', O => o :: h'
  | o' :: h', S l' => o' :: replace_at l' o h'
  end.

(** [lst.append(x)]: the list object itself changes *)
Definition append (lst x : hval) : Mem unit :=
  fun h =>
    match lst with
    | HRef l =>
        match nth_error h l with
        | Some (OList items) => (Ok tt, replace_at l (OList (items ++ [x])) h)
        | _ => (Raise AttributeError, h)
        end
    | _ => (Raise AttributeError, h)
    end.

Definition deref (h : heap) (v : hval) : option obj :=
  match v with HRef l => nth_error h l | _ => None end.

Fixpoint field (k : string) (entries : list (string * hval)) : option hval :=
  match entries with
  | [] => None
  | (k', v) :: entries' =>
      if String.eqb k k' then Some v else field k entries'
  end.

(** [v.get(k, default)]: only a dictionary has [get] *)
Definition get_default (k : string) (default v : hval) : Mem hval :=
  read (fun h =>
    match deref h v with
    | Some (ODict entries) =>
        Ok match field k entries with Some x => x | None => default end
    | _ => Raise AttributeError
    end).

(** [v.get(k, [])], [v.get(k, {})]: the default is a new object, made
    before the call *)
Definition get_or_new (k : string) (o : obj) (v : hval) : Mem hval :=
  bind (alloc o) (fun default => get_default k default v).

(** a value that is no object, as it is held *)
Definition held (x : value) : hval :=
  match x with
  | VBool b => HBool b
  | VNum q => HNum q
  | VStr s => HStr s
  | _ => HNone
  end.

(** [k in v] for a string [k] *)
Definition has_key (k : string) (v : hval) : Mem bool :=
  read (fun h =>
    match v with
    | HStr s => Ok (contains k s)
    | HRef l =>
        match nth_error h l with
        | Some (ODict entries) =>
            Ok match field k entries with Some _ => true | None => false end
        | Some (OList items) =>
            Ok (existsb (fun i => match i with
                                  | HStr s => String.eqb s k
                                  | _ => false
                                  end) items)
        | None => Raise TypeError
        end
    | _ => Raise TypeError
    end).

(** [bool(v)] *)
Definition truthy (v : hval) : Mem bool :=
  read (fun h =>
    Ok match v with
       | HNone => false
       | HBool b => b
       | HNum q => negb (Qeq_bool q 0%Q)
       | HStr s => negb (is_empty_string s)
       | HRef l =>
           match nth_error h l with
           | Some (OList items) => negb (is_nil items)
           | Some (ODict entries) => negb (is_nil entries)
           | None => true
           end
       end).

(** [iter(v)]: the items of a list, the keys of a dictionary, the
    characters of a string *)
Definition iter (v : hval) : Mem (list hval) :=
  read (fun h =>
    match v with
    | HStr s => Ok (map held (chars s))
    | HRef l =>
        match nth_error h l with
        | Some (OList items) => Ok items
        | Some (ODict entries) => Ok (map (fun e => HStr (fst e)) entries)
        | None => Raise TypeError
        end
    | _ => Raise TypeError
    end).

(** [len(v)] *)
Definition len (v : hval) : Mem nat :=
  read (fun h =>
    match v with
    | HStr s => Ok (length (chars s))
    | HRef l =>
        match nth_error h l with
        | Some (OList items) => Ok (length items)
        | Some (ODict entries) => Ok (length entries)
        | None => Raise TypeError
        end
    | _ => Raise TypeError
    end).

(** a member of a set is hashed: a list or a dictionary is refused *)
Definition hashed (v : hval) : result value :=
  match v with
  | HNone => Ok VNone
  | HBool b => Ok (VBool b)
  | HNum q => Ok (VNum q)
  | HStr s => Ok (VStr s)
  | HRef _ => Raise TypeError
  end.

(** [set(items)]: the set holds values that are no objects, and is kept as
    in the first embedding *)
Definition set_from (items : list hval) : result (list value) :=
  members <- mapM hashed items ;; Ok (dedup members).

(** [set(v)] *)
Definition set_of (v : hval) : Mem (list value) :=
  bind (iter v) (fun items => lift (set_from items)).

(** [list(s)] for a set [s]: a new list *)
Definition list_of_set (rt : Runtime) (made_from : list (list value))
    (s : list value) : Mem hval :=
  alloc (OList (map held (list_of_set rt made_from s))).

Fixpoint mapO {A B} (f : A -> option B) (l : list A) : option (list B) :=
  match l with
  | [] => Some []
  | x :: l' =>
      match f x, mapO f l' with
      | Some y, Some ys => Some (y :: ys)
      | _, _ => None
      end
  end.

(** what is read from [v]: itself, or what [at] reads at the location *)
Definition read_through (at_loc : loc -> option value) (v : hval)
  : option value :=
  match v with
  | HNone => Some VNone
  | HBool b => Some (VBool b)
  | HNum q => Some (VNum q)
  | HStr s => Some (VStr s)
  | HRef l => at_loc l
  end.

(** the value of the object at [l], references being followed at most [n]
    deep *)
Fixpoint reify_at (n : nat) (h : heap) (l : loc) : option value :=
  match n with
  | O => None
  | S n' =>
      match nth_error h l with
      | Some (OList items) =>
          option_map VList (mapO (read_through (reify_at n' h)) items)
      | Some (ODict entries) =>
          option_map VDict
            (mapO (fun e => option_map (pair (fst e))
                              (read_through (reify_at n' h) (snd e)))
                  entries)
      | None => None
      end
  end.

(** the value read from [v] by following references, at most [n] deep *)
Definition reify (n : nat) (h : heap) (v : hval) : option value :=
  read_through (reify_at n h) v.

(** [str(v)], as an f-string takes it: a string as it is, another value
    printed by the interpreter, which reads it through its references and
    raises [RecursionError] beyond its recursion limit.  (Python prints an
    ellipsis for an object that holds itself; the model raises there as
    well.) *)
Definition str (rt : Runtime) (limit : nat) (v : hval) : Mem string :=
  read (fun h =>
    match v with
    | HStr s => Ok s
    | _ =>
        match reify limit h v with
        | Some x => Ok (py_repr rt x)
        | None => Raise RecursionError
        end
    end).

(** [for x in items: body(x)] *)
Fixpoint for_each {A} (items : list A) (body : A -> Mem unit) : Mem unit :=
  match items with
  | [] => ret tt
  | x :: items' => bind (body x) (fun _ => for_each items' body)
  end.

(** [[f(x) for x in items]], the items only *)
Fixpoint map_each {A B} (f : A -> Mem B) (items : list A) : Mem (list B) :=
  match items with
  | [] => ret []
  | x :: items' =>
      bind (f x) (fun y => bind (map_each f items') (fun ys => ret (y :: ys)))
  end.

(** every object of [h] is in [h'] as it was in [h] *)
Definition unchanged (h h' : heap) : Prop :=
  forall l o, nth_error h l = Some o -> nth_error h' l = Some o.

(** [x] is the value of [v]: what is read from it at some depth *)
Definition reads (h : heap) (v : hval) (x : value) : Prop :=
  exists n, reify n h v = Some x.

(** what a call hands back is the document [r], or the exception [r] *)
Definition yields (out : result hval * heap) (r : result dict) : Prop :=
  match out, r with
  | (Ok v, h), Ok page => reads h v (VDict page)
  | (Raise e, _), Raise e' => e = e'
  | _, _ => False
  end.

(** from [h]: [c] leaves the first [m] objects as they are, removes none,
    and what it returns satisfies [Q] *)
Definition keeps {A} (m : nat) (c : Mem A) (Q : A -> Prop) : Prop :=
  forall h, m <= length h ->
    length h <= length (snd (c h)) /\
    (forall l, l < m -> nth_error (snd (c h)) l = nth_error h l) /\
    (forall a, fst (c h) = Ok a -> Q a).

(** [Q] holds of the outcome of [c] from [h] *)
Definition wp {A} (c : Mem A) (h : heap) (Q : result A -> heap -> Prop)
  : Prop := Q (fst (c h)) (snd (c h)).

End Heap.

Module HeapNotations.
  Notation "x <-- c1 ;; c2" := (Heap.bind c1 (fun x => c2))
    (at level 61, c1 at next level, right associativity).
End HeapNotations.
Import HeapNotations.

(** ** src/templates/template_engine.py, on the objects *)

Module TemplatesOnHeap.

Import Heap.

(** [_calculate_price_difference(price1, price2)] *)
Definition _calculate_price_difference (price1 price2 : hval) : string :=
  match price1, price2 with
  | HStr p1, HStr p2 =>
      Templates._calculate_price_difference (VStr p1) (VStr p2)
  | _, _ => EmptyString
  end.

(** [_generate_recommendation(product1, product2, comparison)] *)
Definition _generate_recommendation (product1 product2 comparison : hval)
  : Mem string :=
  similarity <-- get_default "similarity_score" (HNum 0%Q) comparison ;;
  b <-- lift match similarity with
             | HNum q => Ok (negb (Qle_bool q 70%Q))
             | HBool _ => Ok false
             | _ => Raise TypeError
             end ;;
  if b
  then ret "Both products are similar. Choose based on price and specific needs."
  else ret "Products differ significantly. Consider your specific skin concerns and budget.".

(** [questions[:5]], then iterated: the slice of a list is a new list, that
    of a string a string, whose characters are those of the first *)
Definition first_five (questions : hval) : Mem (list hval) :=
  match questions with
  | HStr s => ret (map held (firstn 5 (chars s)))
  | HRef l =>
      items <-- read (fun h =>
                  match nth_error h l with
                  | Some (OList items) => Ok items
                  | _ => Raise TypeError
                  end) ;;
      slice <-- alloc (OList (firstn 5 items)) ;;
      iter slice
  | _ => raise TypeError
  end.

Section WithRuntime.
Variable rt : Runtime.
Variable limit : nat.

(** one turn of the loop of [FAQTemplate.apply] *)
Definition faq_turn (faq_items qa : hval) : Mem unit :=
  category <-- get_default "category" HNone qa ;;
  given <-- truthy category ;;
  category <--
    (if given then ret category
     else
       question <-- get_default "question" (HStr EmptyString) qa ;;
       match question with
       | HStr question_text =>
           ret (HStr (Templates.infer_category (py_lower rt question_text)))
       | _ => raise AttributeError
       end) ;;
  question <-- get_default "question" (HStr EmptyString) qa ;;
  answer <-- get_default "answer" (HStr EmptyString) qa ;;
  item <-- alloc (ODict [("question", question);
                         ("answer", answer);
                         ("category", category)]) ;;
  append faq_items item.

(** [FAQTemplate.apply(data, content_blocks)] *)
Definition FAQTemplate_apply (data content_blocks : hval) : Mem hval :=
  questions <-- get_or_new "questions" (OList []) data ;;
  product_data <-- get_or_new "product_data" (ODict []) data ;;
  faq_items <-- alloc (OList []) ;;
  batch <-- first_five questions ;;
  _ <-- for_each batch (faq_turn faq_items) ;;
  product_name <-- get_default "product_name" (HStr EmptyString) product_data ;;
  total_questions <-- len faq_items ;;
  items <-- iter faq_items ;;
  listed <-- map_each (get_default "category" HNone) items ;;
  s <-- lift (set_from listed) ;;
  categories <-- list_of_set rt [] s ;;
  alloc (ODict [("page_type", HStr "faq");
                ("product_name", product_name);
                ("faq_items", faq_items);
                ("total_questions", held (VNat total_questions));
                ("categories", categories)]).

(** [ProductDescriptionTemplate.apply(data, content_blocks)] *)
Definition ProductDescriptionTemplate_apply (data content_blocks : hval)
  : Mem hval :=
  let e := HStr EmptyString in
  product_data <-- get_or_new "product_data" (ODict []) data ;;
  benefits <-- get_or_new "benefits" (ODict []) content_blocks ;;
  usage <-- get_or_new "usage" (ODict []) content_blocks ;;
  ingredients <-- get_or_new "ingredients" (ODict []) content_blocks ;;
  safety <-- get_or_new "safety" (ODict []) content_blocks ;;
  product_name <-- get_default "product_name" e product_data ;;
  price <-- get_default "price" e product_data ;;
  concentration <-- get_default "concentration" e product_data ;;
  name <-- get_default "product_name" e product_data ;;
  name <-- str rt limit name ;;
  conc <-- get_default "concentration" e product_data ;;
  conc <-- str rt limit conc ;;
  key_highlights <-- get_or_new "benefits" (OList []) product_data ;;
  overview <-- alloc (ODict [
    ("description", HStr (name ++ " - " ++ conc)%string);
    ("key_highlights", key_highlights)]) ;;
  key_ingredients <-- get_or_new "key_ingredients" (OList []) ingredients ;;
  ingredient_details <-- get_or_new "ingredient_details" (ODict []) ingredients ;;
  ingredients_concentration <-- get_default "concentration" e ingredients ;;
  ingredients_section <-- alloc (ODict [
    ("key_ingredients", key_ingredients);
    ("ingredient_details", ingredient_details);
    ("concentration", ingredients_concentration)]) ;;
  primary_benefits <-- get_or_new "primary_benefits" (OList []) benefits ;;
  formatted_benefits <-- get_or_new "formatted_benefits" (OList []) benefits ;;
  benefits_section <-- alloc (ODict [
    ("primary_benefits", primary_benefits);
    ("formatted_benefits", formatted_benefits)]) ;;
  instructions <-- get_default "instructions" e usage ;;
  steps <-- get_or_new "steps" (OList []) usage ;;
  frequency <-- get_default "frequency" e usage ;;
  tips <-- get_or_new "application_tips" (OList []) usage ;;
  usage_section <-- alloc (ODict [
    ("instructions", instructions);
    ("steps", steps);
    ("frequency", frequency);
    ("tips", tips)]) ;;
  side_effects <-- get_default "side_effects" e safety ;;
  warnings <-- get_or_new "warnings" (OList []) safety ;;
  precautions <-- get_or_new "safety_notes" (OList []) safety ;;
  safety_section <-- alloc (ODict [
    ("side_effects", side_effects);
    ("warnings", warnings);
    ("precautions", precautions)]) ;;
  suitable_for <-- get_or_new "skin_type" (OList []) product_data ;;
  skin_type <-- alloc (ODict [("suitable_for", suitable_for)]) ;;
  sections <-- alloc (ODict [
    ("overview", overview);
    ("ingredients", ingredients_section);
    ("benefits", benefits_section);
    ("usage", usage_section);
    ("safety", safety_section);
    ("skin_type", skin_type)]) ;;
  alloc (ODict [("page_type", HStr "product_description");
                ("product_name", product_name);
                ("price", price);
                ("concentration", concentration);
                ("sections", sections)]).

(** one of the two entries of ["products"] *)
Definition product_summary (p : hval) : Mem hval :=
  let e := HStr EmptyString in
  name <-- get_default "product_name" e p ;;
  price <-- get_default "price" e p ;;
  concentration <-- get_default "concentration" e p ;;
  key_ingredients <-- get_or_new "key_ingredients" (OList []) p ;;
  benefits <-- get_or_new "benefits" (OList []) p ;;
  skin_type <-- get_or_new "skin_type" (OList []) p ;;
  alloc (ODict [("name", name);
                ("price", price);
                ("concentration", concentration);
                ("key_ingredients", key_ingredients);
                ("benefits", benefits);
                ("skin_type", skin_type)]).

(** [ComparisonTemplate.apply(data, content_blocks)] *)
Definition ComparisonTemplate_apply (data content_blocks : hval) : Mem hval :=
  let e := HStr EmptyString in
  product1 <-- get_or_new "product1_data" (ODict []) data ;;
  product2 <-- get_or_new "product2_data" (ODict []) data ;;
  comparison <-- get_or_new "ingredients_comparison" (ODict []) content_blocks ;;
  summary1 <-- product_summary product1 ;;
  summary2 <-- product_summary product2 ;;
  products <-- alloc (ODict [("product1", summary1); ("product2", summary2)]) ;;
  common <-- get_or_new "common_ingredients" (OList []) comparison ;;
  unique_to_product1 <-- get_or_new "unique_to_product1" (OList []) comparison ;;
  unique_to_product2 <-- get_or_new "unique_to_product2" (OList []) comparison ;;
  similarity_score <-- get_default "similarity_score" (HNum 0%Q) comparison ;;
  ingredients <-- alloc (ODict [
    ("common", common);
    ("unique_to_product1", unique_to_product1);
    ("unique_to_product2", unique_to_product2);
    ("similarity_score", similarity_score)]) ;;
  product1_price <-- get_default "price" e product1 ;;
  product2_price <-- get_default "price" e product2 ;;
  price1 <-- get_default "price" e product1 ;;
  price2 <-- get_default "price" e product2 ;;
  price <-- alloc (ODict [
    ("product1_price", product1_price);
    ("product2_price", product2_price);
    ("price_difference", HStr (_calculate_price_difference price1 price2))]) ;;
  product1_benefits <-- get_or_new "benefits" (OList []) product1 ;;
  product2_benefits <-- get_or_new "benefits" (OList []) product2 ;;
  benefits1 <-- get_or_new "benefits" (OList []) product1 ;;
  b1 <-- set_of benefits1 ;;
  benefits2 <-- get_or_new "benefits" (OList []) product2 ;;
  b2 <-- set_of benefits2 ;;
  shared_benefits <-- list_of_set rt [b1; b2] (set_inter b1 b2) ;;
  benefits <-- alloc (ODict [
    ("product1_benefits", product1_benefits);
    ("product2_benefits", product2_benefits);
    ("shared_benefits", shared_benefits)]) ;;
  comparison_section <-- alloc (ODict [
    ("ingredients", ingredients);
    ("price", price);
    ("benefits", benefits)]) ;;
  recommendation <-- _generate_recommendation product1 product2 comparison ;;
  alloc (ODict [("page_type", HStr "comparison");
                ("products", products);
                ("comparison", comparison_section);
                ("recommendation", HStr recommendation)]).

(** a template class: its [get_fields] and its [apply] *)
Record Template : Type := {
  get_fields : list string;
  apply : hval -> hval -> Mem hval
}.

(** The three classes.  An instance of a template holds no field: it is
    held as the name of its class, and a method call on it goes to the
    class of that name. *)
Definition class (name : string) : option Template :=
  if String.eqb name "FAQTemplate"
  then Some {| get_fields := ["questions"; "product_data"];
               apply := FAQTemplate_apply |}
  else if String.eqb name "ProductDescriptionTemplate"
  then Some {| get_fields := ["product_data"; "benefits_content";
                              "usage_content"; "ingredients_content";
                              "safety_content"];
               apply := ProductDescriptionTemplate_apply |}
  else if String.eqb name "ComparisonTemplate"
  then Some {| get_fields := ["product1_data"; "product2_data"];
               apply := ComparisonTemplate_apply |}
  else None.

(** [self.templates], the dictionary made by [TemplateEngine.__init__] *)
Definition registry : list (string * hval) :=
  [("faq", HStr "FAQTemplate");
   ("product_description", HStr "ProductDescriptionTemplate");
   ("comparison", HStr "ComparisonTemplate")].

(** [TemplateEngine()] *)
Definition new_engine : Mem hval := alloc (ODict registry).

(** [if template_name not in self.templates: raise ValueError(...)] and
    [self.templates[template_name]]: one look into the dictionary *)
Definition template_named (templates : hval) (template_name : string)
  : Mem Template :=
  read (fun h =>
    match deref h templates with
    | Some (ODict entries) =>
        match field template_name entries with
        | Some (HStr name) =>
            match class name with
            | Some template => Ok template
            | None => Raise AttributeError
            end
        | Some _ => Raise AttributeError
        | None =>
            Raise (ValueError ("Unknown template: " ++ template_name)%string)
        end
    | _ => Raise TypeError
    end).

(** [[field for field in required_fields if field not in data]] *)
Fixpoint missing_fields (required_fields : list string) (data : hval)
  : Mem (list string) :=
  match required_fields with
  | [] => ret []
  | f :: rest =>
      present <-- has_key f data ;;
      missing <-- missing_fields rest data ;;
      ret (if present then missing else f :: missing)
  end.

(** [TemplateEngine.apply_template(template_name, data, content_blocks)],
    [templates] being [self.templates] *)
Definition apply_template (templates : hval) (template_name : string)
    (data content_blocks : hval) : Mem hval :=
  template <-- template_named templates template_name ;;
  missing <-- missing_fields (get_fields template) data ;;
  if negb (is_nil missing)
  then raise (ValueError ("Missing required fields: " ++
                          repr_str_list missing)%string)
  else apply template data content_blocks.

End WithRuntime.

(** the items of the FAQ list under construction: each a dictionary of its
    own, none the list itself, with the three fields read from [hb] *)
Definition faq_items_are (n : nat) (hb h : heap) (lf : loc)
    (acc : list hval) (done : list value) : Prop :=
  Forall2
    (fun i x =>
       exists li q a c xq xa xc,
         i = HRef li /\ li <> lf /\
         nth_error h li =
           Some (ODict [("question", q); ("answer", a); ("category", c)]) /\
         reify n hb q = Some xq /\
         reify n hb a = Some xa /\
         reify n hb c = Some xc /\
         x = VDict [("question", xq); ("answer", xa); ("category", xc)])
    acc done.

End TemplatesOnHeap.

(* ===================================================================== *)
(** ** The generative backend *)
(* ===================================================================== *)

Module Backend.

Record tool_call : Type := { tc_name : string; tc_args : dict }.

Record response : Type := { content : string; tool_calls : list tool_call }.

(** what one [invoke] brings back: a response, or a transport failure *)
Inductive reply : Type :=
| Reply (r : response)
| Fails.

(** The backend is not a function of the prompt: a stage sees an arbitrary
    sequence of replies, the n-th reply answering its n-th call. *)
Definition backend : Type := nat -> reply.

(** what a stage did, in order: backend calls and [json.loads] attempts *)
Inductive event : Type :=
| Invoked
| Parsed (ok : bool).

Record world : Type := { next_call : nat; trace : list event }.

Definition start : world := {| next_call := 0; trace := [] |}.

Definition Llm (A : Type) : Type := backend -> world -> result A * world.

Definition ret {A} (a : A) : Llm A := fun _ w => (Ok a, w).

Definition bind {A B} (c : Llm A) (k : A -> Llm B) : Llm B :=
  fun b w =>
    match c b w with
    | (Ok a, w') => k a b w'
    | (Raise e, w') => (Raise e, w')
    end.

Definition lift {A} (r : result A) : Llm A := fun _ w => (r, w).

Definition raise {A} (e : exn) : Llm A := lift (Raise e).

(** [try: c  except Exception as e: h e] *)
Definition catch {A} (c : Llm A) (h : exn -> Llm A) : Llm A :=
  fun b w =>
    match c b w with
    | (Ok a, w') => (Ok a, w')
    | (Raise e, w') => h e b w'
    end.

(** [try: c  except json.JSONDecodeError as e: h e]: any other exception
    goes on to the caller *)
Definition catch_decode {A} (c : Llm A) (h : exn -> Llm A) : Llm A :=
  fun b w =>
    match c b w with
    | (Raise JSONDecodeError, w') => h JSONDecodeError b w'
    | out => out
    end.

Definition log (e : event) (w : world) : world :=
  {| next_call := next_call w; trace := trace w ++ [e] |}.

(** [llm.invoke(messages)] *)
Definition invoke : Llm response :=
  fun b w =>
    let w' := {| next_call := S (next_call w); trace := trace w ++ [Invoked] |} in
    match b (next_call w) with
    | Reply r => (Ok r, w')
    | Fails => (Raise BackendError, w')
    end.

(** [json.loads(text)] *)
Definition loads (rt : Runtime) (text : string) : Llm value :=
  fun _ w =>
    match json_loads rt text with
    | Some v => (Ok v, log (Parsed true) w)
    | None => (Raise (json_error rt text), log (Parsed false) w)
    end.

Definition calls (t : list event) : nat :=
  length (filter (fun e => match e with Invoked => true | _ => false end) t).

Definition parses (t : list event) : nat :=
  length (filter (fun e => match e with Parsed _ => true | _ => false end) t).

Definition failed_parses (t : list event) : nat :=
  length (filter (fun e => match e with Parsed false => true | _ => false end) t).

(** backend calls issued after the first [json.loads] attempt: the repair
    rounds of a stage *)
Fixpoint repair_calls (t : list event) : nat :=
  match t with
  | [] => 0
  | Parsed _ :: t' => calls t'
  | Invoked :: t' => repair_calls t'
  end.

(** *** Unwrapping the text of a response *)

Fixpoint drop (n : nat) (s : string) : string :=
  match n, s with
  | S n', String _ s' => drop n' s'
  | _, _ => s
  end.

(** the text after the first occurrence of [sep] *)
Fixpoint after_first (sep s : string) : option string :=
  if String.prefix sep s then Some (drop (String.length sep) s)
  else match s with
       | EmptyString => None
       | String _ s' => after_first sep s'
       end.

(** [s.split(sep)[0]] *)
Fixpoint before_first (sep s : string) : string :=
  if String.prefix sep s then EmptyString
  else match s with
       | EmptyString => EmptyString
       | String c s' => String c (before_first sep s')
       end.

(** [s.split(sep)[1]], for [sep in s] *)
Definition split_1 (sep s : string) : string :=
  match after_first sep s with
  | Some rest => before_first sep rest
  | None => EmptyString
  end.

Definition fence : string := "```".
Definition json_fence : string := "```json".

(** [if "```json" in t: t = t.split("```json")[1].split("```")[0].strip()
     elif "```" in t: t = t.split("```")[1].split("```")[0].strip()] *)
Definition unwrap (rt : Runtime) (t : string) : string :=
  if contains json_fence t
  then py_strip rt (before_first fence (split_1 json_fence t))
  else if contains fence t
  then py_strip rt (before_first fence (split_1 fence t))
  else t.

(** the same with the first branch only *)
Definition unwrap_json_only (rt : Runtime) (t : string) : string :=
  if contains json_fence t
  then py_strip rt (before_first fence (split_1 json_fence t))
  else t.

(** what is left of [s] from the first occurrence of the character [c] *)
Fixpoint from_first (c : ascii) (s : string) : option string :=
  match s with
  | EmptyString => None
  | String a s' => if Ascii.eqb a c then Some s else from_first c s'
  end.

(** the longest prefix of [s] that ends with the character [c] *)
Fixpoint upto_last (c : ascii) (s : string) : option string :=
  match s with
  | EmptyString => None
  | String a s' =>
      match upto_last c s' with
      | Some p => Some (String a p)
      | None => if Ascii.eqb a c then Some (String a EmptyString) else None
      end
  end.

(** [re.search(r'\[.*\]', s, re.DOTALL)]: from the first opening bracket to
    the last closing bracket after it *)
Definition search_array (s : string) : option string :=
  match from_first "[" s with
  | Some (String a rest) =>
      match upto_last "]" rest with
      | Some p => Some (String a p)
      | None => None
      end
  | _ => None
  end.

(** [s.startswith('[')] *)
Definition starts_with_bracket (s : string) : bool :=
  match s with
  | String a _ => Ascii.eqb a "["
  | EmptyString => false
  end.

(** [s.replace(a, b)] for one-character [a] and [b] *)
Fixpoint replace_char (a b : ascii) (s : string) : string :=
  match s with
  | EmptyString => EmptyString
  | String c s' => String (if Ascii.eqb c a then b else c) (replace_char a b s')
  end.

(** the number of bytes of the white-space character at the head of [s],
    0 when there is none.  White space is that of [\s] on a [str]: the
    ASCII white space and, in their UTF-8 encoding, U+0085, U+00A0,
    U+1680, U+2000 to U+200A, U+2028, U+2029, U+202F, U+205F and U+3000. *)
Definition space_length (s : string) : nat :=
  match s with
  | String a rest =>
      if is_space a then 1
      else
        match rest with
        | String b rest' =>
            let n := nat_of_ascii a in
            let m := nat_of_ascii b in
            if (n =? 194)%nat && ((m =? 133)%nat || (m =? 160)%nat) then 2
            else
              match rest' with
              | String c _ =>
                  let k := nat_of_ascii c in
                  if ((n =? 225) && (m =? 154) && (k =? 128))%nat then 3
                  else if ((n =? 226) && (m =? 128))%nat &&
                          (((128 <=? k) && (k <=? 138))%nat ||
                           (k =? 168)%nat || (k =? 169)%nat || (k =? 175)%nat)
                  then 3
                  else if ((n =? 226) && (m =? 129) && (k =? 159))%nat then 3
                  else if ((n =? 227) && (m =? 128) && (k =? 128))%nat then 3
                  else 0
              | EmptyString => 0
              end
        | EmptyString => 0
        end
  | EmptyString => 0
  end.

(** [re.sub(r',\s*X', 'X', s)] for a closing character [X]: a comma and the
    white space after it are dropped when [X] follows.  [pending] holds the
    comma and white space read and not yet written, and [more] counts the
    bytes still to come of the white-space character being read. *)
Fixpoint sub_trailing (closer : ascii) (pending : option string) (more : nat)
    (s : string) : string :=
  match s with
  | EmptyString =>
      match pending with Some w => w | None => EmptyString end
  | String c s' =>
      match pending with
      | Some w =>
          match more with
          | S m =>
              sub_trailing closer (Some (w ++ String c EmptyString)%string)
                m s'
          | O =>
              if Ascii.eqb c closer
              then String c (sub_trailing closer None 0 s')
              else
                match space_length s with
                | S m =>
                    sub_trailing closer
                      (Some (w ++ String c EmptyString)%string) m s'
                | O =>
                    if Ascii.eqb c ","
                    then (w ++ sub_trailing closer (Some ",") 0 s')%string
                    else (w ++ String c (sub_trailing closer None 0 s'))%string
                end
          end
      | None =>
          if Ascii.eqb c "," then sub_trailing closer (Some ",") 0 s'
          else String c (sub_trailing closer None 0 s')
      end
  end.

End Backend.
Import Backend.

Module LlmNotations.
  Notation "x <~ c1 ;; c2" := (bind c1 (fun x => c2))
    (at level 61, c1 at next level, right associativity).
End LlmNotations.
Import LlmNotations.

(* ===================================================================== *)
(** ** src/agents/*.py *)
(* ===================================================================== *)

(** Repository code whose payload no property below depends on, kept as
    parameters: the four content-block generators of [src/content_blocks],
    pure functions of the product dictionary. *)
Record ContentLogic : Type := {
  generate_benefits_content : dict -> result value;
  generate_usage_content : dict -> result value;
  generate_ingredients_content : dict -> result value;
  generate_safety_content : dict -> result value
}.

(** [str(e)]: the message of a [ValueError] raised by the code, the class
    name for an exception raised by a library *)
Definition exn_text (e : exn) : string :=
  match e with
  | ValueError msg => msg
  | TypeError => "TypeError"
  | AttributeError => "AttributeError"
  | IndexError => "IndexError"
  | JSONDecodeError => "JSONDecodeError"
  | RecursionError => "RecursionError"
  | ValidationError => "ValidationError"
  | BackendError => "BackendError"
  | InvalidUpdateError k => k
  | GraphRecursionError => "GraphRecursionError"
  end.

Definition errors_update (msg : string) : dict :=
  [("errors", VList [VStr msg])].

(** an argument declared [Dict[str, Any]] handed to a tool *)
Definition tool_dict (v : value) : result dict :=
  match v with VDict d => Ok d | _ => Raise ValidationError end.

Definition is_dict (v : value) : bool :=
  match v with VDict _ => true | _ => false end.

Definition is_str (v : value) : bool :=
  match v with VStr _ => true | _ => false end.

Definition is_list (v : value) : bool :=
  match v with VList _ => true | _ => false end.

(** [for tool_call in response.tool_calls: if name in self.tool_map:
    self.tool_map[name].invoke(args)], the result being dropped *)
Definition run_tools (rt : Runtime) (tool_map : list string)
    (tcs : list tool_call) : result unit :=
  fold_left
    (fun acc tc =>
       _ <- acc ;;
       if existsb (String.eqb (tc_name tc)) tool_map
       then if tool_completes rt (tc_name tc) (VDict (tc_args tc))
            then Ok tt else Raise ValidationError
       else Ok tt)
    tcs (Ok tt).

(** *** data_parser_agent.py *)

Definition str_field (k : string) (d : dict) : result value :=
  match dict_get k d with
  | Some (VStr s) => Ok (VStr s)
  | _ => Raise ValidationError
  end.

Definition str_list_field (k : string) (d : dict) : result value :=
  match dict_get k d with
  | Some (VList l) =>
      if forallb is_str l then Ok (VList l) else Raise ValidationError
  | _ => Raise ValidationError
  end.

(** The constructor [Product], applied to the unpacked dictionary, followed
    by [model_dump()]: the eight declared
    fields, each of its declared type; other keys are ignored *)
Definition Product_new (data : value) : result dict :=
  match data with
  | VDict d =>
      product_name <- str_field "product_name" d ;;
      concentration <- str_field "concentration" d ;;
      skin_type <- str_list_field "skin_type" d ;;
      key_ingredients <- str_list_field "key_ingredients" d ;;
      benefits <- str_list_field "benefits" d ;;
      how_to_use <- str_field "how_to_use" d ;;
      side_effects <- str_field "side_effects" d ;;
      price <- str_field "price" d ;;
      Ok [("product_name", product_name); ("concentration", concentration);
          ("skin_type", skin_type); ("key_ingredients", key_ingredients);
          ("benefits", benefits); ("how_to_use", how_to_use);
          ("side_effects", side_effects); ("price", price)]
  | _ => Raise TypeError
  end.

Module DataParserAgent.
Section WithRuntime.
Variable rt : Runtime.

Definition tool_map : list string :=
  ["validate_data_structure"; "analyze_product_data"].

(** the direct attempt, made when [validation["valid"]]: the constructor
    [Product] on the raw dictionary, a failure being swallowed *)
Definition direct (raw_data : dict) : option dict :=
  let validation :=
    Tools.validate_data_structure raw_data Tools.product_required_fields in
  if Tools.dv_valid validation then
    match Product_new (VDict raw_data) with
    | Ok product => Some product
    | Raise _ => None
    end
  else None.

(** [DataParserAgent.parse_product_data(raw_data)] *)
Definition parse_product_data (raw_data : dict) : Llm dict :=
  match direct raw_data with
  | Some product => ret product
  | None =>
      response <~ invoke ;;
      result_text <~
        (if negb (is_nil (tool_calls response)) then
           _ <~ lift (run_tools rt tool_map (tool_calls response)) ;;
           final_response <~ invoke ;;
           ret (content final_response)
         else ret (content response)) ;;
      catch
        (fixed_data <~ loads rt (unwrap rt result_text) ;;
         lift (Product_new fixed_data))
        (fun _ =>
           simple_response <~ invoke ;;
           let fix_text :=
             unwrap_json_only rt (py_strip rt (content simple_response)) in
           fixed_data <~ loads rt fix_text ;;
           lift (Product_new fixed_data))
  end.

(** [DataParserAgent.process(state)] *)
Definition process (state : dict) : Llm dict :=
  let raw_data := get "raw_product_data" state in
  if negb (truthy raw_data) then ret (errors_update "No product data provided")
  else
    raw <~ lift (tool_dict raw_data) ;;
    product <~ parse_product_data raw ;;
    ret [("parsed_product", VDict product);
         ("product", VDict product);
         ("data_parsed", VBool true)].

End WithRuntime.
End DataParserAgent.

(** *** content_blocks_agent.py *)

Module ContentBlocksAgent.
Section WithRuntime.
Variable rt : Runtime.
Variable logic : ContentLogic.

Definition tool_map : list string :=
  ["analyze_content_needs"; "analyze_product_data"].

Record content_needs : Type := {
  needs_benefits : bool;
  needs_usage : bool;
  needs_ingredients : bool;
  needs_safety : bool
}.

(** [analyze_content_needs(product_data)] *)
Definition analyze_content_needs (product_data : dict) : content_needs :=
  {| needs_benefits := truthy (get "benefits" product_data);
     needs_usage := truthy (get "how_to_use" product_data);
     needs_ingredients := truthy (get "key_ingredients" product_data);
     needs_safety := truthy (get "side_effects" product_data) |}.

Definition add_block (wanted : bool) (name : string)
    (gen : dict -> result value) (product_data : dict) (blocks : dict)
  : result dict :=
  if wanted then b <- gen product_data ;; Ok (dict_set name b blocks)
  else Ok blocks.

Definition add_blocks (needs : content_needs) (product_data : dict)
    (blocks : dict) : result dict :=
  blocks <- add_block (needs_benefits needs) "benefits"
              (generate_benefits_content logic) product_data blocks ;;
  blocks <- add_block (needs_usage needs) "usage"
              (generate_usage_content logic) product_data blocks ;;
  blocks <- add_block (needs_ingredients needs) "ingredients"
              (generate_ingredients_content logic) product_data blocks ;;
  add_block (needs_safety needs) "safety"
            (generate_safety_content logic) product_data blocks.

Definition all_needed : content_needs :=
  {| needs_benefits := true; needs_usage := true;
     needs_ingredients := true; needs_safety := true |}.

(** one tool call of the reasoning branch *)
Definition tool_step (product_data : dict) (blocks : dict) (tc : tool_call)
  : result dict :=
  if existsb (String.eqb (tc_name tc)) tool_map then
    if String.eqb (tc_name tc) "analyze_content_needs" then
      match dict_get "product_data" (tc_args tc) with
      | Some (VDict asked) =>
          add_blocks (analyze_content_needs asked) product_data blocks
      | _ => Raise ValidationError
      end
    else if tool_completes rt (tc_name tc) (VDict (tc_args tc))
         then Ok blocks else Raise ValidationError
  else Ok blocks.

(** [ContentBlocksAgent.generate_all_blocks(product_data)] *)
Definition generate_all_blocks (product_data : dict) : Llm dict :=
  let content_needs := analyze_content_needs product_data in
  blocks <~ lift (add_blocks content_needs product_data []) ;;
  blocks <~
    (if is_nil blocks then
       response <~ invoke ;;
       lift (fold_left
               (fun acc tc => b <- acc ;; tool_step product_data b tc)
               (tool_calls response) (Ok blocks))
     else ret blocks) ;;
  if is_nil blocks then lift (add_blocks all_needed product_data [])
  else ret blocks.

(** [ContentBlocksAgent.process(state)] *)
Definition process (state : dict) : Llm dict :=
  let product_data := get_default "parsed_product" (VDict []) state in
  if negb (truthy product_data)
  then ret (errors_update "No product data available for content block generation")
  else
    pd <~ lift (tool_dict product_data) ;;
    content_blocks <~ generate_all_blocks pd ;;
    ret [("content_blocks", VDict content_blocks);
         ("content_blocks_generated", VBool true)].

End WithRuntime.
End ContentBlocksAgent.

(** *** question_generator_agent.py *)

Module QuestionGeneratorAgent.
Section WithRuntime.
Variable rt : Runtime.

(** [', '.join(v)]: the items must be strings *)
Definition joinable (v : value) : result unit :=
  l <- py_iter v ;; if forallb is_str l then Ok tt else Raise TypeError.

(** the f-string of a prompt: [product_data.get(...)] and three joins.  The
    text of a prompt is not kept: the backend is not a function of it. *)
Definition prompt (product_data : value) : result unit :=
  d <- as_dict product_data ;;
  _ <- joinable (get_default "key_ingredients" (VList []) d) ;;
  _ <- joinable (get_default "benefits" (VList []) d) ;;
  joinable (get_default "skin_type" (VList []) d).

Definition double_quote : ascii := ascii_of_nat 34.

(** the repairs tried on a text that did not parse *)
Definition repair_text (content : string) : string :=
  sub_trailing "]" None 0
    (sub_trailing "}" None 0 (replace_char "'" double_quote content)).

(** [QuestionGeneratorAgent._generate_questions_direct_llm(product_data,
    count)]; [_generate_questions_with_tools] and
    [_generate_additional_questions_with_tools] are this same function *)
Definition _generate_questions_direct_llm (product_data : value) : Llm value :=
  _ <~ lift (prompt product_data) ;;
  response <~ invoke ;;
  let content := py_strip rt (content response) in
  let content := py_strip rt (unwrap rt content) in
  let content :=
    if starts_with_bracket content then content
    else match search_array content with
         | Some found => found
         | None => content
         end in
  catch_decode
    (questions <~ loads rt content ;;
     match questions with
     | VDict d =>
         if has_key "questions" d then ret (get "questions" d)
         else ret (VList [])
     | VList _ => ret questions
     | _ => ret (VList [])
     end)
    (fun _ =>
       catch
         (questions <~ loads rt (repair_text content) ;;
          if is_list questions then ret questions else ret (VList []))
         (fun _ => ret (VList []))).

(** [questions.extend(additional)] *)
Definition extend (questions additional : value) : result value :=
  match questions with
  | VList l => more <- py_iter additional ;; Ok (VList (l ++ more))
  | _ => Raise AttributeError
  end.

(** [questions[:n]], then iterated *)
Definition first_items (n : Z) (questions : value) : result (list value) :=
  match questions with
  | VList l => Ok (slice_to n l)
  | VStr s => Ok (slice_to n (chars s))
  | _ => Raise TypeError
  end.

(** an argument declared [str] handed to a tool *)
Definition tool_str (v : value) : result string :=
  match v with VStr s => Ok s | _ => Raise ValidationError end.

(** [generate_answer_for_question.invoke({...})]: one backend call, whose
    text is the answer *)
Definition generate_answer_for_question (question category product_data : value)
  : Llm string :=
  _ <~ lift (tool_str question) ;;
  _ <~ lift (tool_str category) ;;
  pd <~ lift (tool_dict product_data) ;;
  _ <~ lift (prompt (VDict pd)) ;;
  response <~ invoke ;;
  ret (content response).

(** [not q.get("answer") or len(q.get("answer", "")) < 5] *)
Definition answer_missing (d : dict) : result bool :=
  if negb (truthy (get "answer" d)) then Ok true
  else n <- py_len (get_default "answer" (VStr EmptyString) d) ;;
       Ok (n <? 5)%nat.

(** one turn of the validation loop: the question kept, if any *)
Definition validate_question (product_data : value) (q : value)
  : Llm (list value) :=
  match q with
  | VDict d =>
      if truthy (get "question" d) then
        d <~
          (if negb (truthy (get "category" d)) then
             text <~ lift (tool_str (get "question" d)) ;;
             _ <~ lift (tool_dict product_data) ;;
             ret (dict_set "category"
                    (VStr (Tools.categorize_question rt text)) d)
           else ret d) ;;
        missing <~ lift (answer_missing d) ;;
        d <~
          (if missing then
             answer <~ generate_answer_for_question
                         (get "question" d)
                         (get_default "category" (VStr "Informational") d)
                         product_data ;;
             ret (dict_set "answer" (VStr answer) d)
           else ret d) ;;
        ret [VDict d]
      else ret []
  | _ => ret []
  end.

Fixpoint validate_all (product_data : value) (qs : list value)
  : Llm (list value) :=
  match qs with
  | [] => ret []
  | q :: qs' =>
      kept <~ validate_question product_data q ;;
      rest <~ validate_all product_data qs' ;;
      ret (kept ++ rest)
  end.

(** [QuestionGeneratorAgent.generate_categorized_questions(product_data,
    min_questions)] *)
Definition generate_categorized_questions (product_data : value)
    (min_questions : Z) : Llm value :=
  _ <~ lift (prompt product_data) ;;
  questions <~ _generate_questions_direct_llm product_data ;;
  enough <~ lift
    (if truthy questions
     then n <- py_len questions ;; Ok (min_questions - 3 <=? Z.of_nat n)%Z
     else Ok false) ;;
  if enough then ret questions
  else
    questions <~
      catch
        (response <~ invoke ;;
         match search_array (content response) with
         | Some found =>
             tool_questions <~ loads rt found ;;
             match tool_questions with
             | VList l =>
                 n <~ lift (py_len questions) ;;
                 if (n <? length l)%nat then ret tool_questions
                 else ret questions
             | _ => ret questions
             end
         | None => ret questions
         end)
        (fun _ => ret questions) ;;
    n <~ lift (py_len questions) ;;
    questions <~
      (if (Z.of_nat n <? min_questions - 3)%Z then
         additional <~ _generate_questions_direct_llm product_data ;;
         lift (extend questions additional)
       else ret questions) ;;
    batch <~ lift (first_items min_questions questions) ;;
    validated_questions <~ validate_all product_data batch ;;
    ret (VList (slice_to min_questions validated_questions)).

(** [q.get("category", "Informational") for q in questions
     if q.get("category")] *)
Fixpoint listed_categories (questions : list value) : result (list value) :=
  match questions with
  | [] => Ok []
  | q :: qs =>
      d <- as_dict q ;;
      rest <- listed_categories qs ;;
      if truthy (get "category" d)
      then Ok (get_default "category" (VStr "Informational") d :: rest)
      else Ok rest
  end.

Definition failure_update (msg : string) : dict :=
  [("errors", VList [VStr msg]);
   ("questions", VList []);
   ("questions_generated", VBool false);
   ("question_count", VNat 0)].

(** [QuestionGeneratorAgent.process(state)] *)
Definition process (state : dict) : Llm dict :=
  let product_data := get_default "parsed_product" (VDict []) state in
  if negb (truthy product_data)
  then ret (errors_update "No product data available for question generation")
  else
    catch
      (questions <~ generate_categorized_questions product_data 15 ;;
       if negb (truthy questions)
       then ret (failure_update
         "Question generator failed to generate any questions. Check API connection.")
       else
         n <~ lift (py_len questions) ;;
         if Nat.eqb n 0
         then ret (failure_update
           "Question generator failed to generate any questions. Check API connection.")
         else
         items <~ lift (py_iter questions) ;;
         listed <~ lift (listed_categories items) ;;
         categories <~ lift (py_set listed) ;;
         ret [("questions", questions);
              ("questions_generated", VBool true);
              ("question_count", VNat n);
              ("categories", VList (list_of_set rt [] categories))])
      (fun e =>
         ret (failure_update ("Question generator error: " ++ exn_text e)%string)).

End WithRuntime.
End QuestionGeneratorAgent.

(** *** faq_generator_agent.py *)

Module FAQGeneratorAgent.
Section WithRuntime.
Variable rt : Runtime.

Definition tool_map : list string :=
  ["select_best_questions"; "validate_faq_structure";
   "validate_question_structure"].

(** [select_best_questions.invoke({"questions": qs, "count": n})]: the
    tool runtime wants a list of dictionaries *)
Definition select_best_questions_invoke (questions : value) (count : Z)
  : result (list value) :=
  match questions with
  | VList l =>
      if forallb is_dict l then Tools.select_best_questions l count
      else Raise ValidationError
  | _ => Raise ValidationError
  end.

(** the [count] argument of a tool call, declared [int]: 5 when absent,
    and otherwise the integer the tool runtime makes of what was sent, if
    it makes one *)
Definition count_argument (args : dict) : result Z :=
  match dict_get "count" args with
  | None => Ok 5%Z
  | Some sent =>
      match tool_int rt sent with
      | Some count => Ok count
      | None => Raise ValidationError
      end
  end.

(** one tool call of the repair branch: a [select_best_questions] call
    replaces the questions and applies the template again *)
Definition tool_step (engine : Templates.TemplateEngine) (product_data : value)
    (faq_page : dict) (tc : tool_call) : result dict :=
  if existsb (String.eqb (tc_name tc)) tool_map then
    if String.eqb (tc_name tc) "select_best_questions" then
      match dict_get "questions" (tc_args tc) with
      | Some asked =>
          count <- count_argument (tc_args tc) ;;
          selected <- select_best_questions_invoke asked count ;;
          Templates.apply_template engine "faq"
            [("questions", VList selected); ("product_data", product_data)] []
      | None => Raise ValidationError
      end
    else if tool_completes rt (tc_name tc) (VDict (tc_args tc))
         then Ok faq_page else Raise ValidationError
  else Ok faq_page.

(** [FAQGeneratorAgent.generate_faq_page(product_data, questions)] *)
Definition generate_faq_page (product_data : value) (questions : value)
  : Llm dict :=
  let engine := Templates.new_engine rt in
  selected_questions <~ lift (select_best_questions_invoke questions 5) ;;
  faq_page <~ lift (Templates.apply_template engine "faq"
                      [("questions", VList selected_questions);
                       ("product_data", product_data)] []) ;;
  validation <~ lift (Tools.validate_faq_structure faq_page) ;;
  if negb (Tools.fv_valid validation) then
    response <~ invoke ;;
    lift (fold_left
            (fun acc tc => page <- acc ;; tool_step engine product_data page tc)
            (tool_calls response) (Ok faq_page))
  else ret faq_page.

Definition failure_update (msg : string) : dict :=
  [("errors", VList [VStr msg]);
   ("faq_page", VNone);
   ("faq_generated", VBool false)].

Definition list_length (v : value) : nat :=
  match v with VList l => length l | _ => 0 end.

(** [FAQGeneratorAgent.process(state)].  The third message leaves out the
    printed type of the value found. *)
Definition process (state : dict) : Llm dict :=
  let product_data := get "parsed_product" state in
  let questions := get "questions" state in
  if negb (truthy product_data) then
    ret (errors_update
      "Missing product data for FAQ generation. Data parser may have failed.")
  else if negb (truthy questions) then
    ret (errors_update
      "Missing questions for FAQ generation. Question generator may have failed.")
  else if negb (is_list questions) || Nat.eqb (list_length questions) 0 then
    ret (failure_update
      "Questions list is empty or invalid. Question generator may have failed.")
  else
    catch
      (faq_page <~ generate_faq_page product_data questions ;;
       if negb (truthy (VDict faq_page))
       then ret (failure_update "FAQ page generation returned empty result")
       else ret [("faq_page", VDict faq_page); ("faq_generated", VBool true)])
      (fun e => ret (failure_update ("FAQ generation error: " ++ exn_text e)%string)).

End WithRuntime.
End FAQGeneratorAgent.

(** *** product_page_generator_agent.py *)

Module ProductPageGeneratorAgent.
Section WithRuntime.
Variable rt : Runtime.

Definition tool_map : list string :=
  ["analyze_page_structure"; "analyze_product_data"].

(** [analyze_page_structure(content_blocks, product_data)], the
    recommended sections *)
Definition recommended_sections (content_blocks product_data : dict)
  : list string :=
  map fst
    (filter (fun kv => snd kv)
       [("overview", true);
        ("ingredients", has_key "ingredients" content_blocks);
        ("benefits", has_key "benefits" content_blocks);
        ("usage", has_key "usage" content_blocks);
        ("safety", has_key "safety" content_blocks);
        ("skin_type", truthy (get "skin_type" product_data))]).

(** [ProductPageGeneratorAgent.generate_product_page(product_data,
    content_blocks)] *)
Definition generate_product_page (product_data content_blocks : dict)
  : Llm dict :=
  let engine := Templates.new_engine rt in
  let sections := recommended_sections content_blocks product_data in
  let data :=
    [("product_data", VDict product_data);
     ("benefits_content", get_default "benefits" (VDict []) content_blocks);
     ("usage_content", get_default "usage" (VDict []) content_blocks);
     ("ingredients_content", get_default "ingredients" (VDict []) content_blocks);
     ("safety_content", get_default "safety" (VDict []) content_blocks)] in
  product_page <~ lift (Templates.apply_template engine "product_description"
                          data content_blocks) ;;
  if is_nil sections || (length sections <? 3)%nat then
    response <~ invoke ;;
    _ <~ lift (run_tools rt tool_map (tool_calls response)) ;;
    ret product_page
  else ret product_page.

(** [ProductPageGeneratorAgent.process(state)] *)
Definition process (state : dict) : Llm dict :=
  let product_data := get_default "parsed_product" (VDict []) state in
  let content_blocks := get_default "content_blocks" (VDict []) state in
  if negb (truthy product_data) || negb (truthy content_blocks)
  then ret (errors_update
    "Missing product data or content blocks for product page generation")
  else
    blocks <~ lift (tool_dict content_blocks) ;;
    pd <~ lift (tool_dict product_data) ;;
    product_page <~ generate_product_page pd blocks ;;
    ret [("product_page", VDict product_page);
         ("product_page_generated", VBool true)].

End WithRuntime.
End ProductPageGeneratorAgent.

(** *** comparison_generator_agent.py *)

Module ComparisonGeneratorAgent.
Section WithRuntime.
Variable rt : Runtime.

Definition critical_fields : list string :=
  ["product_name"; "key_ingredients"; "benefits"; "price"].

(** [field in product_b], for whatever [json.loads] returned *)
Definition field_in (field : string) (product_b : value) : result bool :=
  match product_b with
  | VDict d => Ok (has_key field d)
  | VList l => Ok (py_mem (VStr field) l)
  | VStr s => Ok (contains field s)
  | _ => Raise TypeError
  end.

(** [for field in required_fields: if field not in product_b: raise] *)
Fixpoint check_required (fields : list string) (product_b : value)
  : result unit :=
  match fields with
  | [] => Ok tt
  | field :: rest =>
      present <- field_in field product_b ;;
      if present then check_required rest product_b
      else Raise (ValueError ("Missing required field in Product B: " ++ field)%string)
  end.

(** [if not isinstance(p.get(k), list): p[k] = [p.get(k)] if p.get(k) else []] *)
Definition ensure_list (k : string) (p : dict) : dict :=
  let v := get k p in
  if is_list v then p
  else dict_set k (if truthy v then VList [v] else VList []) p.

(** [ComparisonGeneratorAgent.generate_fictional_product_b(product_a_data)] *)
Definition generate_fictional_product_b (product_a_data : dict) : Llm dict :=
  response <~ invoke ;;
  product_b <~
    catch
      (loads rt (unwrap rt (content response)))
      (fun _ =>
         retry_response <~ invoke ;;
         loads rt (unwrap rt (py_strip rt (content retry_response)))) ;;
  _ <~ lift (check_required Tools.product_required_fields product_b) ;;
  validation <~ lift (Tools.validate_product_structure_invoke product_b) ;;
  let missing_critical :=
    filter (fun f => existsb (String.eqb f) critical_fields)
           (Tools.pv_missing_fields validation) in
  product_b <~
    (if negb (Tools.pv_valid validation) && negb (is_nil missing_critical) then
       fix_response <~ invoke ;;
       catch
         (loads rt (unwrap rt (content fix_response)))
         (fun _ =>
            raise (ValueError ("Could not generate valid Product B. Missing: " ++
                               repr_str_list missing_critical)%string))
     else ret product_b) ;;
  p <~ lift (as_dict product_b) ;;
  let p := ensure_list "skin_type" p in
  let p := ensure_list "key_ingredients" p in
  let p := ensure_list "benefits" p in
  let final_validation := Tools.validate_product_structure p in
  if negb (Tools.pv_valid final_validation)
  then raise (ValueError ("Product B validation failed: " ++
                repr_str_list (Tools.pv_missing_fields final_validation))%string)
  else ret p.

(** [ComparisonGeneratorAgent.generate_comparison_page(product_a_data,
    product_b_data)] *)
Definition generate_comparison_page (product_a_data product_b_data : dict)
  : result dict :=
  let engine := Templates.new_engine rt in
  comparison_result <- Tools.compare_products rt product_a_data product_b_data ;;
  ingredients_comparison <-
    IngredientsBlock.compare_ingredients rt
      (get_default "key_ingredients" (VList []) product_a_data)
      (get_default "key_ingredients" (VList []) product_b_data) ;;
  let ingredients_comparison :=
    dict_update ingredients_comparison comparison_result in
  Templates.apply_template engine "comparison"
    [("product1_data", VDict product_a_data);
     ("product2_data", VDict product_b_data)]
    [("ingredients_comparison", VDict ingredients_comparison)].

(** [ComparisonGeneratorAgent.process(state)] *)
Definition process (state : dict) : Llm dict :=
  let product_a_data := get_default "parsed_product" (VDict []) state in
  if negb (truthy product_a_data)
  then ret (errors_update "Missing product data for comparison generation")
  else
    pa <~ lift (as_dict product_a_data) ;;
    product_b_data <~ generate_fictional_product_b pa ;;
    comparison_page <~ lift (generate_comparison_page pa product_b_data) ;;
    ret [("comparison_page", VDict comparison_page);
         ("product_b_data", VDict product_b_data);
         ("comparison_generated", VBool true)].

End WithRuntime.
End ComparisonGeneratorAgent.

(** *** json_output_agent.py *)

Module JSONOutputAgent.

Definition output_dir : string := "outputs".

(** [os.path.join(self.output_dir, f"{page_name}.json")] *)
Definition page_path (page_name : string) : string :=
  (output_dir ++ "/" ++ page_name ++ ".json")%string.

Definition missing_pages (faq_page product_page comparison_page : value)
  : list string :=
  (if truthy faq_page then [] else ["FAQ page"]) ++
  (if truthy product_page then [] else ["Product page"]) ++
  (if truthy comparison_page then [] else ["Comparison page"]).

(** [JSONOutputAgent.format_and_save(faq_page, product_page,
    comparison_page)].  Every page is written: a [value] is always
    serializable, so the repair call of the source is never issued; writes
    to the file system are taken to succeed.  The tool runtime wants each
    page to be a dictionary. *)
Definition format_and_save (faq_page product_page comparison_page : value)
  : result dict :=
  _ <- tool_dict faq_page ;;
  _ <- tool_dict product_page ;;
  _ <- tool_dict comparison_page ;;
  let files_created :=
    [("faq", VStr (page_path "faq"));
     ("product_page", VStr (page_path "product_page"));
     ("comparison_page", VStr (page_path "comparison_page"))] in
  Ok [("files_created", VDict files_created);
      ("output_directory", VStr output_dir);
      ("all_pages_generated", VBool (Nat.eqb (length files_created) 3))].

(** [JSONOutputAgent.process(state)] *)
Definition process (state : dict) : Llm dict :=
  let faq_page := get "faq_page" state in
  let product_page := get "product_page" state in
  let comparison_page := get "comparison_page" state in
  let missing := missing_pages faq_page product_page comparison_page in
  if negb (is_nil missing) then
    let error_msg :=
      ("Missing pages for JSON output: " ++ String.concat ", " missing)%string in
    if truthy product_page && truthy comparison_page then
      ret [("files_created",
            VDict [("product_page", VStr (page_path "product_page"));
                   ("comparison_page", VStr (page_path "comparison_page"))]);
           ("output_directory", VStr output_dir);
           ("errors", VList [VStr error_msg]);
           ("json_output_complete", VBool false)]
    else ret (errors_update error_msg)
  else
    saved <~ lift (format_and_save faq_page product_page comparison_page) ;;
    ret (saved ++ [("json_output_complete", VBool true)]).

End JSONOutputAgent.

(* ===================================================================== *)
(** ** src/state/product_state_schema.py, src/workflow/product_workflow.py *)
(* ===================================================================== *)

Module Workflow.

(** The graph library (LangGraph) is not part of the repository.  What
    follows is its documented behaviour on a graph of this kind: nodes and
    edges are registered, the compiled graph runs in steps, a node is fed by
    the nodes that ran in the step before, and the dictionary a node
    returns is merged into the state key by key.

    [ProductState]: the keys of the shared state.  Every key carries a
    plain annotation (none is [Annotated] with a reducer), so the library
    keeps each one in a last-value channel: a write replaces the value, and
    two writes to one key in one step are refused. *)
Definition ProductState : list string :=
  ["raw_product_data";
   "parsed_product"; "product"; "data_parsed";
   "content_blocks"; "content_blocks_generated";
   "questions"; "questions_generated"; "question_count"; "categories";
   "faq_page"; "faq_generated";
   "product_page"; "product_page_generated";
   "comparison_page"; "product_b_data"; "comparison_generated";
   "files_created"; "output_directory"; "json_output_complete";
   "errors"].

Definition END : string := "__end__".

Definition node : Type := dict -> Llm dict.

Record StateGraph : Type := {
  schema : list string;
  nodes : list (string * node);
  edges : list (string * string);
  entry_point : option string
}.

Definition new_graph (schema : list string) : StateGraph :=
  {| schema := schema; nodes := []; edges := []; entry_point := None |}.

Definition node_names (g : StateGraph) : list string := map fst (nodes g).

Definition mem (x : string) (l : list string) : bool :=
  existsb (String.eqb x) l.

(** [workflow.add_node(name, action)]: a name is registered once *)
Definition add_node (name : string) (action : node) (g : StateGraph)
  : result StateGraph :=
  if mem name (node_names g) || String.eqb name END
  then Raise (ValueError ("Node already present or reserved: " ++ name)%string)
  else Ok {| schema := schema g; nodes := nodes g ++ [(name, action)];
             edges := edges g; entry_point := entry_point g |}.

(** [workflow.add_edge(start, end)] *)
Definition add_edge (start_key end_key : string) (g : StateGraph)
  : result StateGraph :=
  if String.eqb start_key END
  then Raise (ValueError "END cannot be a start node")
  else Ok {| schema := schema g; nodes := nodes g;
             edges := edges g ++ [(start_key, end_key)];
             entry_point := entry_point g |}.

(** [workflow.set_entry_point(name)] *)
Definition set_entry_point (name : string) (g : StateGraph) : result StateGraph :=
  Ok {| schema := schema g; nodes := nodes g; edges := edges g;
        entry_point := Some name |}.

(** [workflow.compile(...)]: the library checks that the entry point and
    the ends of every edge are registered nodes.  Nothing else is checked:
    in particular not which keys a node may write. *)
Definition compile (g : StateGraph) : result StateGraph :=
  let known n := mem n (node_names g) in
  match entry_point g with
  | None => Raise (ValueError "Graph must have an entrypoint")
  | Some e =>
      if known e &&
         forallb (fun ed => known (fst ed) &&
                            (known (snd ed) || String.eqb (snd ed) END))
                 (edges g)
      then Ok g
      else Raise (ValueError "Found edge to or from an unknown node")
  end.

Section WithRuntime.
Variable rt : Runtime.
Variable logic : ContentLogic.

(** [ProductContentWorkflow._build_workflow()] *)
Definition _build_workflow : result StateGraph :=
  g <- Ok (new_graph ProductState) ;;
  g <- add_node "data_parser" (DataParserAgent.process rt) g ;;
  g <- add_node "content_blocks" (ContentBlocksAgent.process rt logic) g ;;
  g <- add_node "question_generator" (QuestionGeneratorAgent.process rt) g ;;
  g <- add_node "faq_generator" (FAQGeneratorAgent.process rt) g ;;
  g <- add_node "product_page_generator" (ProductPageGeneratorAgent.process rt) g ;;
  g <- add_node "comparison_generator" (ComparisonGeneratorAgent.process rt) g ;;
  g <- add_node "json_output" JSONOutputAgent.process g ;;
  g <- add_edge "data_parser" "content_blocks" g ;;
  g <- add_edge "data_parser" "question_generator" g ;;
  g <- add_edge "content_blocks" "faq_generator" g ;;
  g <- add_edge "content_blocks" "product_page_generator" g ;;
  g <- add_edge "question_generator" "faq_generator" g ;;
  g <- add_edge "content_blocks" "comparison_generator" g ;;
  g <- add_edge "faq_generator" "json_output" g ;;
  g <- add_edge "product_page_generator" "json_output" g ;;
  g <- add_edge "comparison_generator" "json_output" g ;;
  g <- add_edge "json_output" END g ;;
  set_entry_point "data_parser" g.

(** [ProductContentWorkflow.__init__()]: build, then compile *)
Definition new_workflow : result StateGraph :=
  g <- _build_workflow ;; compile g.

End WithRuntime.

(** *** Execution of a compiled graph *)

Fixpoint find_node (name : string) (ns : list (string * node)) : option node :=
  match ns with
  | [] => None
  | (n, f) :: ns' => if String.eqb name n then Some f else find_node name ns'
  end.

(** the nodes fed by an edge from a node that has just run, in the order
    of their registration *)
Definition successors (g : StateGraph) (ran : list string) : list string :=
  filter (fun n => existsb (fun ed => mem (fst ed) ran && String.eqb (snd ed) n)
                           (edges g))
         (node_names g).

(** what a node returns for the keys of the schema; other keys are dropped *)
Definition writes_to (k : string) (updates : list dict) : list value :=
  flat_map (fun u => match dict_get k u with Some v => [v] | None => [] end)
           updates.

(** a last-value channel takes at most one write per step *)
Definition write_channel (state : result dict) (k : string)
    (updates : list dict) : result dict :=
  st <- state ;;
  match writes_to k updates with
  | [] => Ok st
  | [v] => Ok (dict_set k v st)
  | _ => Raise (InvalidUpdateError k)
  end.

Definition merge (g : StateGraph) (state : dict) (updates : list dict)
  : result dict :=
  fold_left (fun acc k => write_channel acc k updates) (schema g) (Ok state).

(** a node runs on the state as it was when the step began, against the
    replies the backend has for it *)
Definition run_node (g : StateGraph) (backends : string -> backend)
    (state : dict) (name : string) : result dict :=
  match find_node name (nodes g) with
  | Some action => fst (action state (backends name) start)
  | None => Raise (ValueError ("Unknown node: " ++ name)%string)
  end.

(** one step: the fed nodes run on the same state, then their updates
    are merged; a node that raises aborts the step *)
Definition superstep (g : StateGraph) (backends : string -> backend)
    (active : list string) (state : dict) : result dict :=
  updates <- mapM (run_node g backends state) active ;;
  merge g state updates.

(** [app.invoke(state)]: steps until no node is fed.  [limit] is the
    library's recursion limit. *)
Fixpoint invoke_graph (limit : nat) (g : StateGraph)
    (backends : string -> backend) (active : list string) (state : dict)
  : result dict :=
  match active with
  | [] => Ok state
  | _ =>
      match limit with
      | 0 => Raise GraphRecursionError
      | S limit' =>
          state' <- superstep g backends active state ;;
          invoke_graph limit' g backends (successors g active) state'
      end
  end.

Definition recursion_limit : nat := 25.

(** the dictionary [initial_state] of [ProductContentWorkflow.run] *)
Definition initial_state (product_data : dict) : dict :=
  [("raw_product_data", VDict product_data);
   ("parsed_product", VNone);
   ("product", VNone);
   ("data_parsed", VBool false);
   ("content_blocks", VNone);
   ("content_blocks_generated", VBool false);
   ("questions", VNone);
   ("questions_generated", VBool false);
   ("question_count", VNat 0);
   ("categories", VNone);
   ("faq_page", VNone);
   ("faq_generated", VBool false);
   ("product_page", VNone);
   ("product_page_generated", VBool false);
   ("comparison_page", VNone);
   ("product_b_data", VNone);
   ("comparison_generated", VBool false);
   ("files_created", VNone);
   ("output_directory", VNone);
   ("json_output_complete", VBool false);
   ("errors", VList [])].

(** [ProductContentWorkflow.run(product_data)], on the compiled graph *)
Definition run (app : StateGraph) (backends : string -> backend)
    (product_data : dict) : result dict :=
  match entry_point app with
  | Some e => invoke_graph recursion_limit app backends [e]
                           (initial_state product_data)
  | None => Raise (ValueError "Graph must have an entrypoint")
  end.

(** [ProductContentWorkflow().run(product_data)] *)
Definition build_and_run (rt : Runtime) (logic : ContentLogic)
    (backends : string -> backend) (product_data : dict) : result dict :=
  app <- new_workflow rt logic ;; run app backends product_data.

End Workflow.

(* ===================================================================== *)
(** ** Sample inputs *)
(* ===================================================================== *)

Module Sample.

Definition quoted (s : string) : string :=
  let q := String (ascii_of_nat 34) EmptyString in (q ++ s ++ q)%string.

(** the record of [src/main_product.py] *)
Definition PRODUCT_DATA : dict :=
  [("product_name", VStr "GlowBoost Vitamin C Serum");
   ("concentration", VStr "10% Vitamin C");
   ("skin_type", VList [VStr "Oily"; VStr "Combination"]);
   ("key_ingredients", VList [VStr "Vitamin C"; VStr "Hyaluronic Acid"]);
   ("benefits", VList [VStr "Brightening"; VStr "Fades dark spots"]);
   ("how_to_use", VStr "Apply 2–3 drops in the morning before sunscreen");
   ("side_effects", VStr "Mild tingling for sensitive skin");
   ("price", VStr "₹699")].

(** a complete second product, as JSON text and as the value it denotes *)
Definition product_b_text : string :=
  ("{" ++ quoted "product_name" ++ ": " ++ quoted "B" ++ ", " ++
   quoted "concentration" ++ ": " ++ quoted "5%" ++ ", " ++
   quoted "skin_type" ++ ": [], " ++
   quoted "key_ingredients" ++ ": [" ++ quoted "Vitamin C" ++ "], " ++
   quoted "benefits" ++ ": [], " ++
   quoted "how_to_use" ++ ": " ++ quoted "daily" ++ ", " ++
   quoted "price" ++ ": " ++ quoted "₹799" ++ "}")%string.

Definition product_b : dict :=
  [("product_name", VStr "B");
   ("concentration", VStr "5%");
   ("skin_type", VList []);
   ("key_ingredients", VList [VStr "Vitamin C"]);
   ("benefits", VList []);
   ("how_to_use", VStr "daily");
   ("price", VStr "₹799")].

Definition question (q a c : string) : value :=
  VDict [("question", VStr q); ("category", VStr c); ("answer", VStr a)].

Definition question_text (q a c : string) : string :=
  ("{" ++ quoted "question" ++ ": " ++ quoted q ++ ", " ++
   quoted "category" ++ ": " ++ quoted c ++ ", " ++
   quoted "answer" ++ ": " ++ quoted a ++ "}")%string.

(** twelve questions, as JSON text and as the value it denotes *)
Definition twelve : list (string * string * string) :=
  [("What is this product?", "A vitamin C serum.", "Informational");
   ("What does it contain?", "Vitamin C and hyaluronic acid.", "Informational");
   ("What does it do?", "It brightens and fades dark spots.", "Informational");
   ("Is it safe?", "Mild tingling may occur.", "Safety");
   ("Can sensitive skin take it?", "Start with a patch test.", "Safety");
   ("How do I use it?", "Apply 2-3 drops in the morning.", "Usage");
   ("How often do I apply it?", "Once a day, before sunscreen.", "Usage");
   ("What is the price?", "It costs 699 rupees.", "Purchase");
   ("Is it worth the price?", "It is priced below most serums.", "Purchase");
   ("Where is it sold?", "See the product page.", "Purchase");
   ("How does it compare?", "It is lighter than most serums.", "Comparison");
   ("Is it better than a cream?", "A serum absorbs faster.", "Comparison")].

Definition twelve_questions : list value :=
  map (fun t => question (fst (fst t)) (snd (fst t)) (snd t)) twelve.

Definition questions_text : string :=
  ("[" ++ String.concat ", "
            (map (fun t => question_text (fst (fst t)) (snd (fst t)) (snd t))
                 twelve) ++ "]")%string.

Definition five_questions : list value := firstn 5 twelve_questions.

(** [json.loads] on the three texts used below; no other text used below
    is JSON *)
Definition loads (text : string) : option value :=
  if String.eqb text "{}" then Some (VDict [])
  else if String.eqb text product_b_text then Some (VDict product_b)
  else if String.eqb text questions_text then Some (VList twelve_questions)
  else None.

(** on the texts used below, whose letters and white space are ASCII,
    [str.lower] and [str.strip] are [lower] and [strip] *)
(** an integer is taken as it is, and nothing else is coerced *)
Definition whole (v : value) : option Z :=
  match v with
  | VNum q => if Pos.eqb (Qden (Qred q)) 1 then Some (Qnum (Qred q)) else None
  | _ => None
  end.

(** the members of a set are listed as they came *)
Definition as_they_came (made_from : list (list value)) (s : list value)
  : list nat := seq 0 (length s).

(** on the texts used below, whose letters and white space are ASCII,
    [str.lower] and [str.strip] are [lower] and [strip]; a text that is not
    JSON is refused with [JSONDecodeError] *)
Definition rt : Runtime :=
  {| py_repr := fun _ => "None";
     py_lower := lower;
     py_strip := strip;
     json_loads := loads;
     json_error := fun _ => JSONDecodeError;
     tool_completes := fun _ _ => true;
     tool_int := whole;
     set_order := as_they_came |}.

(** the same runtime with another [json.loads] *)
Definition reading (parse : string -> option value) : Runtime :=
  {| py_repr := py_repr rt;
     py_lower := py_lower rt;
     py_strip := py_strip rt;
     json_loads := parse;
     json_error := json_error rt;
     tool_completes := tool_completes rt;
     tool_int := tool_int rt;
     set_order := set_order rt |}.

(** generators that return the given content blocks *)
Definition logic_returning (benefits usage ingredients safety : dict)
  : ContentLogic :=
  {| generate_benefits_content := fun _ => Ok (VDict benefits);
     generate_usage_content := fun _ => Ok (VDict usage);
     generate_ingredients_content := fun _ => Ok (VDict ingredients);
     generate_safety_content := fun _ => Ok (VDict safety) |}.

(** content blocks that echo the record above *)
Definition logic : ContentLogic :=
  logic_returning
    [("primary_benefits", get "benefits" PRODUCT_DATA)]
    [("instructions", get "how_to_use" PRODUCT_DATA)]
    [("key_ingredients", get "key_ingredients" PRODUCT_DATA)]
    [("side_effects", get "side_effects" PRODUCT_DATA)].

Definition says (text : string) : backend :=
  fun _ => Reply {| content := text; tool_calls := [] |}.

Definition down : backend := fun _ => Fails.

(** the question generator is sent the twelve questions and the comparison
    stage the complete product; no other stage calls the backend on the
    record above *)
Definition all_fine (stage : string) : backend :=
  if String.eqb stage "question_generator" then says questions_text
  else says product_b_text.

(** as above, but the comparison stage is sent an empty object *)
Definition comparison_incomplete (stage : string) : backend :=
  if String.eqb stage "comparison_generator" then says "{}"
  else all_fine stage.

(** as above, but the backend is down for the question generator *)
Definition questions_down (stage : string) : backend :=
  if String.eqb stage "question_generator" then down
  else all_fine stage.

(** the members of a set are listed last first *)
Definition backwards (made_from : list (list value)) (s : list value)
  : list nat := rev (seq 0 (length s)).

(** the engine, two questions, a product record and the two arguments of a
    call, as objects *)
Definition objects : Heap.heap :=
  [Heap.ODict TemplatesOnHeap.registry;
   Heap.ODict [("question", Heap.HStr "Is it safe for sensitive skin?");
               ("answer", Heap.HStr "Yes, after a patch test.");
               ("category", Heap.HStr "Safety")];
   Heap.ODict [("question", Heap.HStr "How do I apply it?");
               ("answer", Heap.HStr "Two drops in the morning.")];
   Heap.OList [Heap.HRef 1; Heap.HRef 2];
   Heap.ODict [("product_name", Heap.HStr "GlowBoost Vitamin C Serum")];
   Heap.ODict [("questions", Heap.HRef 3); ("product_data", Heap.HRef 4)];
   Heap.ODict []].

(** the first argument of that call, as a value *)
Definition two_questions : dict :=
  [("questions",
    VList [VDict [("question", VStr "Is it safe for sensitive skin?");
                  ("answer", VStr "Yes, after a patch test.");
                  ("category", VStr "Safety")];
           VDict [("question", VStr "How do I apply it?");
                  ("answer", VStr "Two drops in the morning.")]]);
   ("product_data",
    VDict [("product_name", VStr "GlowBoost Vitamin C Serum")])].

End Sample.

(* ===================================================================== *)
(** ** Vocabulary of the statements *)
(* ===================================================================== *)

Module Spec.

Fixpoint all_chars (p : ascii -> bool) (s : string) : bool :=
  match s with
  | EmptyString => true
  | String c s' => p c && all_chars p s'
  end.

Definition no_digit (s : string) : Prop :=
  all_chars (fun c => negb (is_digit c)) s = true.

Definition no_leading_digit (s : string) : Prop :=
  match s with
  | EmptyString => True
  | String c _ => is_digit c = false
  end.

(** [run] is the first maximal run of digits of [s] *)
Definition first_run (run s : string) : Prop :=
  exists pre post,
    s = (pre ++ run ++ post)%string /\
    no_digit pre /\
    run <> EmptyString /\ all_chars is_digit run = true /\
    no_leading_digit post.

(** text made of ASCII characters and rupee signs (bytes E2 82 B9): its
    only decimal digits are the ASCII ones *)
Fixpoint rupee_text (s : string) : bool :=
  match s with
  | EmptyString => true
  | String c s1 =>
      if (nat_of_ascii c <? 128)%nat then rupee_text s1
      else match s1 with
           | String c2 (String c3 s3) =>
               Nat.eqb (nat_of_ascii c) 226 && Nat.eqb (nat_of_ascii c2) 130 &&
               Nat.eqb (nat_of_ascii c3) 185 && rupee_text s3
           | _ => false
           end
  end.

(** a price in such text whose number a float holds exactly *)
Definition exact_price (p : string) : Prop :=
  rupee_text p = true /\
  forall n, Templates.price_number p = Some n -> (n < 2 ^ 53)%N.

(** The currency delta in the words of the specification: the first run of
    digits of each string as written, their absolute difference, or no
    answer. *)
Definition spec_currency_delta (p1 p2 : string) : option N :=
  match first_digit_run p1, first_digit_run p2 with
  | Some r1, Some r2 =>
      Some (Z.abs_N (Z.of_N (digits_value r1) - Z.of_N (digits_value r2)))
  | _, _ => None
  end.

(** the four keyword sets of [FAQTemplate.apply], in the order tested *)
Definition faq_safety : list string := ["safe"; "side effect"; "irritat"].
Definition faq_usage : list string := ["how to"; "use"; "apply"].
Definition faq_purchase : list string := ["price"; "cost"; "buy"].
Definition faq_comparison : list string := ["compare"; "vs"; "versus"].



(** the if-chain both functions share *)
Definition cascade (safety usage purchase comparison : list string)
    (text : string) : string :=
  if any_in safety text then "Safety"
  else if any_in usage text then "Usage"
  else if any_in purchase text then "Purchase"
  else if any_in comparison text then "Comparison"
  else "Informational".

Definition fixed_categories : list string :=
  ["Informational"; "Safety"; "Usage"; "Purchase"; "Comparison"].

(** what one item of the page owes to the question it comes from *)
Definition item_of (qa item : value) : Prop :=
  exists d category,
    qa = VDict d /\
    item = VDict [("question", get_default "question" (VStr EmptyString) d);
                  ("answer", get_default "answer" (VStr EmptyString) d);
                  ("category", category)] /\
    truthy category = true /\
    (truthy (get "category" d) = true -> category = get "category" d) /\
    (truthy (get "category" d) = false ->
     exists c, category = VStr c /\ In c fixed_categories).

(** every value the computation can return satisfies [P] *)
Definition returns {A} (P : A -> Prop) (c : Llm A) : Prop :=
  forall b w a w', c b w = (Ok a, w') -> P a.

(** the computation never raises *)
Definition total {A} (c : Llm A) : Prop :=
  forall b w, exists a, fst (c b w) = Ok a.

(** what is counted on the trace of a stage *)
Definition bounded_repair {A} (out : result A * world) : Prop :=
  let t := trace (snd out) in
  parses t <= 2 /\ repair_calls t <= 1 /\
  (failed_parses t = 2 -> exists e, fst out = Raise e).

(** the boolean completion flags of [ProductState] *)
Definition completion_flags : list string :=
  ["data_parsed"; "content_blocks_generated"; "questions_generated";
   "faq_generated"; "product_page_generated"; "comparison_generated";
   "json_output_complete"].

Definition is_str_list (v : value) : bool :=
  match v with VList l => forallb is_str l | _ => false end.

Definition is_bool (v : value) : bool :=
  match v with VBool _ => true | _ => false end.

(** what [ProductState] declares of the value under a key: [errors] is a
    list of strings, a completion flag is a boolean *)
Definition slot_ok (k : string) (v : value) : bool :=
  if String.eqb k "errors" then is_str_list v
  else if Workflow.mem k completion_flags then is_bool v
  else true.

(** the keys in the dictionaries a stage returns, read off the [return]
    statements of its [process] *)
Definition writes (stage : string) : list string :=
  if String.eqb stage "data_parser" then
    ["errors"; "parsed_product"; "product"; "data_parsed"]
  else if String.eqb stage "content_blocks" then
    ["errors"; "content_blocks"; "content_blocks_generated"]
  else if String.eqb stage "question_generator" then
    ["errors"; "questions"; "questions_generated"; "question_count"; "categories"]
  else if String.eqb stage "faq_generator" then
    ["errors"; "faq_page"; "faq_generated"]
  else if String.eqb stage "product_page_generator" then
    ["errors"; "product_page"; "product_page_generated"]
  else if String.eqb stage "comparison_generator" then
    ["errors"; "comparison_page"; "product_b_data"; "comparison_generated"]
  else if String.eqb stage "json_output" then
    ["errors"; "files_created"; "output_directory"; "json_output_complete";
     "all_pages_generated"]
  else [].

Definition stage_names : list string :=
  ["data_parser"; "content_blocks"; "question_generator"; "faq_generator";
   "product_page_generator"; "comparison_generator"; "json_output"].

Definition update_ok (allowed : list string) (u : dict) : bool :=
  forallb (fun kv => Workflow.mem (fst kv) allowed && slot_ok (fst kv) (snd kv)) u.

(** a stage all of whose returned dictionaries keep to its keys and to the
    declared types *)
Definition stage_ok (name : string) (f : Workflow.node) : Prop :=
  forall state, returns (fun u => update_ok (writes name) u = true) (f state).

(** some run of the stage returns a dictionary with the key *)
Definition may_write (f : Workflow.node) (k : string) : Prop :=
  exists state b w u w', f state b w = (Ok u, w') /\ has_key k u = true.

(** a state in which every declared key is present with a value of its
    declared type *)
Definition state_ok (st : dict) : Prop :=
  forall k, In k Workflow.ProductState ->
    exists v, dict_get k st = Some v /\ slot_ok k v = true.

(** every value a step writes under a key has the key's declared type *)
Definition typed_updates (updates : list dict) : Prop :=
  forall u k v, In u updates -> dict_get k u = Some v -> slot_ok k v = true.

(** every node of the graph is a stage that keeps to the declared types *)
Definition typed_graph (g : Workflow.StateGraph) : Prop :=
  forall name f, Workflow.find_node name (Workflow.nodes g) = Some f ->
    stage_ok name f.

(** two dictionaries with the same keys and values, in whatever order *)
Definition same_content (d1 d2 : dict) : Prop :=
  forall k, dict_get k d1 = dict_get k d2.

(** the runtime of another process of the same interpreter: another seed
    of the string hashes, and with it another order of the sets *)
Definition another_process (rt : Runtime)
    (order : list (list value) -> list value -> list nat) : Runtime :=
  {| py_repr := py_repr rt;
     py_lower := py_lower rt;
     py_strip := py_strip rt;
     json_loads := json_loads rt;
     json_error := json_error rt;
     tool_completes := tool_completes rt;
     tool_int := tool_int rt;
     set_order := order |}.

(** [v'] is [v] but for the order of the list found under the keys [path] *)
Fixpoint relisted_at (path : list string) (v v' : value) : Prop :=
  match path with
  | [] => exists l l', v = VList l /\ v' = VList l' /\ Permutation l l'
  | k :: path' =>
      exists d x x',
        v = VDict d /\ dict_get k d = Some x /\ relisted_at path' x x' /\
        v' = VDict (dict_set k x' d)
  end.

(** two outcomes of a composition that differ at most in the order of the
    two lists that the templates make from sets *)
Definition same_but_set_order (r r' : result dict) : Prop :=
  match r, r' with
  | Ok page, Ok page' =>
      page' = page \/
      relisted_at ["categories"] (VDict page) (VDict page') \/
      relisted_at ["comparison"; "benefits"; "shared_benefits"]
        (VDict page) (VDict page')
  | Raise e, Raise e' => e = e'
  | _, _ => False
  end.

(** An attempt of the extraction protocol on a text: the text is parsed,
    and what was parsed is validated.  The attempt is valid when it gives
    a record, and failed when it raises: the text does not parse, or what
    was parsed is refused. *)
Definition attempt {A} (rt : Runtime) (validate : value -> result A)
    (text : string) : result A :=
  match json_loads rt text with
  | Some v => validate v
  | None => Raise (json_error rt text)
  end.

(** what [generate_fictional_product_b] asks of what it parsed: every
    required field is there, the tool takes it, and it is a dictionary;
    the record is that dictionary with its three lists made lists *)
Definition product_b_checked (product_b : value) : result dict :=
  _ <- ComparisonGeneratorAgent.check_required Tools.product_required_fields
         product_b ;;
  _ <- Tools.validate_product_structure_invoke product_b ;;
  p <- as_dict product_b ;;
  Ok (ComparisonGeneratorAgent.ensure_list "benefits"
        (ComparisonGeneratorAgent.ensure_list "key_ingredients"
           (ComparisonGeneratorAgent.ensure_list "skin_type" p))).

(** The extraction protocol with its bound, on the outcome of a stage
    against the backend [b]: at most two attempts, at most one call of the
    backend after the first (the repair round).  An outcome reached
    without a repair round is the outcome of the first attempt, on the
    text of the last reply; an outcome reached after the repair round is
    the outcome of the second attempt, on the text of the reply to that
    round, VALID or FAILED, unless the call of the round itself failed. *)
Definition bounded_extraction {A} (rt : Runtime) (b : backend)
    (validate : value -> result A) (strip1 strip2 : string -> string)
    (out : result A * world) : Prop :=
  let t := trace (snd out) in
  parses t <= 2 /\ repair_calls t <= 1 /\
  (parses t = 1 -> repair_calls t = 0 ->
   exists r, b (calls t - 1) = Reply r /\
     fst out = attempt rt validate (strip1 (content r))) /\
  (repair_calls t = 1 ->
   (b (calls t - 1) = Fails /\ fst out = Raise BackendError) \/
   exists r, b (calls t - 1) = Reply r /\
     fst out = attempt rt validate (strip2 (content r))).

End Spec.
Import Spec.

(* ===================================================================== *)
(** ** Vocabulary of the resource bounds *)
(* ===================================================================== *)

Module Cost.

(** the computation issues at most [n] calls to the backend, whatever the
    backend answers and whatever was done before *)
Definition calls_within {A} (n : nat) (c : Llm A) : Prop :=
  forall b w, calls (trace (snd (c b w))) <= calls (trace w) + n.

End Cost.
Import Cost.

Module Blocks.

(** [v] is what the generator registered under [name] makes of the
    product *)
Definition block_of (logic : ContentLogic) (product_data : dict)
    (name : string) (v : value) : Prop :=
  (name = "benefits" /\ generate_benefits_content logic product_data = Ok v) \/
  (name = "usage" /\ generate_usage_content logic product_data = Ok v) \/
  (name = "ingredients" /\
   generate_ingredients_content logic product_data = Ok v) \/
  (name = "safety" /\ generate_safety_content logic product_data = Ok v).

(** every block is what its generator makes of the product *)
Definition generated (logic : ContentLogic) (product_data : dict)
    (blocks : dict) : Prop :=
  forall k v, dict_get k blocks = Some v -> block_of logic product_data k v.

End Blocks.
Import Blocks.

Module Text.

(** text without a backquote *)
Definition no_backquote (s : string) : Prop :=
  Spec.all_chars (fun a => negb (Ascii.eqb a "`")) s = true.

End Text.
Import Text.

(* ===================================================================== *)
(** ** Lemmas on strings *)
(* ===================================================================== *)

Lemma span_digits_spec (s : string) :
  s = (fst (span_digits s) ++ snd (span_digits s))%string /\
  all_chars is_digit (fst (span_digits s)) = true /\
  no_leading_digit (snd (span_digits s)).
Proof.
  induction s as [|c s IH]; simpl.
  - repeat split.
  - destruct (is_digit c) eqn:Hc.
    + destruct (span_digits s) as [run rest]; simpl in *.
      destruct IH as (Hs & Hall & Hrest).
      repeat split; [now rewrite <- Hs | now rewrite Hc | exact Hrest].
    + simpl. repeat split. exact Hc.
Qed.

Lemma first_digit_run_cons (c : ascii) (s : string) :
  first_digit_run (String c s) =
  if is_digit c then Some (fst (span_digits (String c s)))
  else first_digit_run s.
Proof. reflexivity. Qed.

Lemma span_digits_digit (c : ascii) (s : string) :
  is_digit c = true -> fst (span_digits (String c s)) <> EmptyString.
Proof.
  intros Hc. simpl. rewrite Hc. destruct (span_digits s). discriminate.
Qed.

Lemma first_digit_run_some (s run : string) :
  first_digit_run s = Some run -> first_run run s.
Proof.
  induction s as [|c s IH]; [discriminate|].
  rewrite first_digit_run_cons.
  destruct (is_digit c) eqn:Hc.
  - intros H. inversion H as [Hrun]. clear H.
    destruct (span_digits_spec (String c s)) as (Hs & Hall & Hrest).
    exists EmptyString, (snd (span_digits (String c s))).
    repeat split; try assumption.
    now apply span_digits_digit.
  - intros H. destruct (IH H) as (pre & post & Hs & Hpre & Hne & Hall & Hpost).
    exists (String c pre), post. repeat split; try assumption.
    + simpl. now rewrite Hs.
    + unfold no_digit. simpl. now rewrite Hc.
Qed.

Lemma first_digit_run_none (s : string) :
  first_digit_run s = None <-> no_digit s.
Proof.
  unfold no_digit. induction s as [|c s IH]; simpl.
  - tauto.
  - destruct (is_digit c); simpl; [split; discriminate | exact IH].
Qed.

Lemma currency_prefix_not_empty (s : string) :
  (Templates.currency_prefix ++ s)%string <> EmptyString.
Proof. discriminate. Qed.

Lemma price_difference_strings (p1 p2 : string) :
  Templates._calculate_price_difference (VStr p1) (VStr p2) =
  match first_digit_run (remove_char "," p1),
        first_digit_run (remove_char "," p2) with
  | Some r1, Some r2 =>
      (Templates.currency_prefix ++
       decimal (Z.abs_N (Z.of_N (digits_value r1) - Z.of_N (digits_value r2))))%string
  | _, _ => EmptyString
  end.
Proof.
  unfold Templates._calculate_price_difference, Templates.price_number.
  destruct (first_digit_run (remove_char "," p1)); simpl;
    destruct (first_digit_run (remove_char "," p2)); reflexivity.
Qed.

Lemma remove_char_absent (c : ascii) (s : string) :
  all_chars (fun a => negb (Ascii.eqb a c)) (remove_char c s) = true.
Proof.
  induction s as [|a s IH]; simpl; [reflexivity|].
  destruct (Ascii.eqb a c) eqn:E; simpl; [exact IH | now rewrite E].
Qed.

(* ===================================================================== *)
(** ** Currency delta (C3) *)
(* ===================================================================== *)

Example price_difference_699_799 :
  Templates._calculate_price_difference (VStr "₹699") (VStr "₹799") =
  (Templates.currency_prefix ++ "100")%string.
Proof. reflexivity. Qed.

Example price_difference_contact_us :
  Templates._calculate_price_difference (VStr "₹699") (VStr "contact us") =
  EmptyString.
Proof. reflexivity. Qed.

(** a price that is not a string is swallowed by the bare [except] *)
Example price_difference_not_a_string :
  Templates._calculate_price_difference (VNum 699%Q) (VStr "₹799") = EmptyString.
Proof. reflexivity. Qed.

(** C3, as stated, fails: the code removes the commas before it looks for
    digits, so on "1,299" against "1" it answers 1298, where the first runs
    of digits of the two strings (1 and 1) differ by 0. *)
Lemma price_difference_counterexample :
  spec_currency_delta "1,299" "1" = Some 0%N /\
  Templates._calculate_price_difference (VStr "1,299") (VStr "1") =
    (Templates.currency_prefix ++ "1298")%string /\
  Templates._calculate_price_difference (VStr "1,299") (VStr "1") <>
    (Templates.currency_prefix ++ decimal 0)%string.
Proof. split; [reflexivity | split; [reflexivity | discriminate]]. Qed.

(** C3 (amended).  For two price strings made of ASCII characters and
    rupee signs, whose numbers a float holds exactly,
    [_calculate_price_difference] removes every comma from each
    string and takes the first maximal run of decimal digits of what
    remains.  When both strings have one, the answer is the currency prefix
    followed by the decimal notation of the absolute difference of the two
    numbers; when either string has no digit, and only then, the answer is
    the empty string (never a formatted zero). *)
Theorem price_difference_rule (p1 p2 : string)
    (E1 : exact_price p1) (E2 : exact_price p2) :
  let s1 := remove_char "," p1 in
  let s2 := remove_char "," p2 in
  let out := Templates._calculate_price_difference (VStr p1) (VStr p2) in
  (forall r1 r2,
     first_digit_run s1 = Some r1 -> first_digit_run s2 = Some r2 ->
     first_run r1 s1 /\ first_run r2 s2 /\
     out = (Templates.currency_prefix ++
            decimal (Z.abs_N (Z.of_N (digits_value r1) -
                              Z.of_N (digits_value r2))))%string) /\
  (no_digit s1 \/ no_digit s2 <-> out = EmptyString) /\
  (no_digit s1 \/ no_digit s2 ->
   out <> (Templates.currency_prefix ++ decimal 0)%string).
Proof.
  intros s1 s2 out.
  assert (Hout := price_difference_strings p1 p2).
  fold s1 s2 out in Hout.
  assert (Hfail : no_digit s1 \/ no_digit s2 <-> out = EmptyString).
  { rewrite <- !first_digit_run_none. split.
    - intros [H|H]; rewrite H in Hout; [exact Hout|].
      destruct (first_digit_run s1); exact Hout.
    - intros Hempty. rewrite Hempty in Hout.
      destruct (first_digit_run s1); [|now left].
      destruct (first_digit_run s2); [|now right].
      symmetry in Hout. now apply currency_prefix_not_empty in Hout. }
  split; [|split].
  - intros r1 r2 H1 H2. rewrite H1, H2 in Hout.
    repeat split; auto using first_digit_run_some.
  - exact Hfail.
  - intros H. apply Hfail in H. rewrite H. discriminate.
Qed.

Lemma exact_price_699 : exact_price "₹699".
Proof.
  split; [reflexivity|]. intros n H. vm_compute in H. inversion H. reflexivity.
Defined.

Lemma exact_price_799 : exact_price "₹799".
Proof.
  split; [reflexivity|]. intros n H. vm_compute in H. inversion H. reflexivity.
Defined.

Lemma price_difference_rule_witness :
  Templates._calculate_price_difference (VStr "₹699") (VStr "₹799") =
  (Templates.currency_prefix ++ decimal 100)%string.
Proof.
  destruct (price_difference_rule "₹699" "₹799" exact_price_699 exact_price_799)
    as [H _].
  destruct (H "699" "799" eq_refl eq_refl) as (_ & _ & Hout).
  exact Hout.
Defined.

(* ===================================================================== *)
(** ** Category inference (C7) *)
(* ===================================================================== *)


Lemma infer_category_cascade (text : string) :
  Templates.infer_category text =
  cascade faq_safety faq_usage faq_purchase faq_comparison text.
Proof. reflexivity. Qed.


Lemma cascade_fixed (s u p c : list string) (text : string) :
  In (cascade s u p c text) fixed_categories.
Proof.
  unfold cascade, fixed_categories.
  destruct (any_in s text), (any_in u text), (any_in p text), (any_in c text);
    simpl; tauto.
Qed.



(* ===================================================================== *)
(** ** Ingredient comparison (C2) *)
(* ===================================================================== *)








Lemma distinct_NoDup (l : list nat) : distinct l = true -> NoDup l.
Proof.
  induction l as [|i l IH]; simpl; intros H; [constructor|].
  apply andb_prop in H as [Hi Hl]. constructor; [|auto].
  intros Hin. apply negb_true_iff in Hi.
  assert (E : existsb (Nat.eqb i) l = true)
    by (apply existsb_exists; exists i; split; [exact Hin | apply Nat.eqb_refl]).
  congruence.
Qed.

Lemma map_nth_seq {A} (l : list A) (d : A) :
  map (fun i => nth i l d) (seq 0 (length l)) = l.
Proof.
  induction l as [|x l IH]; [reflexivity|].
  cbn [length seq map nth]. f_equal.
  rewrite <- seq_shift, map_map. exact IH.
Qed.

(** a set is listed with its members, each once, in some order *)
Lemma list_of_set_perm (rt : Runtime) (made_from : list (list value))
    (s : list value) :
  Permutation (list_of_set rt made_from s) s.
Proof.
  unfold list_of_set.
  destruct (is_rearrangement (length s) (set_order rt made_from s)) eqn:R;
    [|apply Permutation_refl].
  unfold is_rearrangement in R.
  apply andb_prop in R as [R Hd]. apply andb_prop in R as [Hl Hb].
  apply Nat.eqb_eq in Hl. apply distinct_NoDup in Hd.
  rewrite <- (map_nth_seq s VNone) at 2.
  apply Permutation_map. apply NoDup_Permutation_bis.
  - exact Hd.
  - rewrite length_seq. lia.
  - intros i Hi. apply in_seq.
    rewrite forallb_forall in Hb. apply Hb in Hi. apply Nat.ltb_lt in Hi. lia.
Qed.

Lemma list_of_set_length (rt : Runtime) (made_from : list (list value))
    (s : list value) :
  length (list_of_set rt made_from s) = length s.
Proof. apply Permutation_length, list_of_set_perm. Qed.



(** the score is a float: for one common member of three entries it is the
    double 33.33333333333333 (2345624805922133 / 2^46), not 100/3; for 7 of
    25 it is 28.000000000000004, not 28 *)
Example similarity_is_rounded :
  (IngredientsBlock.similarity 1 3 1 == 2345624805922133 # 70368744177664)%Q /\
  ~ (IngredientsBlock.similarity 1 3 1 * 3 == 100)%Q /\
  (IngredientsBlock.similarity 7 25 25 == 7881299347898369 # 281474976710656)%Q /\
  ~ (IngredientsBlock.similarity 7 25 25 == 28)%Q.
Proof.
  split; [vm_compute; reflexivity|]. split; [vm_compute; discriminate|].
  split; [vm_compute; reflexivity|]. vm_compute. discriminate.
Qed.


(* ===================================================================== *)
(** ** The FAQ page (C10) *)
(* ===================================================================== *)

Lemma rbind_ok {A B} (r : result A) (k : A -> result B) (b : B) :
  rbind r k = Ok b -> exists a, r = Ok a /\ k a = Ok b.
Proof. destruct r; simpl; [eauto | discriminate]. Qed.

Lemma mapM_Forall2 {A B} (f : A -> result B) (l : list A) (l' : list B) :
  mapM f l = Ok l' -> Forall2 (fun x y => f x = Ok y) l l'.
Proof.
  revert l'. induction l as [|x l IH]; simpl; intros l' H.
  - inversion H. constructor.
  - apply rbind_ok in H as (y & Hy & H).
    apply rbind_ok in H as (ys & Hys & H).
    inversion H. subst. constructor; auto.
Qed.

Lemma Forall2_same_length {A B} (R : A -> B -> Prop) (l : list A) (l' : list B) :
  Forall2 R l l' -> length l' = length l.
Proof. induction 1; simpl; congruence. Qed.

Lemma first_five_length (questions : value) (batch : list value) :
  Templates.first_five questions = Ok batch -> length batch <= 5.
Proof.
  unfold Templates.first_five.
  destruct questions as [| | |s|l|]; intros H; try discriminate;
    injection H as <-.
  - exact (firstn_le_length 5 (chars s)).
  - exact (firstn_le_length 5 l).
Qed.

Lemma fixed_category_truthy (c : string) :
  In c fixed_categories -> truthy (VStr c) = true.
Proof.
  unfold fixed_categories. simpl.
  intros [<-|[<-|[<-|[<-|[<-|[]]]]]]; reflexivity.
Qed.

Lemma faq_item_spec (rt : Runtime) (qa item : value) :
  Templates.faq_item rt qa = Ok item -> item_of qa item.
Proof.
  unfold Templates.faq_item. intros H.
  apply rbind_ok in H as (d & Hd & H).
  destruct qa; try discriminate. inversion Hd. subst.
  apply rbind_ok in H as (category & Hc & H).
  inversion H. subst. exists d, category.
  split; [reflexivity|]. split; [reflexivity|].
  destruct (truthy (get "category" d)) eqn:T.
  - inversion Hc. subst. repeat split; auto. discriminate.
  - apply rbind_ok in Hc as (text & _ & Hc). inversion Hc.
    assert (Hfix : In (Templates.infer_category (py_lower rt text))
                      fixed_categories)
      by (rewrite infer_category_cascade; apply cascade_fixed).
    repeat split; [now apply fixed_category_truthy | discriminate | eauto].
Qed.

Lemma slice_to_length {A} (n : Z) (l : list A) :
  (0 <= n)%Z -> length (slice_to n l) <= Z.to_nat n.
Proof.
  intros Hn. unfold slice_to.
  destruct (Z.leb_spec 0 n); [apply firstn_le_length | lia].
Qed.

Lemma select_best_questions_bound (questions selected : list value) (count : Z) :
  (0 <= count)%Z ->
  Tools.select_best_questions questions count = Ok selected ->
  length selected <= Z.to_nat count.
Proof.
  intros Hc. unfold Tools.select_best_questions.
  destruct (Z.leb_spec (Z.of_nat (length questions)) count).
  - intros E. inversion E. subst. lia.
  - intros E.
    apply rbind_ok in E as (cats & _ & E).
    apply rbind_ok in E as (sel & _ & E).
    apply rbind_ok in E as (keyed & _ & E).
    inversion E. now apply slice_to_length.
Qed.

(** C10, as stated, fails: a category that the question brings along is
    kept as it is, whatever it says. *)
Lemma faq_category_counterexample :
  exists page,
    Templates.apply (Templates.FAQTemplate Sample.rt)
      [("questions",
        VList [Sample.question "What does it cost?" "699 rupees." "Pricing"]);
       ("product_data", VDict Sample.PRODUCT_DATA)] [] = Ok page /\
    get "faq_items" page =
      VList [VDict [("question", VStr "What does it cost?");
                    ("answer", VStr "699 rupees.");
                    ("category", VStr "Pricing")]] /\
    ~ In "Pricing" fixed_categories.
Proof.
  eexists. split; [reflexivity|]. split; [reflexivity|].
  unfold fixed_categories. simpl.
  intros [H|[H|[H|[H|[H|[]]]]]]; discriminate.
Qed.

(** C10 (amended).  A page produced by the FAQ template has at most 5
    items, one for each of the first five questions and in their order; its
    [total_questions] is the number of its items; every item carries a
    category that is not empty: the one its question brought along when
    that one is not empty (whatever it says), and otherwise one of
    Informational, Safety, Usage, Purchase, Comparison.  The tool
    [select_best_questions], asked for 5 questions, returns at most 5. *)
Theorem faq_page_shape (rt : Runtime) (data content_blocks page : dict)
    (H : Templates.apply (Templates.FAQTemplate rt) data content_blocks = Ok page) :
  (exists batch items,
     Templates.first_five (get_default "questions" (VList []) data) = Ok batch /\
     dict_get "faq_items" page = Some (VList items) /\
     length items <= 5 /\
     dict_get "total_questions" page = Some (VNat (length items)) /\
     Forall2 item_of batch items) /\
  (forall questions selected,
     Tools.select_best_questions questions 5 = Ok selected ->
     length selected <= 5).
Proof.
  split.
  - simpl in H.
    apply rbind_ok in H as (batch & Hbatch & H).
    apply rbind_ok in H as (items & Hitems & H).
    apply rbind_ok in H as (pd & _ & H).
    apply rbind_ok in H as (cats & _ & H).
    inversion H. subst. clear H.
    apply mapM_Forall2 in Hitems.
    exists batch, items. split; [exact Hbatch|].
    split; [reflexivity|]. split.
    + rewrite (Forall2_same_length _ _ _ Hitems).
      now apply first_five_length in Hbatch.
    + split; [reflexivity|].
      eapply Forall2_impl; [|exact Hitems].
      intros qa item. apply faq_item_spec.
  - intros questions selected Hsel.
    now apply (select_best_questions_bound questions selected 5%Z).
Qed.

Lemma faq_page_shape_witness :
  exists page items,
    Templates.apply (Templates.FAQTemplate Sample.rt)
      [("questions", VList Sample.five_questions);
       ("product_data", VDict Sample.PRODUCT_DATA)] [] = Ok page /\
    dict_get "faq_items" page = Some (VList items) /\
    length items <= 5.
Proof.
  eexists. 
  destruct (faq_page_shape Sample.rt
              [("questions", VList Sample.five_questions);
               ("product_data", VDict Sample.PRODUCT_DATA)] [] _ eq_refl)
    as [(batch & items & _ & Hitems & Hlen & _) _].
  exists items. split; [reflexivity|]. split; assumption.
Defined.

(* ===================================================================== *)
(** ** Composition is repeatable (C8) *)
(* ===================================================================== *)

Lemma FAQTemplate_content (rt : Runtime) (d1 d2 b1 b2 : dict) :
  same_content d1 d2 ->
  Templates.apply (Templates.FAQTemplate rt) d1 b1 =
  Templates.apply (Templates.FAQTemplate rt) d2 b2.
Proof.
  intros Hd. cbn [Templates.apply Templates.FAQTemplate].
  unfold get_default. now rewrite !Hd.
Qed.

Lemma ProductDescriptionTemplate_content (rt : Runtime) (d1 d2 b1 b2 : dict) :
  same_content d1 d2 -> same_content b1 b2 ->
  Templates.apply (Templates.ProductDescriptionTemplate rt) d1 b1 =
  Templates.apply (Templates.ProductDescriptionTemplate rt) d2 b2.
Proof.
  intros Hd Hb. cbn [Templates.apply Templates.ProductDescriptionTemplate].
  unfold get_default at 1 2 3 4 5. now rewrite !Hd, !Hb.
Qed.

Lemma ComparisonTemplate_content (rt : Runtime) (d1 d2 b1 b2 : dict) :
  same_content d1 d2 -> same_content b1 b2 ->
  Templates.apply (Templates.ComparisonTemplate rt) d1 b1 =
  Templates.apply (Templates.ComparisonTemplate rt) d2 b2.
Proof.
  intros Hd Hb. cbn [Templates.apply Templates.ComparisonTemplate].
  unfold get_default at 1 2 3. now rewrite !Hd, !Hb.
Qed.

Lemma missing_fields_content (fields : list string) (d1 d2 : dict) :
  same_content d1 d2 ->
  filter (fun f => negb (has_key f d1)) fields =
  filter (fun f => negb (has_key f d2)) fields.
Proof.
  intros Hd. apply filter_ext. intros f. unfold has_key. now rewrite Hd.
Qed.

Lemma apply_template_content (rt : Runtime) (name : string)
    (d1 d2 b1 b2 : dict) :
  same_content d1 d2 -> same_content b1 b2 ->
  Templates.apply_template (Templates.new_engine rt) name d1 b1 =
  Templates.apply_template (Templates.new_engine rt) name d2 b2.
Proof.
  intros Hd Hb. unfold Templates.apply_template.
  cbn [Templates.templates Templates.new_engine Templates.find_template].
  destruct (String.eqb name "faq");
    [|destruct (String.eqb name "product_description");
      [|destruct (String.eqb name "comparison"); [|reflexivity]]];
    rewrite (missing_fields_content _ d1 d2 Hd);
    match goal with |- (if ?c then _ else _) = _ => destruct c end;
    auto using FAQTemplate_content, ProductDescriptionTemplate_content,
      ComparisonTemplate_content.
Qed.

(** *** Calls of the template engine on the objects *)

Lemma nth_error_replace_at (l l' : Heap.loc) (o : Heap.obj) (h : Heap.heap) :
  l' <> l -> nth_error (Heap.replace_at l o h) l' = nth_error h l'.
Proof.
  revert l l'. induction h as [|o' h IH]; intros [|l] [|l'] N;
    simpl; try reflexivity; try congruence.
  apply IH. congruence.
Qed.

Lemma nth_error_replace_at_same (l : Heap.loc) (o o' : Heap.obj)
    (h : Heap.heap) :
  nth_error h l = Some o' -> nth_error (Heap.replace_at l o h) l = Some o.
Proof.
  revert l. induction h as [|x h IH]; intros [|l] E; simpl in *;
    try discriminate; auto.
Qed.

Lemma length_replace_at (l : Heap.loc) (o : Heap.obj) (h : Heap.heap) :
  length (Heap.replace_at l o h) = length h.
Proof.
  revert l. induction h as [|x h IH]; intros [|l]; simpl; auto.
Qed.

Lemma unchanged_refl (h : Heap.heap) : Heap.unchanged h h.
Proof. intros l o E. exact E. Qed.

Lemma unchanged_trans (h1 h2 h3 : Heap.heap) :
  Heap.unchanged h1 h2 -> Heap.unchanged h2 h3 -> Heap.unchanged h1 h3.
Proof. intros U V l o E. auto. Qed.

Lemma unchanged_alloc (h : Heap.heap) (o : Heap.obj) :
  Heap.unchanged h (h ++ [o]).
Proof.
  intros l o' E. rewrite nth_error_app1; [exact E|].
  apply nth_error_Some. congruence.
Qed.

Lemma nth_error_alloc (h : Heap.heap) (o : Heap.obj) :
  nth_error (h ++ [o]) (length h) = Some o.
Proof. now rewrite nth_error_app2, Nat.sub_diag by lia. Qed.

(** *** A call leaves the objects it finds as they are *)

Lemma keeps_weaken {A} (m : nat) (c : Heap.Mem A) (Q Q' : A -> Prop) :
  Heap.keeps m c Q -> (forall a, Q a -> Q' a) -> Heap.keeps m c Q'.
Proof.
  intros H W h Hm. destruct (H h Hm) as (L & K & HQ). auto.
Qed.

Lemma keeps_any {A} (m : nat) (c : Heap.Mem A) (Q : A -> Prop) :
  Heap.keeps m c Q -> Heap.keeps m c (fun _ => True).
Proof. intros H. apply (keeps_weaken m c Q); auto. Qed.

Lemma keeps_ret {A} (m : nat) (a : A) (Q : A -> Prop) :
  Q a -> Heap.keeps m (Heap.ret a) Q.
Proof.
  intros HQ h Hm. cbn. split; [lia|]. split; [reflexivity|].
  intros a' E. inversion E. now subst.
Qed.

Lemma keeps_raise {A} (m : nat) (e : exn) (Q : A -> Prop) :
  Heap.keeps m (Heap.raise e) Q.
Proof.
  intros h Hm. cbn. split; [lia|]. split; [reflexivity|]. discriminate.
Qed.

Lemma keeps_lift {A} (m : nat) (r : result A) :
  Heap.keeps m (Heap.lift r) (fun _ => True).
Proof. intros h Hm. cbn. split; [lia|]. split; [reflexivity|]. auto. Qed.

Lemma keeps_read {A} (m : nat) (f : Heap.heap -> result A) :
  Heap.keeps m (Heap.read f) (fun _ => True).
Proof. intros h Hm. cbn. split; [lia|]. split; [reflexivity|]. auto. Qed.

Lemma keeps_bind {A B} (m : nat) (c : Heap.Mem A) (k : A -> Heap.Mem B)
    (Q : A -> Prop) (R : B -> Prop) :
  Heap.keeps m c Q -> (forall a, Q a -> Heap.keeps m (k a) R) ->
  Heap.keeps m (Heap.bind c k) R.
Proof.
  intros Hc Hk h Hm. destruct (Hc h Hm) as (L & K & HQ).
  unfold Heap.bind. destruct (c h) as [[a|e] h1]; cbn [fst snd] in *.
  - destruct (Hk a (HQ a eq_refl) h1 ltac:(lia)) as (L' & K' & HR).
    split; [lia|]. split; [|exact HR].
    intros l Hl. rewrite K' by exact Hl. now apply K.
  - split; [exact L|]. split; [exact K|]. discriminate.
Qed.

(** a new object is none of the first [m] *)
Lemma keeps_alloc (m : nat) (o : Heap.obj) :
  Heap.keeps m (Heap.alloc o)
    (fun v => exists l, v = Heap.HRef l /\ m <= l).
Proof.
  intros h Hm. cbn. rewrite length_app. cbn. split; [lia|]. split.
  - intros l Hl. apply nth_error_app1. lia.
  - intros a E. inversion E. eauto.
Qed.

(** [append] to a list that is none of the first [m] objects *)
Lemma keeps_append (m : nat) (l : Heap.loc) (x : Heap.hval) :
  m <= l -> Heap.keeps m (Heap.append (Heap.HRef l) x) (fun _ => True).
Proof.
  intros Hl h Hm. unfold Heap.append.
  destruct (nth_error h l) as [[items|entries]|]; cbn [fst snd];
    try (repeat split; auto; fail).
  rewrite length_replace_at. split; [lia|]. split; [|auto].
  intros l' Hl'. apply nth_error_replace_at. lia.
Qed.

Lemma keeps_for_each {A} (m : nat) (items : list A)
    (body : A -> Heap.Mem unit) :
  (forall x, Heap.keeps m (body x) (fun _ => True)) ->
  Heap.keeps m (Heap.for_each items body) (fun _ => True).
Proof.
  intros Hb. induction items as [|x items IH]; cbn [Heap.for_each].
  - now apply keeps_ret.
  - eapply keeps_bind; [apply Hb | intros _ _; exact IH].
Qed.

Lemma keeps_map_each {A B} (m : nat) (f : A -> Heap.Mem B) (items : list A) :
  (forall x, Heap.keeps m (f x) (fun _ => True)) ->
  Heap.keeps m (Heap.map_each f items) (fun _ => True).
Proof.
  intros Hf. induction items as [|x items IH]; cbn [Heap.map_each].
  - now apply keeps_ret.
  - eapply keeps_bind; [apply Hf | intros y _].
    eapply keeps_bind; [exact IH | intros ys _]. now apply keeps_ret.
Qed.

Lemma keeps_get_or_new (m : nat) (k : string) (o : Heap.obj) (v : Heap.hval) :
  Heap.keeps m (Heap.get_or_new k o v) (fun _ => True).
Proof.
  unfold Heap.get_or_new.
  eapply keeps_bind; [apply keeps_alloc | intros d _; apply keeps_read].
Qed.

Ltac keeps_step :=
  first
    [ apply keeps_read
    | apply keeps_lift
    | apply keeps_get_or_new
    | apply keeps_raise
    | apply keeps_ret; exact I
    | eapply keeps_any; apply keeps_alloc
    | apply keeps_alloc ].

Ltac keeps_auto :=
  repeat first
    [ keeps_step
    | eapply keeps_bind; [keeps_step | intros ? ?] ].

Lemma keeps_first_five (m : nat) (questions : Heap.hval) :
  Heap.keeps m (TemplatesOnHeap.first_five questions) (fun _ => True).
Proof.
  destruct questions; cbn [TemplatesOnHeap.first_five]; keeps_auto.
Qed.

Lemma keeps_faq_turn (rt : Runtime) (m : nat) (l : Heap.loc)
    (qa : Heap.hval) :
  m <= l ->
  Heap.keeps m (TemplatesOnHeap.faq_turn rt (Heap.HRef l) qa) (fun _ => True).
Proof.
  intros Hl. unfold TemplatesOnHeap.faq_turn, Heap.get_default, Heap.truthy.
  eapply keeps_bind; [keeps_step | intros category _].
  eapply keeps_bind; [keeps_step | intros given _].
  eapply keeps_bind.
  { instantiate (1 := fun _ => True). destruct given; [keeps_auto|].
    eapply keeps_bind; [keeps_step | intros question _].
    destruct question; keeps_auto. }
  intros category' _. keeps_auto. now apply keeps_append.
Qed.

Lemma keeps_FAQTemplate_apply (rt : Runtime) (m : nat)
    (data content_blocks : Heap.hval) :
  Heap.keeps m (TemplatesOnHeap.FAQTemplate_apply rt data content_blocks)
    (fun _ => True).
Proof.
  unfold TemplatesOnHeap.FAQTemplate_apply.
  eapply keeps_bind; [keeps_step | intros questions _].
  eapply keeps_bind; [keeps_step | intros product_data _].
  eapply keeps_bind; [apply keeps_alloc | intros faq_items (l & -> & Hl)].
  eapply keeps_bind; [apply keeps_first_five | intros batch _].
  eapply keeps_bind.
  { apply keeps_for_each. intros qa. now apply keeps_faq_turn. }
  intros _ _. unfold Heap.get_default, Heap.len, Heap.iter, Heap.list_of_set.
  eapply keeps_bind; [keeps_step | intros product_name _].
  eapply keeps_bind; [keeps_step | intros total _].
  eapply keeps_bind; [keeps_step | intros items _].
  eapply keeps_bind;
    [apply keeps_map_each; intros x; apply keeps_read | intros listed _].
  keeps_auto.
Qed.

Lemma keeps_ProductDescriptionTemplate_apply (rt : Runtime) (limit m : nat)
    (data content_blocks : Heap.hval) :
  Heap.keeps m
    (TemplatesOnHeap.ProductDescriptionTemplate_apply rt limit data
       content_blocks)
    (fun _ => True).
Proof.
  unfold TemplatesOnHeap.ProductDescriptionTemplate_apply, Heap.get_default,
    Heap.str.
  cbv zeta. keeps_auto.
Qed.

Lemma keeps_product_summary (m : nat) (p : Heap.hval) :
  Heap.keeps m (TemplatesOnHeap.product_summary p) (fun _ => True).
Proof.
  unfold TemplatesOnHeap.product_summary, Heap.get_default.
  cbv zeta. keeps_auto.
Qed.

Lemma keeps_set_of (m : nat) (v : Heap.hval) :
  Heap.keeps m (Heap.set_of v) (fun _ => True).
Proof. unfold Heap.set_of, Heap.iter. keeps_auto. Qed.

Lemma keeps_generate_recommendation (m : nat)
    (product1 product2 comparison : Heap.hval) :
  Heap.keeps m
    (TemplatesOnHeap._generate_recommendation product1 product2 comparison)
    (fun _ => True).
Proof.
  unfold TemplatesOnHeap._generate_recommendation, Heap.get_default.
  eapply keeps_bind; [keeps_step | intros similarity _].
  eapply keeps_bind; [keeps_step | intros b _].
  destruct b; keeps_auto.
Qed.

Lemma keeps_ComparisonTemplate_apply (rt : Runtime) (m : nat)
    (data content_blocks : Heap.hval) :
  Heap.keeps m
    (TemplatesOnHeap.ComparisonTemplate_apply rt data content_blocks)
    (fun _ => True).
Proof.
  unfold TemplatesOnHeap.ComparisonTemplate_apply, Heap.get_default,
    Heap.list_of_set.
  cbv zeta.
  repeat first
    [ keeps_step
    | eapply keeps_bind;
      [first [ keeps_step
             | apply keeps_product_summary
             | apply keeps_set_of
             | apply keeps_generate_recommendation ]
      | intros ? ?] ].
Qed.

Lemma keeps_missing_fields (m : nat) (fields : list string)
    (data : Heap.hval) :
  Heap.keeps m (TemplatesOnHeap.missing_fields fields data) (fun _ => True).
Proof.
  induction fields as [|f fields IH]; cbn [TemplatesOnHeap.missing_fields].
  - now apply keeps_ret.
  - unfold Heap.has_key.
    eapply keeps_bind; [keeps_step | intros present _].
    eapply keeps_bind; [exact IH | intros missing _]. now apply keeps_ret.
Qed.

Lemma keeps_apply_template (rt : Runtime) (limit m : nat)
    (templates : Heap.hval) (template_name : string)
    (data content_blocks : Heap.hval) :
  Heap.keeps m
    (TemplatesOnHeap.apply_template rt limit templates template_name data
       content_blocks)
    (fun _ => True).
Proof.
  unfold TemplatesOnHeap.apply_template, TemplatesOnHeap.template_named.
  eapply keeps_bind.
  { instantiate (1 := fun t =>
      exists name, TemplatesOnHeap.class rt limit name = Some t).
    intros h Hm. cbn. repeat split; auto.
    intros t E.
    destruct (Heap.deref h templates) as [[items|entries]|]; try discriminate.
    destruct (Heap.field template_name entries) as [[| | |name|]|];
      try discriminate.
    destruct (TemplatesOnHeap.class rt limit name) as [t'|] eqn:C;
      [|discriminate].
    inversion E. subst. eauto. }
  intros t (name & C).
  eapply keeps_bind; [apply keeps_missing_fields | intros missing _].
  destruct (negb (is_nil missing)); [apply keeps_raise|].
  unfold TemplatesOnHeap.class in C.
  repeat match type of C with
         | (if ?b then _ else _) = _ => destruct b
         end;
    inversion C; subst; cbn [TemplatesOnHeap.apply];
    auto using keeps_FAQTemplate_apply, keeps_ProductDescriptionTemplate_apply,
      keeps_ComparisonTemplate_apply.
Qed.

(** a call of [apply_template] removes no object and changes none of those
    it finds: the engine, the arguments and whatever else there is *)
Lemma apply_template_unchanged (rt : Runtime) (limit : nat)
    (templates : Heap.hval) (template_name : string)
    (data content_blocks : Heap.hval) (h : Heap.heap) :
  Heap.unchanged h
    (snd (TemplatesOnHeap.apply_template rt limit templates template_name
            data content_blocks h)).
Proof.
  destruct (keeps_apply_template rt limit (length h) templates template_name
              data content_blocks h (le_n _)) as (_ & K & _).
  intros l o E. rewrite K; [exact E|]. apply nth_error_Some. congruence.
Qed.

(** *** Reading values from the objects *)

Lemma mapO_impl {A B} (f g : A -> option B) (l : list A) (r : list B) :
  (forall a b, f a = Some b -> g a = Some b) ->
  Heap.mapO f l = Some r -> Heap.mapO g l = Some r.
Proof.
  intros H. revert r. induction l as [|a l IH]; intros r E; simpl in *;
    [exact E|].
  destruct (f a) as [b|] eqn:Ea; [|discriminate].
  destruct (Heap.mapO f l) as [bs|]; [|discriminate].
  now rewrite (H _ _ Ea), (IH _ eq_refl).
Qed.

Lemma option_map_Some {A B} (f : A -> B) (o : option A) (b : B) :
  option_map f o = Some b -> exists a, o = Some a /\ b = f a.
Proof. destruct o as [a|]; simpl; intros E; inversion E; eauto. Qed.

Lemma read_through_impl (at1 at2 : Heap.loc -> option value)
    (v : Heap.hval) (x : value) :
  (forall l y, at1 l = Some y -> at2 l = Some y) ->
  Heap.read_through at1 v = Some x -> Heap.read_through at2 v = Some x.
Proof. intros H. destruct v; simpl; auto. Qed.

Lemma reify_at_impl (n m : nat) (h h' : Heap.heap) :
  (forall l y, Heap.reify_at n h l = Some y ->
               Heap.reify_at m h' l = Some y) ->
  Heap.unchanged h h' ->
  forall l y, Heap.reify_at (S n) h l = Some y ->
              Heap.reify_at (S m) h' l = Some y.
Proof.
  intros IH U l y E. cbn [Heap.reify_at] in *.
  destruct (nth_error h l) as [[items|entries]|] eqn:El; [| |discriminate];
    rewrite (U _ _ El).
  - apply option_map_Some in E as (r & M & ->).
    erewrite mapO_impl; [reflexivity| |exact M].
    intros a b. now apply read_through_impl.
  - apply option_map_Some in E as (r & M & ->).
    erewrite mapO_impl; [reflexivity| |exact M].
    intros a b Ea. apply option_map_Some in Ea as (z & Ez & ->).
    now rewrite (read_through_impl _ _ _ _ IH Ez).
Qed.

Lemma reify_at_unchanged (n : nat) (h h' : Heap.heap) :
  Heap.unchanged h h' ->
  forall l y, Heap.reify_at n h l = Some y -> Heap.reify_at n h' l = Some y.
Proof.
  intros U. induction n as [|n IH]; [discriminate|].
  now apply reify_at_impl.
Qed.

Lemma reify_unchanged (n : nat) (h h' : Heap.heap) (v : Heap.hval)
    (x : value) :
  Heap.unchanged h h' ->
  Heap.reify n h v = Some x -> Heap.reify n h' v = Some x.
Proof.
  intros U. apply read_through_impl. now apply reify_at_unchanged.
Qed.

Lemma reify_at_deeper (n : nat) (h : Heap.heap) :
  forall l y, Heap.reify_at n h l = Some y ->
              Heap.reify_at (S n) h l = Some y.
Proof.
  induction n as [|n IH]; [discriminate|].
  apply reify_at_impl; [exact IH | apply unchanged_refl].
Qed.

Lemma reify_deeper (n m : nat) (h : Heap.heap) (v : Heap.hval) (x : value) :
  n <= m -> Heap.reify n h v = Some x -> Heap.reify m h v = Some x.
Proof.
  intros L. induction L as [|m L IH]; [auto|].
  intros E. apply IH in E. revert E.
  apply read_through_impl, reify_at_deeper.
Qed.

Lemma reads_unchanged (h h' : Heap.heap) (v : Heap.hval) (x : value) :
  Heap.unchanged h h' -> Heap.reads h v x -> Heap.reads h' v x.
Proof. intros U [n E]. exists n. now apply (reify_unchanged n h). Qed.

(** the entries of a dictionary, read one by one *)
Lemma reads_entries (h : Heap.heap) (entries : list (string * Heap.hval))
    (d : dict) :
  Forall2 (fun e kv => fst e = fst kv /\ Heap.reads h (snd e) (snd kv))
          entries d ->
  exists n,
    Heap.mapO (fun e => option_map (pair (fst e))
                          (Heap.read_through (Heap.reify_at n h) (snd e)))
              entries = Some d.
Proof.
  induction 1 as [|[k v] [k' x] entries d [Ek [n E]] _ [m IH]].
  - now exists 0.
  - cbn [fst snd] in *. subst k'. exists (Nat.max n m). cbn [Heap.mapO fst snd].
    change (Heap.read_through (Heap.reify_at (Nat.max n m) h) v)
      with (Heap.reify (Nat.max n m) h v).
    rewrite (reify_deeper n _ h v x (Nat.le_max_l n m) E). cbn [option_map].
    erewrite mapO_impl; [reflexivity| |exact IH].
    intros [k1 v1] b Eb. cbn [fst snd] in *.
    apply option_map_Some in Eb as (z & Ez & ->).
    change (Heap.read_through (Heap.reify_at m h) v1)
      with (Heap.reify m h v1) in Ez.
    change (Heap.read_through (Heap.reify_at (Nat.max n m) h) v1)
      with (Heap.reify (Nat.max n m) h v1).
    now rewrite (reify_deeper m _ h v1 z (Nat.le_max_r n m) Ez).
Qed.

Lemma reads_dict (h : Heap.heap) (l : Heap.loc)
    (entries : list (string * Heap.hval)) (d : dict) :
  nth_error h l = Some (Heap.ODict entries) ->
  Forall2 (fun e kv => fst e = fst kv /\ Heap.reads h (snd e) (snd kv))
          entries d ->
  Heap.reads h (Heap.HRef l) (VDict d).
Proof.
  intros El F. destruct (reads_entries h entries d F) as [n M].
  exists (S n). cbn. now rewrite El, M.
Qed.

Lemma reads_items (h : Heap.heap) (items : list Heap.hval)
    (xs : list value) :
  Forall2 (Heap.reads h) items xs ->
  exists n, Heap.mapO (Heap.read_through (Heap.reify_at n h)) items = Some xs.
Proof.
  induction 1 as [|v x items xs [n E] _ [m IH]].
  - now exists 0.
  - exists (Nat.max n m). cbn [Heap.mapO].
    change (Heap.read_through (Heap.reify_at (Nat.max n m) h) v)
      with (Heap.reify (Nat.max n m) h v).
    rewrite (reify_deeper n _ h v x (Nat.le_max_l n m) E).
    erewrite mapO_impl; [reflexivity| |exact IH].
    intros v1 z Ez. exact (reify_deeper m _ h v1 z (Nat.le_max_r n m) Ez).
Qed.

Lemma reads_list (h : Heap.heap) (l : Heap.loc) (items : list Heap.hval)
    (xs : list value) :
  nth_error h l = Some (Heap.OList items) ->
  Forall2 (Heap.reads h) items xs ->
  Heap.reads h (Heap.HRef l) (VList xs).
Proof.
  intros El F. destruct (reads_items h items xs F) as [n M].
  exists (S n). cbn. now rewrite El, M.
Qed.

(** what reads as a dictionary is one, and its fields read as the values
    of the dictionary *)
Lemma reify_dict_field (n : nat) (h : Heap.heap) (v : Heap.hval) (d : dict)
    (k : string) :
  Heap.reify n h v = Some (VDict d) ->
  exists entries,
    Heap.deref h v = Some (Heap.ODict entries) /\
    map fst entries = map fst d /\
    match Heap.field k entries with
    | Some r => exists y, dict_get k d = Some y /\ Heap.reify n h r = Some y
    | None => dict_get k d = None
    end.
Proof.
  destruct v as [| | | |l]; try discriminate.
  destruct n as [|n]; [discriminate|]. cbn.
  destruct (nth_error h l) as [[items|entries]|]; try discriminate.
  - intros E. apply option_map_Some in E as (r & _ & E). discriminate.
  - intros E. apply option_map_Some in E as (r & M & E). inversion E. subst r.
    exists entries. split; [reflexivity|]. clear E. revert d M.
    induction entries as [|[k' x] entries IH]; intros d M; cbn in M.
    + inversion M. split; reflexivity.
    + destruct (Heap.read_through (Heap.reify_at n h) x) as [y|] eqn:Ex;
        [|discriminate]. cbn in M.
      destruct (Heap.mapO _ entries) as [d'|] eqn:M'; [|discriminate].
      inversion M. subst d. destruct (IH d' eq_refl) as [Hk Hf].
      split; [cbn; now f_equal|].
      cbn [Heap.field dict_get]. destruct (String.eqb k k'); [|exact Hf].
      exists y. split; [reflexivity|].
      apply (reify_deeper n); [lia | exact Ex].
Qed.

Lemma reify_list_items (n : nat) (h : Heap.heap) (v : Heap.hval)
    (xs : list value) :
  Heap.reify n h v = Some (VList xs) ->
  exists l items,
    v = Heap.HRef l /\ nth_error h l = Some (Heap.OList items) /\
    Forall2 (fun i x => Heap.reify n h i = Some x) items xs.
Proof.
  destruct v as [| | | |l]; try discriminate.
  destruct n as [|n]; [discriminate|]. cbn.
  destruct (nth_error h l) as [[items|entries]|] eqn:El; try discriminate.
  - intros E. apply option_map_Some in E as (r & M & E). inversion E. subst r.
    exists l, items. split; [reflexivity|]. split; [exact El|].
    clear E El. revert xs M.
    induction items as [|i items IH]; intros xs M; cbn in M.
    + inversion M. constructor.
    + destruct (Heap.read_through (Heap.reify_at n h) i) as [y|] eqn:Ei;
        [|discriminate].
      destruct (Heap.mapO _ items) as [ys|] eqn:M'; [|discriminate].
      inversion M. constructor; [|now apply IH].
      apply (reify_deeper n); [lia | exact Ei].
  - intros E. apply option_map_Some in E as (r & _ & E). discriminate.
Qed.

Lemma reify_positive (n : nat) (h : Heap.heap) (v : Heap.hval) (d : dict) :
  Heap.reify n h v = Some (VDict d) -> 1 <= n.
Proof.
  destruct v; try discriminate. destruct n; [discriminate|]. lia.
Qed.

(** *** The outcome of a computation *)

Lemma wp_bind {A B} (c : Heap.Mem A) (k : A -> Heap.Mem B) (h : Heap.heap)
    (Q : result B -> Heap.heap -> Prop) :
  Heap.wp c h (fun r h' =>
    match r with
    | Ok a => Heap.wp (k a) h' Q
    | Raise e => Q (Raise e) h'
    end) ->
  Heap.wp (Heap.bind c k) h Q.
Proof.
  unfold Heap.wp, Heap.bind. destruct (c h) as [[a|e] h']; auto.
Qed.

Lemma wp_alloc (o : Heap.obj) (h : Heap.heap)
    (Q : result Heap.hval -> Heap.heap -> Prop) :
  (forall l h', Heap.unchanged h h' -> nth_error h' l = Some o ->
                nth_error h l = None -> Q (Ok (Heap.HRef l)) h') ->
  Heap.wp (Heap.alloc o) h Q.
Proof.
  intros H. apply H.
  - apply unchanged_alloc.
  - apply nth_error_alloc.
  - apply nth_error_None. cbn. lia.
Qed.

Lemma reify_ref (n : nat) (h : Heap.heap) (l : Heap.loc) (x : value) :
  Heap.reify n h (Heap.HRef l) = Some x ->
  (exists items xs, nth_error h l = Some (Heap.OList items) /\ x = VList xs) \/
  (exists entries d, nth_error h l = Some (Heap.ODict entries) /\ x = VDict d).
Proof.
  destruct n as [|n]; [discriminate|]. cbn.
  destruct (nth_error h l) as [[items|entries]|]; [| |discriminate];
    intros E; apply option_map_Some in E as (r & _ & ->); eauto 6.
Qed.

Lemma wp_get_default (n : nat) (k : string) (default v : Heap.hval)
    (x dv : value) (h : Heap.heap)
    (Q : result Heap.hval -> Heap.heap -> Prop) :
  Heap.reify n h v = Some x ->
  Heap.reify n h default = Some dv ->
  (forall d r, x = VDict d ->
     Heap.reify n h r = Some (get_default k dv d) -> Q (Ok r) h) ->
  (forall e, as_dict x = Raise e -> Q (Raise e) h) ->
  Heap.wp (Heap.get_default k default v) h Q.
Proof.
  intros Ev Ed HOk HRaise. unfold Heap.wp, Heap.get_default, Heap.read.
  cbn [fst snd]. destruct v as [| | | |l];
    try (cbn in Ev; inversion Ev; subst x; cbn; now apply HRaise).
  destruct (reify_ref _ _ _ _ Ev)
    as [(items & xs & El & ->)|(entries' & d & El & ->)].
  - cbn. rewrite El. now apply HRaise.
  - destruct (reify_dict_field _ _ _ _ k Ev) as (entries & -> & _ & F).
    apply (HOk d); [reflexivity|]. unfold get_default.
    destruct (Heap.field k entries) as [r|].
    + destruct F as (y & -> & Er). exact Er.
    + now rewrite F.
Qed.

Lemma wp_get_or_new (n : nat) (k : string) (o : Heap.obj) (v : Heap.hval)
    (x dv : value) (h : Heap.heap)
    (Q : result Heap.hval -> Heap.heap -> Prop) :
  Heap.reify n h v = Some x ->
  1 <= n ->
  (o = Heap.OList [] /\ dv = VList [] \/ o = Heap.ODict [] /\ dv = VDict []) ->
  (forall h' d r, Heap.unchanged h h' -> x = VDict d ->
     Heap.reify n h' r = Some (get_default k dv d) -> Q (Ok r) h') ->
  (forall h' e, Heap.unchanged h h' -> as_dict x = Raise e ->
     Q (Raise e) h') ->
  Heap.wp (Heap.get_or_new k o v) h Q.
Proof.
  intros Ev Hn Ho HOk HRaise. unfold Heap.get_or_new.
  apply wp_bind, wp_alloc. intros l h' U El _.
  apply (wp_get_default n k _ v x dv).
  - now apply (reify_unchanged n h).
  - apply (reify_deeper 1); [exact Hn|]. cbn. rewrite El.
    destruct Ho as [[-> ->]|[-> ->]]; reflexivity.
  - intros d r. now apply HOk.
  - intros e. now apply HRaise.
Qed.

Lemma wp_str (rt : Runtime) (limit : nat) (v : Heap.hval) (x : value)
    (h : Heap.heap) (Q : result string -> Heap.heap -> Prop) :
  Heap.reify limit h v = Some x ->
  Q (Ok (py_str rt x)) h ->
  Heap.wp (Heap.str rt limit v) h Q.
Proof.
  intros Ev HQ. unfold Heap.wp, Heap.str, Heap.read. cbn [fst snd].
  destruct v as [| | |s|l];
    try (rewrite Ev; cbn in Ev; inversion Ev; subst x; exact HQ).
  - cbn in Ev. inversion Ev. subst x. exact HQ.
  - rewrite Ev.
    destruct (reify_ref _ _ _ _ Ev)
      as [(items & xs & El & ->)|(entries' & d & El & ->)]; exact HQ.
Qed.

(** *** The templates on the objects return what the templates return *)

Lemma In_dedup (x : value) (l : list value) : In x (dedup l) -> In x l.
Proof.
  induction l as [|y l IH]; cbn [dedup]; [auto|].
  intros [->|H]; [now left|]. right. apply IH.
  now apply filter_In in H as [H _].
Qed.

(** the members of a set are no objects *)
Lemma set_of_hashable (x : value) (s : list value) :
  set_of x = Ok s -> forall y, In y s -> hashable y = true.
Proof.
  unfold set_of, py_set. destruct (py_iter x) as [l|e]; [|discriminate].
  cbn [rbind]. destruct (forallb hashable l) eqn:H; [|discriminate].
  intros E y Hy. inversion E. subst s.
  rewrite forallb_forall in H. now apply H, In_dedup.
Qed.

Lemma held_reads (h : Heap.heap) (x : value) :
  hashable x = true -> Heap.reads h (Heap.held x) x.
Proof. destruct x; try discriminate; intros _; now exists 0. Qed.

Lemma reads_set_list (rt : Runtime) (made_from : list (list value))
    (s : list value) (h : Heap.heap) (l : Heap.loc) :
  (forall y, In y s -> hashable y = true) ->
  nth_error h l =
    Some (Heap.OList (map Heap.held (list_of_set rt made_from s))) ->
  Heap.reads h (Heap.HRef l) (VList (list_of_set rt made_from s)).
Proof.
  intros Hs El. apply (reads_list _ _ _ _ El).
  assert (H : forall y, In y (list_of_set rt made_from s) ->
                        hashable y = true).
  { intros y Hy. apply Hs.
    exact (Permutation_in _ (list_of_set_perm rt made_from s) Hy). }
  clear El Hs. revert H.
  generalize (list_of_set rt made_from s) as L.
  induction L as [|y L IH]; intros H; cbn [map]; constructor.
  - apply held_reads, H. now left.
  - apply IH. intros z Hz. apply H. now right.
Qed.

Ltac transport U :=
  repeat match goal with
  | H : Heap.reify _ ?h _ = Some _, U' : Heap.unchanged ?h _ |- _ =>
      apply (reify_unchanged _ h _ _ _ U') in H
  | H : nth_error ?h _ = Some _, U' : Heap.unchanged ?h _ |- _ =>
      apply U' in H
  end;
  clear U.

Ltac wp_found E :=
  first [ injection E as <- | rewrite E in * ];
  cbn [as_dict rbind].

Ltac wp_missed E :=
  first [ discriminate E
        | rewrite E; cbn [rbind Heap.yields]; reflexivity ].

Ltac wp_step :=
  cbv beta iota;
  lazymatch goal with
  | |- Heap.wp (Heap.bind _ _) _ _ => apply wp_bind
  | |- Heap.wp (Heap.get_or_new _ (Heap.OList []) ?v) _ _ =>
      let U := fresh "U" in let E := fresh "E" in
      eapply (wp_get_or_new _ _ _ v _ (VList []));
      [ eassumption | assumption | left; split; reflexivity
      | intros ? ? ? U E ?; transport U; wp_found E
      | intros ? ? U E; wp_missed E ]
  | |- Heap.wp (Heap.get_or_new _ (Heap.ODict []) ?v) _ _ =>
      let U := fresh "U" in let E := fresh "E" in
      eapply (wp_get_or_new _ _ _ v _ (VDict []));
      [ eassumption | assumption | right; split; reflexivity
      | intros ? ? ? U E ?; transport U; wp_found E
      | intros ? ? U E; wp_missed E ]
  | |- Heap.wp (Heap.get_default _ _ ?v) _ _ =>
      let E := fresh "E" in
      eapply (wp_get_default _ _ _ v);
      [ eassumption | reflexivity
      | intros ? ? E ?; wp_found E
      | intros ? E; wp_missed E ]
  | |- Heap.wp (Heap.str _ _ _) _ _ =>
      eapply wp_str; [eassumption|]
  | |- Heap.wp (Heap.alloc _) _ _ =>
      let U := fresh "U" in
      apply wp_alloc; intros ? ? U ? _; transport U
  end.

Ltac solve_reads :=
  cbn [fst snd];
  lazymatch goal with
  | |- Heap.reads _ (Heap.HRef _) _ =>
      first
        [ eexists; eassumption
        | eapply reads_dict; [eassumption | solve_entries]
        | eapply reads_set_list; [|eassumption];
          let y := fresh "y" in let Hy := fresh "Hy" in
          intros y Hy; unfold set_inter in Hy;
          apply filter_In in Hy as [Hy _];
          match goal with
          | E : set_of _ = Ok ?s, Hy' : In _ ?s |- _ =>
              exact (set_of_hashable _ _ E _ Hy')
          end ]
  | |- Heap.reads _ _ _ =>
      first [ eexists; eassumption | exists 0; reflexivity ]
  end
with solve_entries :=
  lazymatch goal with
  | |- Forall2 _ [] [] => constructor
  | |- Forall2 _ (_ :: _) (_ :: _) =>
      constructor; [split; [reflexivity | solve_reads] | solve_entries]
  end.

Lemma yields_wp (c : Heap.Mem Heap.hval) (h : Heap.heap) (r : result dict) :
  Heap.wp c h (fun out h' => Heap.yields (out, h') r) -> Heap.yields (c h) r.
Proof. unfold Heap.wp. now destruct (c h). Qed.

Lemma ProductDescriptionTemplate_refines (rt : Runtime) (limit : nat)
    (h : Heap.heap) (data content_blocks : Heap.hval) (d b : dict) :
  Heap.reify limit h data = Some (VDict d) ->
  Heap.reify limit h content_blocks = Some (VDict b) ->
  Heap.yields
    (TemplatesOnHeap.ProductDescriptionTemplate_apply rt limit data
       content_blocks h)
    (Templates.apply (Templates.ProductDescriptionTemplate rt) d b).
Proof.
  intros Hd Hb. pose proof (reify_positive _ _ _ _ Hd) as Hlimit.
  apply yields_wp.
  unfold TemplatesOnHeap.ProductDescriptionTemplate_apply.
  cbn [Templates.apply Templates.ProductDescriptionTemplate]. cbv zeta.
  repeat wp_step.
  cbn [Heap.yields]. solve_reads.
Qed.

Lemma hashed_reify (n : nat) (h : Heap.heap) (items : list Heap.hval)
    (xs : list value) :
  Forall2 (fun i x => Heap.reify n h i = Some x) items xs ->
  mapM Heap.hashed items =
  if forallb hashable xs then Ok xs else Raise TypeError.
Proof.
  induction 1 as [|i x items xs E _ IH]; [reflexivity|].
  cbn [mapM forallb]. destruct i as [| | | |l].
  1-4: cbn in E; inversion E; subst x; cbn [Heap.hashed rbind hashable andb];
       rewrite IH; now destruct (forallb hashable xs).
  destruct (reify_ref _ _ _ _ E) as [(? & ? & _ & ->)|(? & ? & _ & ->)];
    reflexivity.
Qed.

Lemma hashed_map {A} (f : A -> Heap.hval) (g : A -> value) (l : list A) :
  (forall a, Heap.hashed (f a) = Ok (g a)) ->
  mapM Heap.hashed (map f l) = Ok (map g l).
Proof.
  intros H. induction l as [|a l IH]; [reflexivity|].
  cbn [map mapM]. now rewrite H, IH.
Qed.

Lemma hashable_map {A} (g : A -> value) (l : list A) :
  (forall a, hashable (g a) = true) -> forallb hashable (map g l) = true.
Proof.
  intros H. apply forallb_forall. intros y Hy.
  apply in_map_iff in Hy as (c & <- & _). apply H.
Qed.

Lemma set_of_reify (n : nat) (h : Heap.heap) (v : Heap.hval) (x : value) :
  Heap.reify n h v = Some x -> Heap.set_of v h = (set_of x, h).
Proof.
  intros E. unfold Heap.set_of, Heap.bind, Heap.iter, Heap.read, Heap.lift,
    Heap.set_from, set_of, py_set.
  destruct v as [| | |s|l];
    try (cbn in E; inversion E; subst x; reflexivity).
  - cbn in E. inversion E. subst x. cbn [py_iter rbind].
    unfold chars. rewrite !map_map.
    rewrite (hashed_map _ VStr) by reflexivity.
    rewrite (hashable_map VStr) by reflexivity. reflexivity.
  - destruct (reify_ref _ _ _ _ E)
      as [(items & xs & El & ->)|(entries & d & El & ->)].
    + destruct (reify_list_items _ _ _ _ E) as (l' & items' & El' & El'' & F).
      inversion El'. subst l'. rewrite El'' in El. inversion El. subst items'.
      rewrite El''. cbn [py_iter rbind].
      rewrite (hashed_reify _ _ _ _ F).
      now destruct (forallb hashable xs).
    + destruct (reify_dict_field _ _ _ _ EmptyString E)
        as (entries' & Ed & Hk & _).
      cbn [Heap.deref] in Ed. rewrite Ed. cbn [py_iter rbind].
      unfold keys. rewrite <- Hk, map_map.
      rewrite (hashed_map _ (fun e => VStr (fst e))) by reflexivity.
      rewrite (hashable_map (fun e : string * Heap.hval => VStr (fst e)))
        by reflexivity.
      reflexivity.
Qed.

Lemma wp_set_of (n : nat) (v : Heap.hval) (x : value) (h : Heap.heap)
    (Q : result (list value) -> Heap.heap -> Prop) :
  Heap.reify n h v = Some x ->
  (forall s, set_of x = Ok s -> Q (Ok s) h) ->
  (forall e, set_of x = Raise e -> Q (Raise e) h) ->
  Heap.wp (Heap.set_of v) h Q.
Proof.
  intros E HOk HRaise. unfold Heap.wp. rewrite (set_of_reify _ _ _ _ E).
  cbn [fst snd]. destruct (set_of x) as [s|e]; auto.
Qed.

Lemma generate_recommendation_reify (n : nat) (h : Heap.heap)
    (product1 product2 comparison : Heap.hval) (d1 d2 cd : dict) :
  Heap.reify n h comparison = Some (VDict cd) ->
  TemplatesOnHeap._generate_recommendation product1 product2 comparison h =
  (Templates._generate_recommendation d1 d2 cd, h).
Proof.
  intros E. unfold TemplatesOnHeap._generate_recommendation,
    Templates._generate_recommendation, Heap.bind, Heap.get_default,
    Heap.read, Heap.lift, Heap.ret.
  destruct (reify_dict_field _ _ _ _ "similarity_score" E)
    as (entries & -> & _ & F).
  unfold get_default.
  destruct (Heap.field "similarity_score" entries) as [r|].
  - destruct F as (y & -> & Er). destruct r as [| | | |l].
    1-4: cbn in Er; inversion Er; subst y;
         cbn [Templates.greater_than_70 rbind]; try reflexivity;
         match goal with |- context [if ?c then _ else _] => now destruct c end.
    destruct (reify_ref _ _ _ _ Er) as [(? & ? & _ & ->)|(? & ? & _ & ->)];
      reflexivity.
  - rewrite F. reflexivity.
Qed.

Lemma wp_generate_recommendation (n : nat) (h : Heap.heap)
    (product1 product2 comparison : Heap.hval) (d1 d2 cd : dict)
    (Q : result string -> Heap.heap -> Prop) :
  Heap.reify n h comparison = Some (VDict cd) ->
  (forall s, Templates._generate_recommendation d1 d2 cd = Ok s ->
             Q (Ok s) h) ->
  (forall e, Templates._generate_recommendation d1 d2 cd = Raise e ->
             Q (Raise e) h) ->
  Heap.wp (TemplatesOnHeap._generate_recommendation product1 product2
             comparison) h Q.
Proof.
  intros E HOk HRaise. unfold Heap.wp.
  rewrite (generate_recommendation_reify _ _ _ _ _ d1 d2 _ E).
  cbn [fst snd].
  destruct (Templates._generate_recommendation d1 d2 cd) as [s|e]; auto.
Qed.

Lemma price_difference_reify (n : nat) (h : Heap.heap)
    (price1 price2 : Heap.hval) (x1 x2 : value) :
  Heap.reify n h price1 = Some x1 -> Heap.reify n h price2 = Some x2 ->
  TemplatesOnHeap._calculate_price_difference price1 price2 =
  Templates._calculate_price_difference x1 x2.
Proof.
  intros E1 E2.
  destruct price1 as [| | |p1|l1];
    try (cbn in E1; inversion E1; subst x1; reflexivity).
  - cbn in E1. inversion E1. subst x1.
    destruct price2 as [| | |p2|l2];
      try (cbn in E2; inversion E2; subst x2; reflexivity).
    destruct (reify_ref _ _ _ _ E2) as [(? & ? & _ & ->)|(? & ? & _ & ->)];
      reflexivity.
  - destruct (reify_ref _ _ _ _ E1) as [(? & ? & _ & ->)|(? & ? & _ & ->)];
      reflexivity.
Qed.

Ltac wp_step2 :=
  cbv beta iota;
  lazymatch goal with
  | |- Heap.wp (Heap.set_of ?v) _ _ =>
      let E := fresh "E" in
      eapply (wp_set_of _ v);
      [ eassumption
      | intros ? E; rewrite E; cbn [rbind]
      | intros ? E; rewrite E; cbn [rbind Heap.yields]; reflexivity ]
  | |- Heap.wp (TemplatesOnHeap._generate_recommendation _ _ _) _ _ =>
      let E := fresh "E" in
      eapply wp_generate_recommendation;
      [ eassumption
      | intros ? E; rewrite E; cbn [rbind]
      | intros ? E; rewrite E; cbn [rbind Heap.yields]; reflexivity ]
  | |- _ => wp_step
  end.

Lemma ComparisonTemplate_refines (rt : Runtime) (limit : nat)
    (h : Heap.heap) (data content_blocks : Heap.hval) (d b : dict) :
  Heap.reify limit h data = Some (VDict d) ->
  Heap.reify limit h content_blocks = Some (VDict b) ->
  Heap.yields
    (TemplatesOnHeap.ComparisonTemplate_apply rt data content_blocks h)
    (Templates.apply (Templates.ComparisonTemplate rt) d b).
Proof.
  intros Hd Hb. pose proof (reify_positive _ _ _ _ Hd) as Hlimit.
  apply yields_wp.
  unfold TemplatesOnHeap.ComparisonTemplate_apply,
    TemplatesOnHeap.product_summary, Heap.list_of_set.
  cbn [Templates.apply Templates.ComparisonTemplate]. cbv zeta.
  unfold Templates.product_summary.
  repeat wp_step2.
  cbn [Heap.yields].
  match goal with
  | Ha : Heap.reify _ ?h ?a = Some _, Hb : Heap.reify _ ?h ?b = Some _,
    H : context [TemplatesOnHeap._calculate_price_difference ?a ?b] |- _ =>
      rewrite (price_difference_reify _ _ _ _ _ _ Ha Hb) in H
  end.
  solve_reads.
Qed.

(** *** The loop of the FAQ template *)

(** a computation that only looks at objects read from [hb] finds them in
    any heap that has the objects of [hb] *)
Lemma deref_unchanged (n : nat) (hb h : Heap.heap) (v : Heap.hval)
    (x : value) :
  Heap.unchanged hb h -> Heap.reify n hb v = Some x ->
  Heap.deref h v = Heap.deref hb v.
Proof.
  intros U E. destruct v as [| | | |l]; try reflexivity.
  destruct (reify_ref _ _ _ _ E) as [(? & ? & El & _)|(? & ? & El & _)];
    cbn [Heap.deref]; now rewrite El, (U _ _ El).
Qed.

Lemma wp_get_default_base (n : nat) (k : string) (default v : Heap.hval)
    (x dv : value) (hb h : Heap.heap)
    (Q : result Heap.hval -> Heap.heap -> Prop) :
  Heap.unchanged hb h ->
  Heap.reify n hb v = Some x ->
  Heap.reify n hb default = Some dv ->
  (forall d r, x = VDict d ->
     Heap.reify n hb r = Some (get_default k dv d) -> Q (Ok r) h) ->
  (forall e, as_dict x = Raise e -> Q (Raise e) h) ->
  Heap.wp (Heap.get_default k default v) h Q.
Proof.
  intros U Ev Ed HOk HRaise.
  assert (W : Heap.wp (Heap.get_default k default v) hb
                (fun out _ => Q out h))
    by (apply (wp_get_default n k default v x dv); assumption).
  unfold Heap.wp, Heap.get_default, Heap.read in *. cbn [fst snd] in *.
  now rewrite (deref_unchanged _ _ _ _ _ U Ev).
Qed.

Lemma Forall2_length_nil {A B} (P : A -> B -> Prop) (l : list A)
    (m : list B) :
  Forall2 P l m -> is_nil l = is_nil m.
Proof. now destruct 1. Qed.

Lemma truthy_reify (n : nat) (hb h : Heap.heap) (v : Heap.hval) (x : value) :
  Heap.unchanged hb h -> Heap.reify n hb v = Some x ->
  Heap.truthy v h = (Ok (truthy x), h).
Proof.
  intros U E. unfold Heap.truthy, Heap.read. f_equal. f_equal.
  destruct v as [| | | |l];
    try (cbn in E; inversion E; subst x; reflexivity).
  destruct (reify_ref _ _ _ _ E)
    as [(items & xs & El & ->)|(entries & d & El & ->)];
    rewrite (U _ _ El); cbn [truthy]; f_equal.
  - destruct (reify_list_items _ _ _ _ E) as (l' & items' & El' & El'' & F).
    inversion El'. subst l'. rewrite El'' in El. inversion El. subst items'.
    exact (Forall2_length_nil _ _ _ F).
  - destruct (reify_dict_field _ _ _ _ EmptyString E)
      as (entries' & Ed & Hk & _).
    cbn [Heap.deref] in Ed. rewrite Ed in El. inversion El. subst entries'.
    destruct entries, d; try discriminate; reflexivity.
Qed.


Lemma wp_truthy (n : nat) (hb h : Heap.heap) (v : Heap.hval) (x : value)
    (Q : result bool -> Heap.heap -> Prop) :
  Heap.unchanged hb h -> Heap.reify n hb v = Some x ->
  Q (Ok (truthy x)) h -> Heap.wp (Heap.truthy v) h Q.
Proof.
  intros U E HQ. unfold Heap.wp. now rewrite (truthy_reify _ _ _ _ _ U E).
Qed.

Lemma wp_ret {A} (a : A) (h : Heap.heap) (Q : result A -> Heap.heap -> Prop) :
  Q (Ok a) h -> Heap.wp (Heap.ret a) h Q.
Proof. auto. Qed.

Lemma wp_raise {A} (e : exn) (h : Heap.heap)
    (Q : result A -> Heap.heap -> Prop) :
  Q (Raise e) h -> Heap.wp (Heap.raise e) h Q.
Proof. auto. Qed.

Lemma wp_append (l : Heap.loc) (x : Heap.hval) (items : list Heap.hval)
    (h : Heap.heap) (Q : result unit -> Heap.heap -> Prop) :
  nth_error h l = Some (Heap.OList items) ->
  Q (Ok tt) (Heap.replace_at l (Heap.OList (items ++ [x])) h) ->
  Heap.wp (Heap.append (Heap.HRef l) x) h Q.
Proof. intros El HQ. unfold Heap.wp, Heap.append. now rewrite El. Qed.

Lemma wp_faq_turn (rt : Runtime) (n : nat) (hb h : Heap.heap)
    (lf : Heap.loc) (acc : list Heap.hval) (qa : Heap.hval) (x : value)
    (Q : result unit -> Heap.heap -> Prop) :
  nth_error hb lf = None ->
  Heap.unchanged hb h ->
  nth_error h lf = Some (Heap.OList acc) ->
  Heap.reify n hb qa = Some x ->
  (forall h' li q a c xq xa xc,
     Templates.faq_item rt x =
       Ok (VDict [("question", xq); ("answer", xa); ("category", xc)]) ->
     li <> lf ->
     Heap.unchanged hb h' ->
     (forall l o, l <> lf -> nth_error h l = Some o ->
                  nth_error h' l = Some o) ->
     nth_error h' li =
       Some (Heap.ODict [("question", q); ("answer", a); ("category", c)]) ->
     nth_error h' lf = Some (Heap.OList (acc ++ [Heap.HRef li])) ->
     Heap.reify n hb q = Some xq ->
     Heap.reify n hb a = Some xa ->
     Heap.reify n hb c = Some xc ->
     Q (Ok tt) h') ->
  (forall e, Templates.faq_item rt x = Raise e -> Q (Raise e) h) ->
  Heap.wp (TemplatesOnHeap.faq_turn rt (Heap.HRef lf) qa) h Q.
Proof.
  intros Hlf U El Eqa HOk HRaise.
  assert (Finish : forall c xc d,
            x = VDict d ->
            Heap.reify n hb c = Some xc ->
            Templates.faq_item rt x =
              Ok (VDict [("question",
                          get_default "question" (VStr EmptyString) d);
                         ("answer",
                          get_default "answer" (VStr EmptyString) d);
                         ("category", xc)]) ->
            Heap.wp
              (question <-- Heap.get_default "question"
                              (Heap.HStr EmptyString) qa ;;
               answer <-- Heap.get_default "answer"
                            (Heap.HStr EmptyString) qa ;;
               item <-- Heap.alloc
                          (Heap.ODict [("question", question);
                                       ("answer", answer);
                                       ("category", c)]) ;;
               Heap.append (Heap.HRef lf) item) h Q).
  { intros c xc d -> Ec Eitem.
    apply wp_bind.
    eapply (wp_get_default_base n _ _ qa _ (VStr EmptyString) hb);
      [eassumption | eassumption | reflexivity | | discriminate].
    intros d' q Ed Eq. injection Ed as <-.
    apply wp_bind.
    eapply (wp_get_default_base n _ _ qa _ (VStr EmptyString) hb);
      [eassumption | eassumption | reflexivity | | discriminate].
    intros d' a Ed Ea. injection Ed as <-.
    apply wp_bind. unfold Heap.wp at 1, Heap.alloc. cbn [fst snd].
    assert (Lf : lf < length h) by (apply nth_error_Some; congruence).
    apply (wp_append lf _ acc).
    { rewrite nth_error_app1 by exact Lf. exact El. }
    apply (HOk _ (length h) q a c _ _ xc Eitem); try assumption.
    - lia.
    - intros l o E. rewrite nth_error_replace_at.
      + apply unchanged_alloc, U, E.
      + intros ->. congruence.
    - intros l o Nl E. rewrite nth_error_replace_at by exact Nl.
      now apply unchanged_alloc.
    - rewrite nth_error_replace_at by lia. apply nth_error_alloc.
    - eapply nth_error_replace_at_same. rewrite nth_error_app1 by exact Lf.
      exact El. }
  unfold TemplatesOnHeap.faq_turn.
  apply wp_bind.
  apply (wp_get_default_base n _ _ qa x VNone hb);
    [assumption | assumption | reflexivity | |].
  2: { intros e E. apply HRaise. unfold Templates.faq_item.
       now rewrite E. }
  intros d category -> Ecat.
  apply wp_bind. apply (wp_truthy n hb _ _ _ _ U Ecat).
  cbv beta iota. apply wp_bind.
  change (get_default "category" VNone d) with (get "category" d) in *.
  destruct (truthy (get "category" d)) eqn:T.
  - apply wp_ret. cbv beta iota.
    apply (Finish category (get "category" d) d eq_refl Ecat).
    unfold Templates.faq_item. cbn [as_dict rbind]. now rewrite T.
  - apply wp_bind.
    eapply (wp_get_default_base n _ _ qa _ (VStr EmptyString) hb);
      [eassumption | eassumption | reflexivity | | discriminate].
    intros d' question Ed Equestion. injection Ed as <-.
    cbv beta iota.
    destruct question as [| | |question_text|l].
    1-3: apply wp_raise; apply HRaise; unfold Templates.faq_item;
         cbn [as_dict rbind]; rewrite T;
         cbn in Equestion; inversion Equestion as [Eq];
         try rewrite <- Eq; reflexivity.
    + apply wp_ret. cbv beta iota.
      cbn in Equestion. inversion Equestion as [Eq].
      apply (Finish _ (VStr (Templates.infer_category
                               (py_lower rt question_text))) d eq_refl);
        [reflexivity|].
      unfold Templates.faq_item. cbn [as_dict rbind]. rewrite T.
      try rewrite <- Eq. reflexivity.
    + apply wp_raise. apply HRaise. unfold Templates.faq_item.
      cbn [as_dict rbind]. rewrite T.
      destruct (reify_ref _ _ _ _ Equestion)
        as [(? & ? & _ & ->)|(? & ? & _ & ->)]; reflexivity.
Qed.

Lemma faq_items_are_kept (n : nat) (hb h h' : Heap.heap) (lf : Heap.loc)
    (acc : list Heap.hval) (done : list value) :
  (forall l o, l <> lf -> nth_error h l = Some o -> nth_error h' l = Some o) ->
  TemplatesOnHeap.faq_items_are n hb h lf acc done -> TemplatesOnHeap.faq_items_are n hb h' lf acc done.
Proof.
  intros K F. induction F as [|i x acc done H _ IH]; constructor; [|exact IH].
  destruct H as (li & q & a & c & xq & xa & xc & -> & N & El & H).
  exists li, q, a, c, xq, xa, xc. repeat split; try tauto. now apply K.
Qed.

Lemma wp_faq_loop (rt : Runtime) (n : nat) (hb : Heap.heap) (lf : Heap.loc)
    (batch : list Heap.hval) (xs : list value) :
  nth_error hb lf = None ->
  Forall2 (fun i x => Heap.reify n hb i = Some x) batch xs ->
  forall (h : Heap.heap) (acc : list Heap.hval) (done : list value)
         (Q : result unit -> Heap.heap -> Prop),
    Heap.unchanged hb h ->
    nth_error h lf = Some (Heap.OList acc) ->
    TemplatesOnHeap.faq_items_are n hb h lf acc done ->
    (forall h' acc' new,
       mapM (Templates.faq_item rt) xs = Ok new ->
       Heap.unchanged hb h' ->
       nth_error h' lf = Some (Heap.OList acc') ->
       TemplatesOnHeap.faq_items_are n hb h' lf acc' (done ++ new) ->
       Q (Ok tt) h') ->
    (forall h' e, mapM (Templates.faq_item rt) xs = Raise e ->
                  Q (Raise e) h') ->
    Heap.wp (Heap.for_each batch (TemplatesOnHeap.faq_turn rt (Heap.HRef lf)))
      h Q.
Proof.
  intros Hlf F. induction F as [|i x batch xs Ei _ IH];
    intros h acc done Q U El Inv HOk HRaise; cbn [Heap.for_each].
  - apply wp_ret. apply (HOk h acc []); try assumption; [reflexivity|].
    now rewrite app_nil_r.
  - apply wp_bind. apply (wp_faq_turn rt n hb h lf acc i x); try assumption.
    + intros h' li q a c xq xa xc Eitem Nli U' K Eli Elf Eq Ea Ec.
      cbv beta iota.
      apply (IH h' (acc ++ [Heap.HRef li])
               (done ++ [VDict [("question", xq); ("answer", xa);
                                ("category", xc)]])); try assumption.
      * apply Forall2_app; [now apply (faq_items_are_kept n hb h)|].
        constructor; [|constructor].
        exists li, q, a, c, xq, xa, xc. repeat split; assumption.
      * intros h2 acc' new E U2 El2 Inv2.
        apply (HOk h2 acc'
                 (VDict [("question", xq); ("answer", xa); ("category", xc)]
                  :: new)); try assumption.
        -- cbn [mapM]. rewrite Eitem. cbn [rbind]. now rewrite E.
        -- now rewrite <- app_assoc in Inv2.
      * intros h2 e E. apply HRaise. cbn [mapM]. rewrite Eitem.
        cbn [rbind]. now rewrite E.
    + intros e E. cbv beta iota. apply HRaise. cbn [mapM]. now rewrite E.
Qed.

Lemma Forall2_firstn {A B} (P : A -> B -> Prop) (k : nat) (l : list A)
    (m : list B) :
  Forall2 P l m -> Forall2 P (firstn k l) (firstn k m).
Proof.
  intros F. revert k. induction F as [|a b l m H _ IH]; intros [|k];
    cbn [firstn]; constructor; auto.
Qed.

Lemma wp_first_five (n : nat) (hb h : Heap.heap) (questions : Heap.hval)
    (xq : value) (Q : result (list Heap.hval) -> Heap.heap -> Prop) :
  Heap.unchanged hb h ->
  Heap.reify n hb questions = Some xq ->
  (forall h' batch xs,
     Templates.first_five xq = Ok xs ->
     Forall2 (fun i x => Heap.reify n hb i = Some x) batch xs ->
     Heap.unchanged h h' -> Q (Ok batch) h') ->
  (forall e, Templates.first_five xq = Raise e -> Q (Raise e) h) ->
  Heap.wp (TemplatesOnHeap.first_five questions) h Q.
Proof.
  intros U E HOk HRaise.
  destruct questions as [| | |s|l];
    try (cbn in E; inversion E; subst xq; apply wp_raise, HRaise;
         reflexivity).
  - cbn in E. inversion E. subst xq. cbn [TemplatesOnHeap.first_five].
    apply wp_ret. apply (HOk h _ (firstn 5 (chars s)));
      [reflexivity| |apply unchanged_refl].
    rewrite <- firstn_map. apply Forall2_firstn. unfold chars.
    induction (rev (rev_chars [] s)) as [|c cs IH]; constructor; auto.
  - cbn [TemplatesOnHeap.first_five].
    destruct (reify_ref _ _ _ _ E)
      as [(items & xs & El & ->)|(entries & d & El & ->)].
    + destruct (reify_list_items _ _ _ _ E) as (l' & items' & El' & El'' & F).
      inversion El'. subst l'. rewrite El'' in El. inversion El. subst items'.
      apply wp_bind. unfold Heap.wp at 1, Heap.read. cbn [fst snd].
      rewrite (U _ _ El''). apply wp_bind, wp_alloc.
      intros ls h' U' Els _. unfold Heap.wp, Heap.iter, Heap.read.
      cbn [fst snd]. rewrite Els.
      apply (HOk h' _ (firstn 5 xs)); [reflexivity| |exact U'].
      now apply Forall2_firstn.
    + apply wp_bind. unfold Heap.wp at 1, Heap.read. cbn [fst snd].
      rewrite (U _ _ El). now apply HRaise.
Qed.

Lemma categories_listed (n : nat) (hb h : Heap.heap) (lf : Heap.loc)
    (acc : list Heap.hval) (done : list value) :
  TemplatesOnHeap.faq_items_are n hb h lf acc done ->
  exists listed,
    Heap.map_each (Heap.get_default "category" Heap.HNone) acc h =
      (Ok listed, h) /\
    Forall2 (fun i x => Heap.reify n hb i = Some x) listed
            (map Templates.item_category done).
Proof.
  induction 1 as [|i x acc done H _ (listed & E & F)].
  - exists []. split; [reflexivity | constructor].
  - destruct H as (li & q & a & c & xq & xa & xc & -> & N & El & _ & _ & Ec
                   & ->).
    exists (c :: listed). split.
    + cbn [Heap.map_each]. unfold Heap.bind at 1.
      unfold Heap.get_default at 1, Heap.read. cbn [Heap.deref].
      rewrite El. cbn [Heap.field String.eqb Ascii.eqb Bool.eqb].
      unfold Heap.bind. now rewrite E.
    + cbn [map]. constructor; [exact Ec | exact F].
Qed.

Lemma set_from_reify (n : nat) (h : Heap.heap) (items : list Heap.hval)
    (xs : list value) :
  Forall2 (fun i x => Heap.reify n h i = Some x) items xs ->
  Heap.set_from items = py_set xs.
Proof.
  intros F. unfold Heap.set_from, py_set. rewrite (hashed_reify _ _ _ _ F).
  now destruct (forallb hashable xs).
Qed.

Lemma py_set_hashable (l s : list value) :
  py_set l = Ok s -> forall y, In y s -> hashable y = true.
Proof.
  unfold py_set. destruct (forallb hashable l) eqn:H; [|discriminate].
  intros E y Hy. inversion E. subst s.
  rewrite forallb_forall in H. now apply H, In_dedup.
Qed.

Lemma faq_items_read (n : nat) (hb h : Heap.heap) (lf : Heap.loc)
    (acc : list Heap.hval) (done : list value) :
  Heap.unchanged hb h ->
  TemplatesOnHeap.faq_items_are n hb h lf acc done -> Forall2 (Heap.reads h) acc done.
Proof.
  intros U. induction 1 as [|i x acc done H _ IH]; constructor; [|exact IH].
  destruct H as (li & q & a & c & xq & xa & xc & -> & N & El & Eq & Ea & Ec
                 & ->).
  apply (reads_dict _ _ _ _ El).
  repeat (constructor;
          [split; [reflexivity|]; cbn [snd]; eexists;
           eapply reify_unchanged; eassumption|]).
  constructor.
Qed.

Lemma FAQTemplate_refines (rt : Runtime) (limit : nat)
    (h : Heap.heap) (data content_blocks : Heap.hval) (d b : dict) :
  Heap.reify limit h data = Some (VDict d) ->
  Heap.yields
    (TemplatesOnHeap.FAQTemplate_apply rt data content_blocks h)
    (Templates.apply (Templates.FAQTemplate rt) d b).
Proof.
  intros Hd. pose proof (reify_positive _ _ _ _ Hd) as Hlimit.
  apply yields_wp.
  unfold TemplatesOnHeap.FAQTemplate_apply.
  cbn [Templates.apply Templates.FAQTemplate]. cbv zeta.
  do 4 wp_step.
  match goal with
  | Hd' : Heap.reify limit ?h0 data = _ |- _ => rename h0 into hb
  end.
  apply wp_bind, wp_alloc. intros lf h1 U1 Elf Hlf.
  match goal with
  | Hq : Heap.reify limit hb _ =
         Some (get_default "questions" (VList []) d) |- _ =>
      apply wp_bind;
      apply (wp_first_five limit hb h1 _ _ _ U1 Hq)
  end.
  2: { intros e E. rewrite E. reflexivity. }
  intros h2 batch xs E F U2. rewrite E. cbn [rbind]. cbv beta iota.
  apply wp_bind.
  apply (wp_faq_loop rt limit hb lf batch xs Hlf F h2 [] []).
  - now apply (unchanged_trans _ h1).
  - now apply U2.
  - constructor.
  - intros h3 acc new Enew U3 El3 Inv. cbn [app] in Inv.
    rewrite Enew. cbn [rbind]. cbv beta iota.
    apply wp_bind.
    eapply (wp_get_default_base limit _ _ _ _ (VStr EmptyString));
      [exact U3 | eassumption | reflexivity | |].
    2: { intros e Ee. rewrite Ee. reflexivity. }
    intros pd product_name Epd Ename. rewrite Epd. cbn [as_dict rbind].
    rewrite Epd in *.
    apply wp_bind. unfold Heap.wp at 1, Heap.len, Heap.read. cbn [fst snd].
    rewrite El3.
    apply wp_bind. unfold Heap.wp at 1, Heap.iter, Heap.read. cbn [fst snd].
    rewrite El3.
    destruct (categories_listed _ _ _ _ _ _ Inv) as (listed & El & Fl).
    apply wp_bind. unfold Heap.wp at 1. rewrite El. cbn [fst snd].
    apply wp_bind. unfold Heap.wp at 1, Heap.lift. cbn [fst snd].
    rewrite (set_from_reify _ _ _ _ Fl).
    destruct (py_set (map Templates.item_category new)) as [s|e] eqn:Es;
      [|reflexivity].
    cbn [rbind]. apply wp_bind. unfold Heap.list_of_set.
    apply wp_alloc. intros lc h4 U4 Elc _.
    apply wp_alloc. intros lp h5 U5 Elp _.
    cbn [Heap.yields].
    assert (U35 : Heap.unchanged h3 h5) by now apply (unchanged_trans _ h4).
    assert (Ub5 : Heap.unchanged hb h5)
      by exact (unchanged_trans _ _ _ U3 U35).
    apply (reads_dict _ _ _ _ Elp).
    constructor; [split; [reflexivity | now exists 0]|].
    constructor.
    { split; [reflexivity|]. cbn [snd]. eexists.
      eapply reify_unchanged; [exact Ub5 | exact Ename]. }
    constructor.
    { split; [reflexivity|]. cbn [snd].
      apply (reads_list _ _ acc); [now apply U35|].
      apply (faq_items_read limit hb h5 lf); [exact Ub5|].
      apply (faq_items_are_kept limit hb h3); [|exact Inv].
      intros l o _. apply U35. }
    constructor.
    { split; [reflexivity|]. cbn [snd].
      rewrite (Forall2_length Inv). now exists 0. }
    constructor; [|constructor].
    split; [reflexivity|]. cbn [snd].
    apply reads_set_list; [exact (py_set_hashable _ _ Es) | now apply U5].
  - intros h3 e Ee. rewrite Ee. reflexivity.
Qed.

Lemma missing_fields_reify (n : nat) (h : Heap.heap) (data : Heap.hval)
    (d : dict) (fields : list string) :
  Heap.reify n h data = Some (VDict d) ->
  TemplatesOnHeap.missing_fields fields data h =
  (Ok (filter (fun f => negb (has_key f d)) fields), h).
Proof.
  intros E. induction fields as [|f fields IH];
    cbn [TemplatesOnHeap.missing_fields filter]; [reflexivity|].
  unfold Heap.bind at 1. unfold Heap.has_key at 1, Heap.read.
  destruct (reify_dict_field _ _ _ _ f E) as (entries & Ed & _ & F).
  destruct data as [| | | |l]; try discriminate. cbn [Heap.deref] in Ed.
  rewrite Ed. unfold Heap.bind. rewrite IH. unfold Heap.ret, has_key.
  destruct (Heap.field f entries) as [r|].
  - destruct F as (y & -> & _). reflexivity.
  - rewrite F. reflexivity.
Qed.

(** on the engine that [TemplateEngine()] makes and two dictionaries, the
    call on the objects hands back what [Templates.apply_template] returns,
    or raises what it raises *)
Lemma apply_template_refines (rt : Runtime) (limit : nat) (h : Heap.heap)
    (templates : Heap.hval) (template_name : string)
    (data content_blocks : Heap.hval) (d b : dict) :
  Heap.deref h templates = Some (Heap.ODict TemplatesOnHeap.registry) ->
  Heap.reify limit h data = Some (VDict d) ->
  Heap.reify limit h content_blocks = Some (VDict b) ->
  Heap.yields
    (TemplatesOnHeap.apply_template rt limit templates template_name data
       content_blocks h)
    (Templates.apply_template (Templates.new_engine rt) template_name d b).
Proof.
  intros Ht Hd Hb.
  unfold TemplatesOnHeap.apply_template, Templates.apply_template.
  unfold Heap.bind at 1. unfold TemplatesOnHeap.template_named, Heap.read.
  rewrite Ht.
  cbn [TemplatesOnHeap.registry Heap.field Templates.templates
       Templates.new_engine Templates.find_template].
  destruct (String.eqb template_name "faq");
    [|destruct (String.eqb template_name "product_description");
      [|destruct (String.eqb template_name "comparison"); [|reflexivity]]];
    cbn [TemplatesOnHeap.class String.eqb Ascii.eqb Bool.eqb];
    unfold Heap.bind;
    cbn [TemplatesOnHeap.get_fields TemplatesOnHeap.apply
         Templates.get_fields Templates.FAQTemplate
         Templates.ProductDescriptionTemplate Templates.ComparisonTemplate];
    rewrite (missing_fields_reify _ _ _ _ _ Hd);
    match goal with
    | |- context [negb (is_nil ?m)] => destruct (negb (is_nil m))
    end;
    try reflexivity.
  - now apply (FAQTemplate_refines rt limit).
  - now apply ProductDescriptionTemplate_refines.
  - now apply (ComparisonTemplate_refines rt limit).
Qed.

(** *** Two processes *)

Lemma list_of_set_relisted (rt rt' : Runtime)
    (made_from made_from' : list (list value)) (s : list value) :
  Permutation (list_of_set rt made_from s) (list_of_set rt' made_from' s).
Proof.
  eapply Permutation_trans; [apply list_of_set_perm|].
  apply Permutation_sym, list_of_set_perm.
Qed.

Lemma FAQTemplate_other_process (rt : Runtime)
    (order : list (list value) -> list value -> list nat) (d b : dict) :
  same_but_set_order
    (Templates.apply (Templates.FAQTemplate rt) d b)
    (Templates.apply (Templates.FAQTemplate (another_process rt order)) d b).
Proof.
  cbn [Templates.apply Templates.FAQTemplate]. cbv zeta.
  destruct (Templates.first_five _) as [batch|e]; [|reflexivity].
  cbn [rbind].
  change (Templates.faq_item (another_process rt order))
    with (Templates.faq_item rt).
  destruct (mapM (Templates.faq_item rt) batch) as [faq_items|e];
    [|reflexivity].
  cbn [rbind]. destruct (as_dict _) as [pd|e]; [|reflexivity].
  cbn [rbind]. destruct (py_set _) as [categories|e]; [|reflexivity].
  cbn [rbind same_but_set_order]. right. left.
  cbn [relisted_at]. do 3 eexists. split; [reflexivity|].
  split; [reflexivity|]. split; [|reflexivity].
  do 2 eexists. split; [reflexivity|]. split; [reflexivity|].
  apply list_of_set_relisted.
Qed.

Lemma ProductDescriptionTemplate_other_process (rt : Runtime)
    (order : list (list value) -> list value -> list nat) (d b : dict) :
  same_but_set_order
    (Templates.apply (Templates.ProductDescriptionTemplate rt) d b)
    (Templates.apply
       (Templates.ProductDescriptionTemplate (another_process rt order)) d b).
Proof.
  change (Templates.ProductDescriptionTemplate (another_process rt order))
    with (Templates.ProductDescriptionTemplate rt).
  unfold same_but_set_order.
  destruct (Templates.apply _ d b); [now left | reflexivity].
Qed.

Lemma ComparisonTemplate_other_process (rt : Runtime)
    (order : list (list value) -> list value -> list nat) (d b : dict) :
  same_but_set_order
    (Templates.apply (Templates.ComparisonTemplate rt) d b)
    (Templates.apply
       (Templates.ComparisonTemplate (another_process rt order)) d b).
Proof.
  cbn [Templates.apply Templates.ComparisonTemplate]. cbv zeta.
  destruct (as_dict (get_default "product1_data" _ _)) as [product1|e];
    [|reflexivity].
  cbn [rbind].
  destruct (as_dict (get_default "product2_data" _ _)) as [product2|e];
    [|reflexivity].
  cbn [rbind].
  destruct (as_dict _) as [comparison|e]; [|reflexivity].
  cbn [rbind].
  destruct (set_of (get_default "benefits" _ product1)) as [b1|e];
    [|reflexivity].
  cbn [rbind].
  destruct (set_of (get_default "benefits" _ product2)) as [b2|e];
    [|reflexivity].
  cbn [rbind].
  destruct (Templates._generate_recommendation _ _ _) as [recommendation|e];
    [|reflexivity].
  cbn [rbind same_but_set_order]. right. right.
  cbn [relisted_at]. do 3 eexists. split; [reflexivity|].
  split; [reflexivity|]. split; [|reflexivity].
  do 3 eexists. split; [reflexivity|].
  split; [reflexivity|]. split; [|reflexivity].
  do 3 eexists. split; [reflexivity|].
  split; [reflexivity|]. split; [|reflexivity].
  do 2 eexists. split; [reflexivity|]. split; [reflexivity|].
  apply list_of_set_relisted.
Qed.

Lemma apply_template_other_process (rt : Runtime)
    (order : list (list value) -> list value -> list nat)
    (template_name : string) (d b : dict) :
  same_but_set_order
    (Templates.apply_template (Templates.new_engine rt) template_name d b)
    (Templates.apply_template
       (Templates.new_engine (another_process rt order)) template_name d b).
Proof.
  unfold Templates.apply_template.
  cbn [Templates.templates Templates.new_engine Templates.find_template].
  destruct (String.eqb template_name "faq");
    [|destruct (String.eqb template_name "product_description");
      [|destruct (String.eqb template_name "comparison"); [|reflexivity]]];
    cbn [Templates.get_fields Templates.FAQTemplate
         Templates.ProductDescriptionTemplate Templates.ComparisonTemplate];
    match goal with
    | |- context [negb (is_nil ?m)] => destruct (negb (is_nil m))
    end;
    try reflexivity.
  - apply FAQTemplate_other_process.
  - apply ProductDescriptionTemplate_other_process.
  - apply ComparisonTemplate_other_process.
Qed.

(** C8, as stated, fails: the list of categories is made from a set, and a
    set is listed in the order of the process.  The same two questions
    and the same product, composed by the same template in two processes,
    give two documents that differ in their list of categories. *)
Lemma composition_counterexample :
  exists page page',
    Templates.apply_template (Templates.new_engine Sample.rt) "faq"
      Sample.two_questions [] = Ok page /\
    Templates.apply_template
      (Templates.new_engine (another_process Sample.rt Sample.backwards)) "faq"
      Sample.two_questions [] = Ok page' /\
    dict_get "categories" page = Some (VList [VStr "Safety"; VStr "Usage"]) /\
    dict_get "categories" page' = Some (VList [VStr "Usage"; VStr "Safety"]) /\
    page <> page'.
Proof.
  do 2 eexists. split; [reflexivity|]. split; [reflexivity|].
  split; [reflexivity|]. split; [reflexivity|]. discriminate.
Qed.

(** C8 (amended).  A call of [TemplateEngine.apply_template] is free of
    side effects: whatever the objects it is given, it removes none of the
    objects it finds and changes none, the engine and its two arguments
    among them.  On the engine that [TemplateEngine()] makes and two
    dictionaries that the interpreter can read within its recursion limit,
    the first call hands back the document that [apply_template] returns
    on the values of the two dictionaries (or raises what it raises), and
    a second call with the same arguments, made in the same process on
    what the first has left, hands back the same document (or raises the
    same exception).  In another process the call gives the same but for
    the order of the two lists that the templates make from sets, the
    categories of the FAQ page and the shared benefits of the comparison
    page. *)
Theorem composition_repeatable (rt : Runtime) (limit : nat) (h : Heap.heap)
    (templates : Heap.hval) (template_name : string)
    (data content_blocks : Heap.hval) (d b : dict)
    (Hengine : Heap.deref h templates =
               Some (Heap.ODict TemplatesOnHeap.registry))
    (Hdata : Heap.reify limit h data = Some (VDict d))
    (Hblocks : Heap.reify limit h content_blocks = Some (VDict b)) :
  let call :=
    TemplatesOnHeap.apply_template rt limit templates template_name data
      content_blocks in
  let document :=
    Templates.apply_template (Templates.new_engine rt) template_name d b in
  let first := call h in
  let second := call (snd first) in
  Heap.unchanged h (snd first) /\
  Heap.unchanged (snd first) (snd second) /\
  Heap.yields first document /\
  Heap.yields second document /\
  forall order,
    same_but_set_order document
      (Templates.apply_template
         (Templates.new_engine (another_process rt order)) template_name d b).
Proof.
  cbv zeta.
  pose proof (apply_template_unchanged rt limit templates template_name data
                content_blocks h) as U.
  split; [exact U|]. split; [apply apply_template_unchanged|].
  split; [now apply apply_template_refines|].
  split; [|intros order; apply apply_template_other_process].
  apply apply_template_refines.
  - destruct templates as [| | | |l]; try discriminate. now apply U.
  - now apply (reify_unchanged limit h).
  - now apply (reify_unchanged limit h).
Qed.

Lemma composition_repeatable_witness :
  let call :=
    TemplatesOnHeap.apply_template Sample.rt 3 (Heap.HRef 0) "faq"
      (Heap.HRef 5) (Heap.HRef 6) in
  Heap.unchanged Sample.objects (snd (call Sample.objects)) /\
  Heap.yields (call (snd (call Sample.objects)))
    (Templates.apply_template (Templates.new_engine Sample.rt) "faq"
       Sample.two_questions []).
Proof.
  destruct (composition_repeatable Sample.rt 3 Sample.objects (Heap.HRef 0) "faq"
              (Heap.HRef 5) (Heap.HRef 6) Sample.two_questions [] eq_refl eq_refl
              eq_refl) as (U & _ & _ & Y & _).
  split; [exact U | exact Y].
Defined.

(* ===================================================================== *)
(** ** Reasoning on stage computations *)
(* ===================================================================== *)

Lemma returns_ret {A} (P : A -> Prop) (a : A) : P a -> returns P (ret a).
Proof. intros H b w a' w' E. inversion E. now subst. Qed.

Lemma returns_lift {A} (P : A -> Prop) (r : result A) :
  (forall a, r = Ok a -> P a) -> returns P (lift r).
Proof. intros H b w a w' E. inversion E. auto. Qed.

Lemma returns_raise {A} (P : A -> Prop) (e : exn) : returns P (raise e).
Proof. intros b w a w' E. inversion E. Qed.

Lemma returns_bind {A B} (Q : A -> Prop) (P : B -> Prop)
    (c : Llm A) (k : A -> Llm B) :
  returns Q c -> (forall a, Q a -> returns P (k a)) -> returns P (bind c k).
Proof.
  intros Hc Hk b w r w' E. unfold bind in E.
  destruct (c b w) as [[a|e] w1] eqn:Ec; [|discriminate].
  eapply Hk; [eapply Hc|]; eassumption.
Qed.

Lemma returns_any {A} (c : Llm A) : returns (fun _ => True) c.
Proof. intros b w a w' _. exact I. Qed.

Lemma returns_bind_any {A B} (P : B -> Prop) (c : Llm A) (k : A -> Llm B) :
  (forall a, returns P (k a)) -> returns P (bind c k).
Proof. intros Hk. apply (returns_bind (fun _ => True)); auto using returns_any. Qed.

Lemma returns_catch {A} (P : A -> Prop) (c : Llm A) (h : exn -> Llm A) :
  returns P c -> (forall e, returns P (h e)) -> returns P (catch c h).
Proof.
  intros Hc Hh b w r w' E. unfold catch in E.
  destruct (c b w) as [[a|e] w1] eqn:Ec.
  - inversion E. subst. eapply Hc; eassumption.
  - eapply Hh; eassumption.
Qed.

Lemma total_ret {A} (a : A) : total (ret a).
Proof. intros b w. now exists a. Qed.

Lemma total_catch {A} (c : Llm A) (h : exn -> Llm A) :
  (forall e, total (h e)) -> total (catch c h).
Proof.
  intros Hh b w. unfold catch.
  destruct (c b w) as [[a|e] w1]; [now exists a | apply Hh].
Qed.

(* ===================================================================== *)
(** ** Bounded repair (C4) *)
(* ===================================================================== *)

Lemma check_required_dict (fields : list string) (d : dict) :
  ComparisonGeneratorAgent.check_required fields (VDict d) = Ok tt ->
  forallb (fun f => has_key f d) fields = true.
Proof.
  induction fields as [|f fields IH]; simpl; [reflexivity|].
  destruct (has_key f d); simpl; [exact IH | discriminate].
Qed.

Lemma filter_missing_nil (fields : list string) (d : dict) :
  forallb (fun f => has_key f d) fields = true ->
  filter (fun f => negb (has_key f d)) fields = [].
Proof.
  induction fields as [|f l IH]; simpl; [reflexivity|].
  intros H. apply andb_prop in H as [Hf Hl]. rewrite Hf. simpl. auto.
Qed.

(** a dictionary that passed the loop over the required fields is valid
    for [validate_product_structure]: the call that would fix missing
    critical fields is never issued *)
Lemma validated_when_required (d : dict) :
  ComparisonGeneratorAgent.check_required Tools.product_required_fields (VDict d)
    = Ok tt ->
  Tools.pv_valid (Tools.validate_product_structure d) = true.
Proof.
  intros H. apply check_required_dict in H.
  unfold Tools.validate_product_structure. cbn [Tools.pv_valid].
  now rewrite (filter_missing_nil _ _ H).
Qed.

Ltac conjs := repeat match goal with |- _ /\ _ => split end.

Ltac count_some :=
  conjs;
  try (unfold calls, parses, failed_parses;
       cbn [length filter repair_calls app]; lia);
  try (intros; discriminate); eauto.

Ltac count := solve [count_some].

Ltac llm :=
  cbv [bind catch catch_decode invoke loads lift raise ret log start
       next_call trace
       fst snd app negb andb is_nil as_dict
       Tools.validate_product_structure_invoke].

Lemma comparison_repair_bounded (rt : Runtime) (pa : dict) (b : backend) :
  let out := ComparisonGeneratorAgent.generate_fictional_product_b rt pa b start in
  calls (trace (snd out)) <= 2 /\ bounded_repair out /\
  (forall product_b, fst out = Ok product_b ->
     Tools.pv_valid (Tools.validate_product_structure product_b) = true).
Proof.
  unfold bounded_repair, ComparisonGeneratorAgent.generate_fictional_product_b.
  llm.
  destruct (b 0) as [r0|]; llm; [|count].
  destruct (json_loads rt (unwrap rt (content r0))) as [v|] eqn:E0; llm.
  - destruct (ComparisonGeneratorAgent.check_required
                Tools.product_required_fields v) as [[]|e] eqn:Ec; llm; [|count].
    destruct v; llm; try count.
    rewrite (validated_when_required _ Ec). llm.
    match goal with
    | |- context [Tools.pv_valid ?x] => destruct (Tools.pv_valid x) eqn:V
    end; llm; count_some; intros p [= <-]; exact V.
  - destruct (b 1) as [r1|]; llm; [|count].
    destruct (json_loads rt (unwrap rt (py_strip rt (content r1)))) as [v|] eqn:E1;
      llm; [|count].
    destruct (ComparisonGeneratorAgent.check_required
                Tools.product_required_fields v) as [[]|e] eqn:Ec; llm; [|count].
    destruct v; llm; try count.
    rewrite (validated_when_required _ Ec). llm.
    match goal with
    | |- context [Tools.pv_valid ?x] => destruct (Tools.pv_valid x) eqn:V
    end; llm; count_some; intros p [= <-]; exact V.
Qed.

Lemma direct_validated (raw product : dict) :
  DataParserAgent.direct raw = Some product ->
  Product_new (VDict raw) = Ok product.
Proof.
  unfold DataParserAgent.direct.
  destruct (Tools.dv_valid _); [|discriminate].
  destruct (Product_new (VDict raw)); [|discriminate].
  now intros [= <-].
Qed.

Lemma parser_repair_bounded (rt : Runtime) (raw : dict) (b : backend) :
  let out := DataParserAgent.parse_product_data rt raw b start in
  calls (trace (snd out)) <= 3 /\ bounded_repair out /\
  (forall product, fst out = Ok product ->
     exists data, Product_new data = Ok product).
Proof.
  unfold bounded_repair, DataParserAgent.parse_product_data.
  destruct (DataParserAgent.direct raw) as [product|] eqn:D; llm.
  { apply direct_validated in D. count_some. intros p [= <-]. eauto. }
  destruct (b 0) as [r0|]; llm; [|count].
  destruct (tool_calls r0) as [|tc tcs]; llm.
  - destruct (json_loads rt (unwrap rt (content r0))) as [v|]; llm.
    + destruct (Product_new v) as [p|] eqn:P; llm.
      { count_some. intros p' [= <-]. eauto. }
      destruct (b 1) as [r1|]; llm; [|count].
      destruct (json_loads rt _) as [v1|]; llm; [|count].
      destruct (Product_new v1) as [p1|] eqn:P1; llm; count_some.
      intros p' [= <-]. eauto.
    + destruct (b 1) as [r1|]; llm; [|count].
      destruct (json_loads rt _) as [v1|]; llm; [|count].
      destruct (Product_new v1) as [p1|] eqn:P1; llm; count_some.
      intros p' [= <-]. eauto.
  - destruct (run_tools rt DataParserAgent.tool_map (tc :: tcs)); llm; [|count].
    destruct (b 1) as [r1|]; llm; [|count].
    destruct (json_loads rt (unwrap rt (content r1))) as [v|]; llm.
    + destruct (Product_new v) as [p|] eqn:P; llm.
      { count_some. intros p' [= <-]. eauto. }
      destruct (b 2) as [r2|]; llm; [|count].
      destruct (json_loads rt _) as [v2|]; llm; [|count].
      destruct (Product_new v2) as [p2|] eqn:P2; llm; count_some.
      intros p' [= <-]. eauto.
    + destruct (b 2) as [r2|]; llm; [|count].
      destruct (json_loads rt _) as [v2|]; llm; [|count].
      destruct (Product_new v2) as [p2|] eqn:P2; llm; count_some.
      intros p' [= <-]. eauto.
Qed.

Lemma has_key_dict_set (f k : string) (v : value) (d : dict) :
  has_key f d = true -> has_key f (dict_set k v d) = true.
Proof.
  unfold has_key. induction d as [|[k' v'] d IH]; cbn [dict_set dict_get].
  - discriminate.
  - destruct (String.eqb k k') eqn:K.
    + apply String.eqb_eq in K. subst k'. cbn [dict_get].
      now destruct (String.eqb f k).
    + cbn [dict_get]. destruct (String.eqb f k'); [reflexivity | exact IH].
Qed.

Lemma has_key_ensure_list (f k : string) (d : dict) :
  has_key f d = true ->
  has_key f (ComparisonGeneratorAgent.ensure_list k d) = true.
Proof.
  intros H. unfold ComparisonGeneratorAgent.ensure_list.
  destruct (is_list (get k d)); [exact H | now apply has_key_dict_set].
Qed.

(** what passed the loop over the required fields passes the final
    validation as well: making the three lists lists removes no field *)
Lemma final_validation_passes (d : dict) :
  ComparisonGeneratorAgent.check_required Tools.product_required_fields
    (VDict d) = Ok tt ->
  Tools.pv_valid
    (Tools.validate_product_structure
       (ComparisonGeneratorAgent.ensure_list "benefits"
          (ComparisonGeneratorAgent.ensure_list "key_ingredients"
             (ComparisonGeneratorAgent.ensure_list "skin_type" d)))) = true.
Proof.
  intros H. apply check_required_dict in H.
  unfold Tools.validate_product_structure. cbn [Tools.pv_valid].
  rewrite filter_missing_nil; [reflexivity|].
  rewrite forallb_forall in *. intros f Hf.
  now apply has_key_ensure_list, has_key_ensure_list, has_key_ensure_list, H.
Qed.


Ltac outcome :=
  conjs;
  cbv [calls parses failed_parses repair_calls filter length app Nat.sub];
  try lia;
  try (intros; discriminate);
  try (intros; exfalso; lia).

(** the comparison stage, text by text *)
Lemma comparison_extraction (rt : Runtime) (pa : dict) (b : backend) :
  let out :=
    ComparisonGeneratorAgent.generate_fictional_product_b rt pa b start in
  let t := trace (snd out) in
  bounded_extraction rt b product_b_checked (unwrap rt)
    (fun text => unwrap rt (py_strip rt text)) out /\
  calls t <= 2 /\
  (parses t = 0 -> fst out = Raise BackendError).
Proof.
  cbv zeta. unfold bounded_extraction, attempt, product_b_checked.
  unfold ComparisonGeneratorAgent.generate_fictional_product_b. llm.
  destruct (b 0) as [r0|] eqn:B0; llm; [|outcome; reflexivity].
  destruct (json_loads rt (unwrap rt (content r0))) as [v|] eqn:E0; llm.
  - assert (Here : forall (x : result dict),
              x = (_ <- ComparisonGeneratorAgent.check_required
                          Tools.product_required_fields v ;;
                   _ <- match v with
                        | VDict d => Ok (Tools.validate_product_structure d)
                        | _ => Raise ValidationError
                        end ;;
                   p <- match v with
                        | VDict d => Ok d
                        | _ => Raise AttributeError
                        end ;;
                   Ok (ComparisonGeneratorAgent.ensure_list "benefits"
                         (ComparisonGeneratorAgent.ensure_list
                            "key_ingredients"
                            (ComparisonGeneratorAgent.ensure_list
                               "skin_type" p)))) ->
              exists r, b 0 = Reply r /\
                x = match json_loads rt (unwrap rt (content r)) with
                    | Some v =>
                        _ <- ComparisonGeneratorAgent.check_required
                               Tools.product_required_fields v ;;
                        _ <- match v with
                             | VDict d =>
                                 Ok (Tools.validate_product_structure d)
                             | _ => Raise ValidationError
                             end ;;
                        p <- match v with
                             | VDict d => Ok d
                             | _ => Raise AttributeError
                             end ;;
                        Ok (ComparisonGeneratorAgent.ensure_list "benefits"
                              (ComparisonGeneratorAgent.ensure_list
                                 "key_ingredients"
                                 (ComparisonGeneratorAgent.ensure_list
                                    "skin_type" p)))
                    | None => Raise (json_error rt (unwrap rt (content r)))
                    end).
    { intros x ->. exists r0. split; [exact B0|]. now rewrite E0. }
    destruct (ComparisonGeneratorAgent.check_required
                Tools.product_required_fields v) as [[]|e] eqn:Ec; llm;
      [|outcome; intros _ _; now apply Here].
    destruct v; llm; try (outcome; intros _ _; now apply Here).
    rewrite (validated_when_required _ Ec). llm.
    rewrite (final_validation_passes _ Ec). llm.
    outcome. intros _ _. now apply Here.
  - destruct (b 1) as [r1|] eqn:B1; llm;
      [|outcome; intros _; left; split; [exact B1 | reflexivity]].
    destruct (json_loads rt (unwrap rt (py_strip rt (content r1)))) as [v|]
      eqn:E1; llm.
    + assert (Here : forall (x : result dict),
                x = (_ <- ComparisonGeneratorAgent.check_required
                            Tools.product_required_fields v ;;
                     _ <- match v with
                          | VDict d => Ok (Tools.validate_product_structure d)
                          | _ => Raise ValidationError
                          end ;;
                     p <- match v with
                          | VDict d => Ok d
                          | _ => Raise AttributeError
                          end ;;
                     Ok (ComparisonGeneratorAgent.ensure_list "benefits"
                           (ComparisonGeneratorAgent.ensure_list
                              "key_ingredients"
                              (ComparisonGeneratorAgent.ensure_list
                                 "skin_type" p)))) ->
                exists r, b 1 = Reply r /\
                  x = match json_loads rt
                              (unwrap rt (py_strip rt (content r))) with
                      | Some v =>
                          _ <- ComparisonGeneratorAgent.check_required
                                 Tools.product_required_fields v ;;
                          _ <- match v with
                               | VDict d =>
                                   Ok (Tools.validate_product_structure d)
                               | _ => Raise ValidationError
                               end ;;
                          p <- match v with
                               | VDict d => Ok d
                               | _ => Raise AttributeError
                               end ;;
                          Ok (ComparisonGeneratorAgent.ensure_list "benefits"
                                (ComparisonGeneratorAgent.ensure_list
                                   "key_ingredients"
                                   (ComparisonGeneratorAgent.ensure_list
                                      "skin_type" p)))
                      | None =>
                          Raise (json_error rt
                                   (unwrap rt (py_strip rt (content r))))
                      end).
      { intros x ->. exists r1. split; [exact B1|]. now rewrite E1. }
      destruct (ComparisonGeneratorAgent.check_required
                  Tools.product_required_fields v) as [[]|e] eqn:Ec; llm;
        [|outcome; intros _; right; now apply Here].
      destruct v; llm; try (outcome; intros _; right; now apply Here).
      rewrite (validated_when_required _ Ec). llm.
      rewrite (final_validation_passes _ Ec). llm.
      outcome. intros _. right. now apply Here.
    + outcome. intros _. right. exists r1. split; [exact B1|].
      now rewrite E1.
Qed.

(** the parser stage, text by text *)
Lemma parser_extraction (rt : Runtime) (raw : dict) (b : backend) :
  let out := DataParserAgent.parse_product_data rt raw b start in
  let t := trace (snd out) in
  bounded_extraction rt b Product_new (unwrap rt)
    (fun text => unwrap_json_only rt (py_strip rt text)) out /\
  calls t <= 3 /\
  (parses t = 0 -> forall product, fst out = Ok product ->
     t = [] /\ DataParserAgent.direct raw = Some product).
Proof.
  cbv zeta. unfold bounded_extraction, attempt.
  unfold DataParserAgent.parse_product_data.
  destruct (DataParserAgent.direct raw) as [product|] eqn:D; llm.
  { outcome. intros _ p [= <-]. split; reflexivity. }
  assert (Second : forall k r2,
            b k = Reply r2 ->
            forall x : result dict,
              x = match json_loads rt
                          (unwrap_json_only rt (py_strip rt (content r2))) with
                  | Some v => Product_new v
                  | None =>
                      Raise (json_error rt
                               (unwrap_json_only rt
                                  (py_strip rt (content r2))))
                  end ->
              (b k = Fails /\ x = Raise BackendError) \/
              exists r, b k = Reply r /\
                x = match json_loads rt
                            (unwrap_json_only rt (py_strip rt (content r))) with
                    | Some v => Product_new v
                    | None =>
                        Raise (json_error rt
                                 (unwrap_json_only rt
                                    (py_strip rt (content r))))
                    end).
  { intros k r2 B x ->. right. exists r2. split; [exact B | reflexivity]. }
  assert (First : forall k r1 v p,
            b k = Reply r1 ->
            json_loads rt (unwrap rt (content r1)) = Some v ->
            Product_new v = Ok p ->
            exists r, b k = Reply r /\
              Ok p = match json_loads rt (unwrap rt (content r)) with
                     | Some v => Product_new v
                     | None => Raise (json_error rt (unwrap rt (content r)))
                     end).
  { intros k r1 v p B E P. exists r1. split; [exact B|]. now rewrite E, P. }
  destruct (b 0) as [r0|] eqn:B0; llm; [|outcome].
  destruct (tool_calls r0) as [|tc tcs]; llm.
  - destruct (json_loads rt (unwrap rt (content r0))) as [v|] eqn:E0; llm.
    + destruct (Product_new v) as [p|e] eqn:P; llm.
      { outcome. intros _ _. now apply (First 0 r0 v). }
      destruct (b 1) as [r1|] eqn:B1; llm;
        [|outcome; intros _; left; split; [exact B1 | reflexivity]].
      destruct (json_loads rt
                  (unwrap_json_only rt (py_strip rt (content r1))))
        as [v1|] eqn:E1; llm.
      * destruct (Product_new v1) as [p1|e1] eqn:P1; llm; outcome;
          intros _; apply (Second 1 r1 B1); now rewrite E1, P1.
      * outcome. intros _. apply (Second 1 r1 B1). now rewrite E1.
    + destruct (b 1) as [r1|] eqn:B1; llm;
        [|outcome; intros _; left; split; [exact B1 | reflexivity]].
      destruct (json_loads rt
                  (unwrap_json_only rt (py_strip rt (content r1))))
        as [v1|] eqn:E1; llm.
      * destruct (Product_new v1) as [p1|e1] eqn:P1; llm; outcome;
          intros _; apply (Second 1 r1 B1); now rewrite E1, P1.
      * outcome. intros _. apply (Second 1 r1 B1). now rewrite E1.
  - destruct (run_tools rt DataParserAgent.tool_map (tc :: tcs)); llm;
      [|outcome].
    destruct (b 1) as [r1|] eqn:B1; llm; [|outcome].
    destruct (json_loads rt (unwrap rt (content r1))) as [v|] eqn:E0; llm.
    + destruct (Product_new v) as [p|e] eqn:P; llm.
      { outcome. intros _ _. now apply (First 1 r1 v). }
      destruct (b 2) as [r2|] eqn:B2; llm;
        [|outcome; intros _; left; split; [exact B2 | reflexivity]].
      destruct (json_loads rt
                  (unwrap_json_only rt (py_strip rt (content r2))))
        as [v2|] eqn:E2; llm.
      * destruct (Product_new v2) as [p2|e2] eqn:P2; llm; outcome;
          intros _; apply (Second 2 r2 B2); now rewrite E2, P2.
      * outcome. intros _. apply (Second 2 r2 B2). now rewrite E2.
    + destruct (b 2) as [r2|] eqn:B2; llm;
        [|outcome; intros _; left; split; [exact B2 | reflexivity]].
      destruct (json_loads rt
                  (unwrap_json_only rt (py_strip rt (content r2))))
        as [v2|] eqn:E2; llm.
      * destruct (Product_new v2) as [p2|e2] eqn:P2; llm; outcome;
          intros _; apply (Second 2 r2 B2); now rewrite E2, P2.
      * outcome. intros _. apply (Second 2 r2 B2). now rewrite E2.
Qed.

(** C4, as stated, fails: the bound does not hold of every text a stage
    takes from the backend.  The question generator, sent a text that is
    no JSON, asks the backend three times, twice after its first parse,
    parses five times, and returns the empty list instead of failing. *)
Lemma repair_bound_counterexample :
  QuestionGeneratorAgent.generate_categorized_questions Sample.rt
    (VDict Sample.PRODUCT_DATA) 15 (Sample.says "[x]") start =
  (Ok (VList []),
   {| next_call := 3;
      trace := [Invoked; Parsed false; Parsed false; Invoked; Parsed false;
                Invoked; Parsed false; Parsed false] |}) /\
  calls [Invoked; Parsed false; Parsed false; Invoked; Parsed false;
         Invoked; Parsed false; Parsed false] = 3 /\
  parses [Invoked; Parsed false; Parsed false; Invoked; Parsed false;
          Invoked; Parsed false; Parsed false] = 5 /\
  repair_calls [Invoked; Parsed false; Parsed false; Invoked; Parsed false;
                Invoked; Parsed false; Parsed false] = 2.
Proof. split; [vm_compute; reflexivity | repeat split]. Qed.

(** C4 (amended).  [DataParserAgent.parse_product_data] and
    [ComparisonGeneratorAgent.generate_fictional_product_b], against any
    backend, make at most two attempts on the backend's text (an attempt
    parses a text and validates what was parsed) and call the backend at
    most once after the first attempt (one repair round).  Without a
    repair round the outcome is that of the first attempt; after the
    repair round it is that of the second attempt, whatever it is: the
    record when the attempt is valid, and the exception when the text does
    not parse or what was parsed fails validation.  No call follows a
    failed second attempt, and nothing is returned in its place.  When
    both parses fail the function raises.  What is returned has passed
    validation; without any parse, the parser returns only what came in
    valid, and the comparison stage nothing.  The comparison stage calls
    the backend at most twice in all, the parser at most three times (one
    call may follow the tools the first reply asked for). *)
Theorem repair_rounds_bounded (rt : Runtime) (raw product_a : dict)
    (b : backend) :
  let parsed := DataParserAgent.parse_product_data rt raw b start in
  let made :=
    ComparisonGeneratorAgent.generate_fictional_product_b rt product_a b start in
  (bounded_extraction rt b Product_new (unwrap rt)
     (fun text => unwrap_json_only rt (py_strip rt text)) parsed /\
   bounded_extraction rt b product_b_checked (unwrap rt)
     (fun text => unwrap rt (py_strip rt text)) made) /\
  (bounded_repair parsed /\ bounded_repair made) /\
  (calls (trace (snd parsed)) <= 3 /\ calls (trace (snd made)) <= 2) /\
  (parses (trace (snd parsed)) = 0 ->
   forall product, fst parsed = Ok product ->
     trace (snd parsed) = [] /\ DataParserAgent.direct raw = Some product) /\
  (parses (trace (snd made)) = 0 -> fst made = Raise BackendError) /\
  (forall product, fst parsed = Ok product ->
     exists data, Product_new data = Ok product) /\
  (forall product_b, fst made = Ok product_b ->
     Tools.pv_valid (Tools.validate_product_structure product_b) = true).
Proof.
  intros parsed made.
  destruct (parser_repair_bounded rt raw b) as (Hc & Hb & Hv).
  destruct (comparison_repair_bounded rt product_a b) as (Hc' & Hb' & Hv').
  destruct (parser_extraction rt raw b) as (He & _ & H0).
  destruct (comparison_extraction rt product_a b) as (He' & _ & H0').
  conjs; assumption.
Qed.

(** the second attempt parses, and what it parsed has no field: the
    exception of the validation, and no third call *)
Example repair_invalid :
  ComparisonGeneratorAgent.generate_fictional_product_b
    Sample.rt Sample.PRODUCT_DATA
    (fun n =>
       Reply {| content := match n with 0 => "not json" | _ => "{}" end;
                tool_calls := [] |}) start =
  (Raise (ValueError "Missing required field in Product B: product_name"),
   {| next_call := 2;
      trace := [Invoked; Parsed false; Invoked; Parsed true] |}).
Proof. reflexivity. Qed.

(** both parses fail: two calls, two parses, then the exception *)
Example repair_exhausted :
  ComparisonGeneratorAgent.generate_fictional_product_b
    Sample.rt Sample.PRODUCT_DATA (Sample.says "not json") start =
  (Raise JSONDecodeError,
   {| next_call := 2;
      trace := [Invoked; Parsed false; Invoked; Parsed false] |}).
Proof. reflexivity. Qed.

(** the first reply already parses: one call, no repair *)
Example repair_not_needed :
  ComparisonGeneratorAgent.generate_fictional_product_b
    Sample.rt Sample.PRODUCT_DATA (Sample.says Sample.product_b_text) start =
  (Ok Sample.product_b, {| next_call := 1; trace := [Invoked; Parsed true] |}).
Proof. reflexivity. Qed.

(* ===================================================================== *)
(** ** What the stages write *)
(* ===================================================================== *)

Lemma returns_bind_lift {A B} (P : B -> Prop) (r : result A) (k : A -> Llm B) :
  (forall a, r = Ok a -> returns P (k a)) -> returns P (bind (lift r) k).
Proof.
  intros Hk. apply (returns_bind (fun a => r = Ok a)); [|exact Hk].
  intros b w a w' E. inversion E. reflexivity.
Qed.

Ltac returns_step :=
  first
    [ apply returns_ret; reflexivity
    | apply returns_raise
    | apply returns_catch; [|intros ?]
    | apply returns_bind_any; intros ?
    | match goal with
      | |- returns _ (if ?c then _ else _) => destruct c
      | |- returns _ (match ?c with _ => _ end) => destruct c
      end ].

Ltac returns_auto := cbv zeta; repeat returns_step.

Lemma data_parser_ok (rt : Runtime) :
  stage_ok "data_parser" (DataParserAgent.process rt).
Proof.
  intros state. unfold DataParserAgent.process. returns_auto.
Qed.

Lemma content_blocks_ok (rt : Runtime) (logic : ContentLogic) :
  stage_ok "content_blocks" (ContentBlocksAgent.process rt logic).
Proof.
  intros state. unfold ContentBlocksAgent.process. returns_auto.
Qed.

Lemma question_generator_ok (rt : Runtime) :
  stage_ok "question_generator" (QuestionGeneratorAgent.process rt).
Proof.
  intros state. unfold QuestionGeneratorAgent.process. returns_auto.
Qed.

Lemma faq_generator_ok (rt : Runtime) :
  stage_ok "faq_generator" (FAQGeneratorAgent.process rt).
Proof.
  intros state. unfold FAQGeneratorAgent.process. returns_auto.
Qed.

Lemma product_page_generator_ok (rt : Runtime) :
  stage_ok "product_page_generator" (ProductPageGeneratorAgent.process rt).
Proof.
  intros state. unfold ProductPageGeneratorAgent.process. returns_auto.
Qed.

Lemma comparison_generator_ok (rt : Runtime) :
  stage_ok "comparison_generator" (ComparisonGeneratorAgent.process rt).
Proof.
  intros state. unfold ComparisonGeneratorAgent.process. returns_auto.
Qed.

Lemma json_output_ok : stage_ok "json_output" JSONOutputAgent.process.
Proof.
  intros state. unfold JSONOutputAgent.process. cbv zeta.
  destruct (negb _).
  - returns_auto.
  - apply returns_bind_lift. intros saved Hsaved.
    unfold JSONOutputAgent.format_and_save in Hsaved.
    apply rbind_ok in Hsaved as (? & _ & Hsaved).
    apply rbind_ok in Hsaved as (? & _ & Hsaved).
    apply rbind_ok in Hsaved as (? & _ & Hsaved).
    inversion Hsaved. apply returns_ret. reflexivity.
Qed.

(* ===================================================================== *)
(** ** The shared state across a run *)
(* ===================================================================== *)

Lemma dict_get_set_same (k : string) (v : value) (d : dict) :
  dict_get k (dict_set k v d) = Some v.
Proof.
  induction d as [|[k' v'] d IH]; simpl.
  - now rewrite String.eqb_refl.
  - destruct (String.eqb k k') eqn:E; simpl; rewrite ?String.eqb_refl, ?E; auto.
Qed.

Lemma dict_get_set_other (k k' : string) (v : value) (d : dict) :
  k' <> k -> dict_get k' (dict_set k v d) = dict_get k' d.
Proof.
  intros Hne. induction d as [|[k0 v0] d IH]; simpl.
  - apply String.eqb_neq in Hne. now rewrite Hne.
  - destruct (String.eqb k k0) eqn:E; simpl.
    + apply String.eqb_eq in E. subst.
      apply String.eqb_neq in Hne. now rewrite Hne.
    + destruct (String.eqb k' k0); auto.
Qed.

Lemma update_ok_get (allowed : list string) (u : dict) (k : string) (v : value) :
  update_ok allowed u = true -> dict_get k u = Some v ->
  Workflow.mem k allowed = true /\ slot_ok k v = true.
Proof.
  unfold update_ok. induction u as [|[k' v'] u IH]; simpl; [discriminate|].
  intros H. apply andb_prop in H as [Hhd Htl].
  destruct (String.eqb k k') eqn:E.
  - apply String.eqb_eq in E. subst. intros [= <-]. simpl in Hhd.
    now apply andb_prop in Hhd.
  - auto.
Qed.

Lemma writes_to_In (k : string) (updates : list dict) (v : value) :
  In v (Workflow.writes_to k updates) ->
  exists u, In u updates /\ dict_get k u = Some v.
Proof.
  unfold Workflow.writes_to. rewrite in_flat_map. intros (u & Hu & Hv).
  exists u. split; [exact Hu|].
  destruct (dict_get k u); simpl in Hv; [|contradiction].
  destruct Hv as [<-|[]]. reflexivity.
Qed.

Lemma write_channel_ok (st st' : dict) (k : string) (updates : list dict) :
  typed_updates updates -> state_ok st ->
  Workflow.write_channel (Ok st) k updates = Ok st' -> state_ok st'.
Proof.
  intros Hu Hst. unfold Workflow.write_channel. simpl.
  destruct (Workflow.writes_to k updates) as [|v [|v' vs]] eqn:W;
    intros E; inversion E; subst; auto.
  assert (Hv : slot_ok k v = true).
  { destruct (writes_to_In k updates v) as (u & Hin & Hget).
    - rewrite W. now left.
    - eauto. }
  intros k' Hk'. destruct (String.eqb_spec k' k) as [->|Hne].
  - exists v. now rewrite dict_get_set_same.
  - rewrite dict_get_set_other by assumption. auto.
Qed.

Lemma merge_keys_ok (ks : list string) (updates : list dict) :
  typed_updates updates ->
  forall (acc : result dict) (st' : dict),
    (forall st, acc = Ok st -> state_ok st) ->
    fold_left (fun a k => Workflow.write_channel a k updates) ks acc = Ok st' ->
    state_ok st'.
Proof.
  intros Hu. induction ks as [|k ks IH]; simpl; intros acc st' Hacc E.
  - auto.
  - eapply IH; [|exact E].
    intros st Hst. destruct acc as [st0|e]; [|discriminate].
    eapply write_channel_ok; eauto.
Qed.

Lemma merge_ok (g : Workflow.StateGraph) (st st' : dict) (updates : list dict) :
  typed_updates updates -> state_ok st ->
  Workflow.merge g st updates = Ok st' -> state_ok st'.
Proof.
  intros Hu Hst. unfold Workflow.merge. apply merge_keys_ok; [exact Hu|].
  now intros ? [= <-].
Qed.

Lemma run_node_typed (g : Workflow.StateGraph) (backends : string -> backend)
    (st u : dict) (name : string) :
  typed_graph g -> Workflow.run_node g backends st name = Ok u ->
  forall k v, dict_get k u = Some v -> slot_ok k v = true.
Proof.
  intros Hg. unfold Workflow.run_node.
  destruct (Workflow.find_node name (Workflow.nodes g)) as [f|] eqn:F;
    [|discriminate].
  destruct (f st (backends name) start) as [r w] eqn:R. simpl.
  intros -> k v Hget.
  apply (update_ok_get _ _ _ _ (Hg name f F st _ _ _ _ R) Hget).
Qed.

Lemma invoke_graph_ok (g : Workflow.StateGraph) (backends : string -> backend) :
  typed_graph g ->
  forall limit active st st',
    state_ok st ->
    Workflow.invoke_graph limit g backends active st = Ok st' -> state_ok st'.
Proof.
  intros Hg. induction limit as [|limit IH]; intros active st st' Hst E.
  - destruct active; simpl in E; [now inversion E; subst | discriminate].
  - destruct active as [|a active]; [simpl in E; now inversion E; subst|].
    cbn [Workflow.invoke_graph] in E.
    apply rbind_ok in E as (st1 & Hstep & E).
    unfold Workflow.superstep in Hstep.
    apply rbind_ok in Hstep as (updates & Hup & Hmerge).
    apply (IH (Workflow.successors g (a :: active)) st1 st'); [|exact E].
    apply (merge_ok g st st1 updates); auto.
    apply mapM_Forall2 in Hup.
    intros u k v Hin Hget.
    assert (Hex : exists n, Workflow.run_node g backends st n = Ok u).
    { clear -Hup Hin. induction Hup; simpl in Hin; [contradiction|].
      destruct Hin as [<-|Hin]; eauto. }
    destruct Hex as (n & Hn). eapply run_node_typed; eauto.
Qed.

Lemma initial_state_ok (product_data : dict) :
  state_ok (Workflow.initial_state product_data).
Proof.
  intros k Hk. unfold Workflow.ProductState in Hk. simpl in Hk.
  repeat (destruct Hk as [<-|Hk]; [eexists; split; reflexivity|]).
  contradiction.
Qed.

Lemma new_workflow_graph (rt : Runtime) (logic : ContentLogic) :
  Workflow.new_workflow rt logic =
  Ok {| Workflow.schema := Workflow.ProductState;
        Workflow.nodes :=
          [("data_parser", DataParserAgent.process rt);
           ("content_blocks", ContentBlocksAgent.process rt logic);
           ("question_generator", QuestionGeneratorAgent.process rt);
           ("faq_generator", FAQGeneratorAgent.process rt);
           ("product_page_generator", ProductPageGeneratorAgent.process rt);
           ("comparison_generator", ComparisonGeneratorAgent.process rt);
           ("json_output", JSONOutputAgent.process)];
        Workflow.edges :=
          [("data_parser", "content_blocks");
           ("data_parser", "question_generator");
           ("content_blocks", "faq_generator");
           ("content_blocks", "product_page_generator");
           ("question_generator", "faq_generator");
           ("content_blocks", "comparison_generator");
           ("faq_generator", "json_output");
           ("product_page_generator", "json_output");
           ("comparison_generator", "json_output");
           ("json_output", Workflow.END)];
        Workflow.entry_point := Some "data_parser" |}.
Proof. reflexivity. Qed.

Lemma workflow_typed (rt : Runtime) (logic : ContentLogic) (g : Workflow.StateGraph) :
  Workflow.new_workflow rt logic = Ok g -> typed_graph g.
Proof.
  rewrite new_workflow_graph. intros [= <-] name f. cbn [Workflow.nodes Workflow.find_node].
  repeat match goal with
  | |- (if String.eqb name ?s then _ else _) = _ -> _ =>
      destruct (String.eqb_spec name s) as [->|_];
      [intros [= <-];
       auto using data_parser_ok, content_blocks_ok, question_generator_ok,
         faq_generator_ok, product_page_generator_ok, comparison_generator_ok,
         json_output_ok|]
  end.
  discriminate.
Qed.

Lemma run_state_ok (rt : Runtime) (logic : ContentLogic)
    (backends : string -> backend) (product_data st : dict) :
  Workflow.build_and_run rt logic backends product_data = Ok st -> state_ok st.
Proof.
  unfold Workflow.build_and_run. intros H.
  apply rbind_ok in H as (g & Hg & H).
  unfold Workflow.run in H.
  destruct (Workflow.entry_point g); [|discriminate].
  eapply invoke_graph_ok; [eapply workflow_typed; eassumption | | exact H].
  apply initial_state_ok.
Qed.

(* ===================================================================== *)
(** ** The output contract (C9) *)
(* ===================================================================== *)

(** C9, as stated, fails: the description page announces itself as
    [product_description], and the flags of the first and last stages are
    [data_parsed] and [json_output_complete]. *)
Lemma page_type_counterexample :
  exists page,
    Templates.apply (Templates.ProductDescriptionTemplate Sample.rt)
      [("product_data", VDict Sample.PRODUCT_DATA)] [] = Ok page /\
    dict_get "page_type" page = Some (VStr "product_description") /\
    ~ In "product_description" ["faq"; "description"; "comparison"] /\
    ~ In "data_parser_generated" Workflow.ProductState /\
    ~ In "json_output_generated" Workflow.ProductState.
Proof.
  eexists. split; [reflexivity|]. split; [reflexivity|].
  repeat split; intros H; simpl in H;
    repeat (destruct H as [H|H]; [discriminate|]); exact H.
Qed.

(** C9 (amended).  A page produced by the FAQ template has [page_type]
    "faq", one by the description template "product_description", one by
    the comparison template "comparison".  The state a run returns holds
    under [errors] a list of strings and under each of [data_parsed],
    [content_blocks_generated], [questions_generated], [faq_generated],
    [product_page_generated], [comparison_generated] and
    [json_output_complete] a boolean. *)
Theorem output_contract (rt : Runtime) (logic : ContentLogic)
    (backends : string -> backend) (product_data : dict) :
  (forall data blocks page,
     Templates.apply (Templates.FAQTemplate rt) data blocks = Ok page ->
     dict_get "page_type" page = Some (VStr "faq")) /\
  (forall data blocks page,
     Templates.apply (Templates.ProductDescriptionTemplate rt) data blocks = Ok page ->
     dict_get "page_type" page = Some (VStr "product_description")) /\
  (forall data blocks page,
     Templates.apply (Templates.ComparisonTemplate rt) data blocks = Ok page ->
     dict_get "page_type" page = Some (VStr "comparison")) /\
  (forall st,
     Workflow.build_and_run rt logic backends product_data = Ok st ->
     (exists errors,
        dict_get "errors" st = Some (VList errors) /\
        forallb is_str errors = true) /\
     (forall flag, In flag completion_flags ->
        exists b, dict_get flag st = Some (VBool b))).
Proof.
  split; [|split; [|split]].
  - intros data blocks page H. simpl in H.
    repeat (apply rbind_ok in H as (? & _ & H)). now inversion H.
  - intros data blocks page H. simpl in H.
    repeat (apply rbind_ok in H as (? & _ & H)). now inversion H.
  - intros data blocks page H. simpl in H.
    repeat (apply rbind_ok in H as (? & _ & H)). now inversion H.
  - intros st Hrun. apply run_state_ok in Hrun. split.
    + destruct (Hrun "errors") as (v & Hv & Hok).
      { unfold Workflow.ProductState. simpl. tauto. }
      unfold slot_ok in Hok. simpl in Hok.
      destruct v; try discriminate. eauto.
    + intros flag Hflag.
      destruct (Hrun flag) as (v & Hv & Hok).
      { unfold completion_flags in Hflag. unfold Workflow.ProductState.
        simpl in *. intuition. }
      assert (Hb : is_bool v = true).
      { unfold completion_flags in Hflag. simpl in Hflag.
        repeat (destruct Hflag as [<-|Hflag]; [exact Hok|]). contradiction. }
      destruct v; try discriminate. eauto.
Qed.

Lemma output_contract_witness :
  exists st,
    Workflow.build_and_run Sample.rt Sample.logic Sample.all_fine
      Sample.PRODUCT_DATA = Ok st /\
    (exists b, dict_get "comparison_generated" st = Some (VBool b)).
Proof.
  assert (Hex : { st | Workflow.build_and_run Sample.rt Sample.logic
                         Sample.all_fine Sample.PRODUCT_DATA = Ok st }).
  { eexists. vm_compute. reflexivity. }
  destruct Hex as [st Hrun]. exists st. split; [exact Hrun|].
  destruct (output_contract Sample.rt Sample.logic Sample.all_fine
              Sample.PRODUCT_DATA) as (_ & _ & _ & H).
  destruct (H st Hrun) as [_ Hflags].
  apply Hflags. unfold completion_flags. simpl. tauto.
Defined.

(* ===================================================================== *)
(** ** Writers of the state keys (C5) *)
(* ===================================================================== *)

Lemma mem_In (k : string) (l : list string) :
  Workflow.mem k l = true <-> In k l.
Proof.
  unfold Workflow.mem. rewrite existsb_exists. split.
  - intros (x & Hx & E). apply String.eqb_eq in E. now subst.
  - intros H. exists k. split; [exact H | apply String.eqb_refl].
Qed.

Lemma writes_disjoint (n1 n2 k : string) :
  In n1 stage_names -> In n2 stage_names ->
  In k (writes n1) -> In k (writes n2) -> k <> "errors" -> n1 = n2.
Proof.
  unfold stage_names. simpl.
  intros H1 H2.
  repeat (destruct H1 as [<-|H1]); try contradiction;
    repeat (destruct H2 as [<-|H2]); try contradiction;
    try reflexivity; simpl; intros Hk1 Hk2 Hne;
    repeat (destruct Hk1 as [<-|Hk1]); try contradiction;
    try congruence;
    repeat (destruct Hk2 as [Hk2|Hk2]; [discriminate|]); contradiction.
Qed.

Lemma may_write_within (name : string) (f : Workflow.node) (k : string) :
  stage_ok name f -> may_write f k -> In k (writes name).
Proof.
  intros Hok (state & b & w & u & w' & Hrun & Hkey).
  unfold has_key in Hkey. destruct (dict_get k u) as [v|] eqn:G; [|discriminate].
  apply mem_In. eapply update_ok_get; [|exact G].
  eapply Hok. exact Hrun.
Qed.

Lemma workflow_nodes (rt : Runtime) (logic : ContentLogic)
    (g : Workflow.StateGraph) (name : string) (f : Workflow.node) :
  Workflow.new_workflow rt logic = Ok g -> In (name, f) (Workflow.nodes g) ->
  In name stage_names /\ stage_ok name f /\ may_write f "errors".
Proof.
  rewrite new_workflow_graph. intros [= <-]. cbn [Workflow.nodes].
  intros Hin. cbn [In] in Hin.
  repeat (destruct Hin as [[= <- <-]|Hin];
          [split; [unfold stage_names; simpl; tauto|]; split;
           [first [apply data_parser_ok | apply content_blocks_ok
                  | apply question_generator_ok | apply faq_generator_ok
                  | apply product_page_generator_ok
                  | apply comparison_generator_ok | apply json_output_ok]
           | exists [], (fun _ => Fails), start; do 2 eexists;
             split; [lazy; reflexivity | reflexivity]]|]).
  contradiction.
Qed.

(** C5, as stated, fails: the graph is built and compiled without any
    check of the writers, and the key [errors] is written by several of
    its stages (here the first and the last). *)
Lemma single_writer_counterexample :
  exists g,
    Workflow.new_workflow Sample.rt Sample.logic = Ok g /\
    In ("data_parser", DataParserAgent.process Sample.rt) (Workflow.nodes g) /\
    In ("json_output", JSONOutputAgent.process) (Workflow.nodes g) /\
    may_write (DataParserAgent.process Sample.rt) "errors" /\
    may_write JSONOutputAgent.process "errors".
Proof.
  eexists. split; [apply new_workflow_graph|].
  split; [simpl; tauto|]. split; [simpl; tauto|].
  split; exists [], (fun _ => Fails), start; do 2 eexists;
    (split; [lazy; reflexivity | reflexivity]).
Qed.

(** C5 (amended).  The graph of the workflow is built and compiled
    whatever its stages write: no check of the writers is made.  In it,
    every key other than [errors] that a stage can return is returned by
    that stage alone, and [errors] can be returned by each of the seven
    stages. *)
Theorem single_writer_except_errors (rt : Runtime) (logic : ContentLogic) :
  exists g,
    Workflow.new_workflow rt logic = Ok g /\
    length (Workflow.nodes g) = 7 /\
    (forall n1 f1 n2 f2 k,
       In (n1, f1) (Workflow.nodes g) -> In (n2, f2) (Workflow.nodes g) ->
       may_write f1 k -> may_write f2 k -> k <> "errors" -> n1 = n2) /\
    (forall n f, In (n, f) (Workflow.nodes g) -> may_write f "errors").
Proof.
  eexists. split; [apply new_workflow_graph|]. split; [reflexivity|]. split.
  - intros n1 f1 n2 f2 k H1 H2 W1 W2 Hne.
    destruct (workflow_nodes rt logic _ n1 f1 (new_workflow_graph rt logic) H1)
      as (S1 & O1 & _).
    destruct (workflow_nodes rt logic _ n2 f2 (new_workflow_graph rt logic) H2)
      as (S2 & O2 & _).
    eapply writes_disjoint; eauto using may_write_within.
  - intros n f H.
    now destruct (workflow_nodes rt logic _ n f (new_workflow_graph rt logic) H)
      as (_ & _ & W).
Qed.

(* ===================================================================== *)
(** ** Failure of the comparison stage (C1) *)
(* ===================================================================== *)

(** the FAQ stage and the question stage turn every exception of their
    generation into an error record *)
Lemma faq_process_total (rt : Runtime) (state : dict) :
  total (FAQGeneratorAgent.process rt state).
Proof.
  unfold FAQGeneratorAgent.process. cbv zeta.
  repeat match goal with
  | |- total (if ?c then _ else _) => destruct c
  end; try apply total_ret.
  apply total_catch. intros e. apply total_ret.
Qed.

Lemma question_process_total (rt : Runtime) (state : dict) :
  total (QuestionGeneratorAgent.process rt state).
Proof.
  unfold QuestionGeneratorAgent.process. cbv zeta.
  destruct (negb _); [apply total_ret|].
  apply total_catch. intros e. apply total_ret.
Qed.

(** the comparison stage does not: with a product at hand and a backend
    whose first reply is an object without [product_name], it raises *)
Lemma comparison_process_raises (rt : Runtime) (state product_a : dict)
    (b : backend) (r : response) :
  get_default "parsed_product" (VDict []) state = VDict product_a ->
  product_a <> [] ->
  b 0 = Reply r ->
  json_loads rt (unwrap rt (content r)) = Some (VDict []) ->
  fst (ComparisonGeneratorAgent.process rt state b start) =
  Raise (ValueError "Missing required field in Product B: product_name").
Proof.
  intros Hpa Hne Hb Hjson.
  unfold ComparisonGeneratorAgent.process. rewrite Hpa.
  destruct product_a as [|kv product_a]; [congruence|].
  cbn [truthy is_nil negb].
  unfold ComparisonGeneratorAgent.generate_fictional_product_b.
  llm. rewrite Hb. llm. rewrite Hjson. llm. reflexivity.
Qed.

(** C1 (the code departs from it).  On the record of [main_product.py],
    with a backend that serves every stage and answers the comparison stage
    with an empty JSON object: the first two steps succeed; in the third
    step the FAQ stage returns its page and the description stage returns
    its page, the comparison stage raises [ValueError], and the run raises
    it to its caller.  No state, no page and no error list is returned.
    This holds whatever the four content blocks generated for the record
    are. *)
Theorem comparison_failure_aborts_run (benefits usage ingredients safety : dict) :
  let logic := Sample.logic_returning benefits usage ingredients safety in
  let backends := Sample.comparison_incomplete in
  let failure :=
    ValueError "Missing required field in Product B: product_name" in
  exists g st1 st2 faq_update description_update,
    Workflow.new_workflow Sample.rt logic = Ok g /\
    Workflow.superstep g backends ["data_parser"]
      (Workflow.initial_state Sample.PRODUCT_DATA) = Ok st1 /\
    Workflow.superstep g backends ["content_blocks"; "question_generator"] st1
      = Ok st2 /\
    Workflow.successors g ["content_blocks"; "question_generator"] =
      ["faq_generator"; "product_page_generator"; "comparison_generator"] /\
    Workflow.run_node g backends st2 "faq_generator" = Ok faq_update /\
    is_dict (get "faq_page" faq_update) = true /\
    Workflow.run_node g backends st2 "product_page_generator" =
      Ok description_update /\
    is_dict (get "product_page" description_update) = true /\
    Workflow.run_node g backends st2 "comparison_generator" = Raise failure /\
    Workflow.build_and_run Sample.rt logic backends Sample.PRODUCT_DATA =
      Raise failure.
Proof.
  intros logic backends failure. do 5 eexists.
  split; [apply new_workflow_graph|].
  split; [vm_compute; reflexivity|].
  split; [vm_compute; reflexivity|].
  split; [reflexivity|].
  split; [vm_compute; reflexivity|].
  split; [reflexivity|].
  split; [vm_compute; reflexivity|].
  split; [reflexivity|].
  split; vm_compute; reflexivity.
Qed.

(* ===================================================================== *)
(** ** The error list across the steps (C6) *)
(* ===================================================================== *)

(** a step with one update: each key of the schema that the update holds
    takes the new value, whatever the state held *)
Lemma merge_single_keys (ks : list string) (u : dict) :
  forall st, exists st',
    fold_left (fun a k => Workflow.write_channel a k [u]) ks (Ok st) = Ok st' /\
    forall k, dict_get k st' =
      if Workflow.mem k ks
      then match dict_get k u with Some v => Some v | None => dict_get k st end
      else dict_get k st.
Proof.
  induction ks as [|k0 ks IH]; intros st.
  - exists st. split; [reflexivity|]. reflexivity.
  - cbn [fold_left].
    assert (Hstep : exists st1,
      Workflow.write_channel (Ok st) k0 [u] = Ok st1 /\
      forall k, dict_get k st1 =
        if String.eqb k k0
        then match dict_get k u with Some v => Some v | None => dict_get k st end
        else dict_get k st).
    { unfold Workflow.write_channel, Workflow.writes_to. simpl.
      destruct (dict_get k0 u) as [v|] eqn:G; simpl.
      - exists (dict_set k0 v st). split; [reflexivity|]. intros k.
        destruct (String.eqb_spec k k0) as [->|Hne].
        + now rewrite dict_get_set_same, G.
        + now apply dict_get_set_other.
      - exists st. split; [reflexivity|]. intros k.
        destruct (String.eqb_spec k k0) as [->|Hne]; [now rewrite G | reflexivity]. }
    destruct Hstep as (st1 & -> & H1).
    destruct (IH st1) as (st' & Hfold & H').
    exists st'. split; [exact Hfold|]. intros k. rewrite H'.
    unfold Workflow.mem. cbn [existsb]. fold (Workflow.mem k ks).
    rewrite H1.
    destruct (String.eqb k k0), (Workflow.mem k ks), (dict_get k u); reflexivity.
Qed.

(** the merge of one stage's error record replaces the error list *)
Lemma merge_replaces_errors (rt : Runtime) (logic : ContentLogic)
    (g : Workflow.StateGraph) (st u : dict) (old new : list value) :
  Workflow.new_workflow rt logic = Ok g ->
  dict_get "errors" st = Some (VList old) ->
  dict_get "errors" u = Some (VList new) ->
  exists st', Workflow.merge g st [u] = Ok st' /\
              dict_get "errors" st' = Some (VList new).
Proof.
  rewrite new_workflow_graph. intros [= <-] _ Hu.
  unfold Workflow.merge. cbn [Workflow.schema].
  destruct (merge_single_keys Workflow.ProductState u st) as (st' & Hfold & Hget).
  exists st'. split; [exact Hfold|].
  rewrite Hget, Hu. reflexivity.
Qed.

(** C6 (the code departs from it).  On the record of [main_product.py],
    with the backend down for the question generator only, the run returns
    a state.  After the second step its error list holds the record of the
    question generator; the third step replaces that list by the record of
    the FAQ stage; the fourth replaces it by the record of the output
    stage, and this one record is all the caller receives.  This holds
    whatever the four content blocks generated for the record are. *)
Theorem errors_overwritten (benefits usage ingredients safety : dict) :
  let logic := Sample.logic_returning benefits usage ingredients safety in
  let backends := Sample.questions_down in
  exists g st1 st2 st3 st4,
    Workflow.new_workflow Sample.rt logic = Ok g /\
    Workflow.superstep g backends ["data_parser"]
      (Workflow.initial_state Sample.PRODUCT_DATA) = Ok st1 /\
    Workflow.superstep g backends ["content_blocks"; "question_generator"] st1
      = Ok st2 /\
    Workflow.superstep g backends
      ["faq_generator"; "product_page_generator"; "comparison_generator"] st2
      = Ok st3 /\
    Workflow.superstep g backends ["json_output"] st3 = Ok st4 /\
    Workflow.build_and_run Sample.rt logic backends Sample.PRODUCT_DATA =
      Ok st4 /\
    get "errors" st1 = VList [] /\
    get "errors" st2 = VList [VStr "Question generator error: BackendError"] /\
    get "errors" st3 =
      VList [VStr "Missing questions for FAQ generation. Question generator may have failed."] /\
    get "errors" st4 = VList [VStr "Missing pages for JSON output: FAQ page"].
Proof.
  intros logic backends. do 5 eexists.
  split; [apply new_workflow_graph|].
  split; [vm_compute; reflexivity|].
  split; [vm_compute; reflexivity|].
  split; [vm_compute; reflexivity|].
  split; [vm_compute; reflexivity|].
  split; [vm_compute; reflexivity|].
  repeat split; reflexivity.
Qed.

(* ===================================================================== *)
(** ** Validation tools *)
(* ===================================================================== *)

Lemma has_key_dict_get (k : string) (d : dict) :
  has_key k d = true <-> exists v, dict_get k d = Some v.
Proof.
  unfold has_key. destruct (dict_get k d) as [v|]; split;
    try discriminate; eauto. intros [v H]. discriminate.
Qed.

Lemma filter_nil_iff {A} (p : A -> bool) (l : list A) :
  filter p l = [] <-> forall x, In x l -> p x = false.
Proof.
  induction l as [|a l IH]; simpl.
  - split; [intros _ x [] | reflexivity].
  - destruct (p a) eqn:E; split.
    + discriminate.
    + intros H. specialize (H a (or_introl eq_refl)). congruence.
    + intros H x [<-|Hx]; [exact E | now apply IH].
    + intros H. apply IH. auto.
Qed.

Lemma length_zero_nil {A} (l : list A) : Nat.eqb (length l) 0 = true <-> l = [].
Proof. destruct l; simpl; split; congruence. Qed.

(** [validate_product_structure]: the record is valid exactly when it has
    the seven required fields; [missing_fields] lists the required fields
    it lacks, in their order; the fields found and the fields missing add
    up to the seven required. *)
Theorem validate_product_structure_sound (product : dict) :
  let v := Tools.validate_product_structure product in
  (Tools.pv_valid v = true <->
   forall f, In f Tools.product_required_fields -> has_key f product = true) /\
  (forall f, In f (Tools.pv_missing_fields v) <->
     In f Tools.product_required_fields /\ has_key f product = false) /\
  Tools.pv_field_count v + length (Tools.pv_missing_fields v) = 7 /\
  Tools.pv_total_required v = 7.
Proof.
  cbn zeta. unfold Tools.validate_product_structure.
  cbn [Tools.pv_valid Tools.pv_missing_fields Tools.pv_field_count
       Tools.pv_total_required].
  split; [|split; [|split]].
  - rewrite length_zero_nil, filter_nil_iff. split; intros H f Hf.
    + apply H in Hf. now apply negb_false_iff in Hf.
    + apply negb_false_iff. auto.
  - intros f. rewrite filter_In, negb_true_iff. tauto.
  - rewrite (filter_length (fun f => has_key f product)). reflexivity.
  - reflexivity.
Qed.

(** [validate_data_structure]: the data is valid exactly when every
    required field is present with a value other than [None]; each
    required field is either reported missing or reported present, never
    both. *)
Theorem validate_data_structure_sound (data : dict) (required_fields : list string) :
  let v := Tools.validate_data_structure data required_fields in
  (Tools.dv_valid v = true <->
   forall f, In f required_fields ->
     exists x, dict_get f data = Some x /\ x <> VNone) /\
  (forall f, In f required_fields ->
     (In f (Tools.dv_missing_fields v) /\ ~ In f (Tools.dv_present_fields v)) \/
     (In f (Tools.dv_present_fields v) /\ ~ In f (Tools.dv_missing_fields v))) /\
  length (Tools.dv_missing_fields v) + length (Tools.dv_present_fields v) =
    length required_fields.
Proof.
  cbn zeta. unfold Tools.validate_data_structure.
  cbn [Tools.dv_valid Tools.dv_missing_fields Tools.dv_present_fields].
  assert (Hchar : forall f,
    negb (has_key f data) || Tools.is_none (get f data) = false <->
    exists x, dict_get f data = Some x /\ x <> VNone).
  { intros f. unfold has_key, get, get_default.
    destruct (dict_get f data) as [x|]; simpl.
    - split.
      + intros H. exists x. split; [reflexivity|]. intros ->. discriminate.
      + intros (x' & [= <-] & Hx). destruct x; try reflexivity. congruence.
    - split; [discriminate | intros (x & H & _); discriminate]. }
  assert (Hneg : forall f,
    has_key f data && negb (Tools.is_none (get f data)) =
    negb (negb (has_key f data) || Tools.is_none (get f data))).
  { intros f. destruct (has_key f data), (Tools.is_none (get f data)); reflexivity. }
  split; [|split].
  - rewrite length_zero_nil, filter_nil_iff. split; intros H f Hf.
    + apply Hchar. auto.
    + apply Hchar. auto.
  - intros f Hf. rewrite !filter_In, Hneg.
    destruct (negb (has_key f data) || Tools.is_none (get f data)); simpl.
    + left. split; [tauto | intros [_ H]; discriminate].
    + right. split; [tauto | intros [_ H]; discriminate].
  - rewrite (filter_ext _ _ Hneg).
    apply (filter_length
             (fun f => negb (has_key f data) || Tools.is_none (get f data))).
Qed.
(* ===================================================================== *)
(** ** The product model and the parser *)
(* ===================================================================== *)

Lemma str_field_ok (k : string) (d : dict) (v : value) :
  str_field k d = Ok v -> dict_get k d = Some v /\ exists s, v = VStr s.
Proof.
  unfold str_field. destruct (dict_get k d) as [[]|]; try discriminate.
  intros [= <-]. eauto.
Qed.

Lemma str_list_field_ok (k : string) (d : dict) (v : value) :
  str_list_field k d = Ok v ->
  dict_get k d = Some v /\ exists l, v = VList l /\ forallb is_str l = true.
Proof.
  unfold str_list_field. destruct (dict_get k d) as [[]|]; try discriminate.
  destruct (forallb is_str l) eqn:E; [|discriminate].
  intros [= <-]. eauto.
Qed.

(** what [Product_new] accepts: the eight fields, each of its type *)
Lemma Product_new_fields (data : value) (product : dict) :
  Product_new data = Ok product ->
  exists d n c st ki be h se p,
    data = VDict d /\
    product = [("product_name", VStr n); ("concentration", VStr c);
               ("skin_type", VList st); ("key_ingredients", VList ki);
               ("benefits", VList be); ("how_to_use", VStr h);
               ("side_effects", VStr se); ("price", VStr p)] /\
    forallb is_str st = true /\ forallb is_str ki = true /\
    forallb is_str be = true /\
    dict_get "product_name" d = Some (VStr n) /\
    dict_get "concentration" d = Some (VStr c) /\
    dict_get "skin_type" d = Some (VList st) /\
    dict_get "key_ingredients" d = Some (VList ki) /\
    dict_get "benefits" d = Some (VList be) /\
    dict_get "how_to_use" d = Some (VStr h) /\
    dict_get "side_effects" d = Some (VStr se) /\
    dict_get "price" d = Some (VStr p).
Proof.
  destruct data as [| | | | |d]; try discriminate.
  unfold Product_new. intros H.
  apply rbind_ok in H as (v1 & H1 & H). apply str_field_ok in H1 as (G1 & n & ->).
  apply rbind_ok in H as (v2 & H2 & H). apply str_field_ok in H2 as (G2 & c & ->).
  apply rbind_ok in H as (v3 & H3 & H).
  apply str_list_field_ok in H3 as (G3 & st & -> & S3).
  apply rbind_ok in H as (v4 & H4 & H).
  apply str_list_field_ok in H4 as (G4 & ki & -> & S4).
  apply rbind_ok in H as (v5 & H5 & H).
  apply str_list_field_ok in H5 as (G5 & be & -> & S5).
  apply rbind_ok in H as (v6 & H6 & H). apply str_field_ok in H6 as (G6 & h & ->).
  apply rbind_ok in H as (v7 & H7 & H). apply str_field_ok in H7 as (G7 & se & ->).
  apply rbind_ok in H as (v8 & H8 & H). apply str_field_ok in H8 as (G8 & p & ->).
  inversion H. subst.
  exists d, n, c, st, ki, be, h, se, p. repeat split; assumption.
Qed.

(** What the [Product] model accepts, dumped, is accepted again and dumps
    to itself; the dump has the eight declared fields and no other, in the
    order of their declaration. *)
Theorem Product_new_round_trip (data : value) (product : dict)
    (H : Product_new data = Ok product) :
  Product_new (VDict product) = Ok product /\
  keys product =
    ["product_name"; "concentration"; "skin_type"; "key_ingredients";
     "benefits"; "how_to_use"; "side_effects"; "price"].
Proof.
  apply Product_new_fields in H
    as (d & n & c & st & ki & be & h & se & p & _ & -> & S3 & S4 & S5 & _).
  split; [|reflexivity].
  unfold Product_new, str_field, str_list_field. cbn [dict_get String.eqb Ascii.eqb Bool.eqb].
  simpl. rewrite S3, S4, S5. reflexivity.
Qed.

Lemma Product_new_round_trip_witness :
  Product_new (VDict Sample.PRODUCT_DATA) = Ok Sample.PRODUCT_DATA.
Proof.
  exact (proj1 (Product_new_round_trip (VDict Sample.PRODUCT_DATA)
                  Sample.PRODUCT_DATA eq_refl)).
Defined.

Lemma directly_valid (raw product : dict) :
  Product_new (VDict raw) = Ok product ->
  DataParserAgent.direct raw = Some product.
Proof.
  intros H. unfold DataParserAgent.direct. rewrite H.
  apply Product_new_fields in H
    as (d & n & c & st & ki & be & h & se & p & [= <-] & _ & _ & _ & _ &
        G1 & G2 & G3 & G4 & G5 & G6 & G7 & G8).
  unfold Tools.validate_data_structure, Tools.product_required_fields.
  cbn [Tools.dv_valid filter].
  unfold has_key, get, get_default.
  rewrite G1, G2, G3, G4, G5, G6, G8. reflexivity.
Qed.

(** A record that the [Product] model accepts as it is (the seven required
    fields and [side_effects], each of its type) is parsed without any
    call to the backend and without any parse: the parser returns its
    dump. *)
Theorem parse_without_backend (rt : Runtime) (raw product : dict)
    (b : backend) (w : world)
    (H : Product_new (VDict raw) = Ok product) :
  DataParserAgent.parse_product_data rt raw b w = (Ok product, w).
Proof.
  unfold DataParserAgent.parse_product_data.
  now rewrite (directly_valid raw product H).
Qed.

Lemma parse_without_backend_witness :
  DataParserAgent.parse_product_data Sample.rt Sample.PRODUCT_DATA Sample.down
    start = (Ok Sample.PRODUCT_DATA, start).
Proof.
  exact (parse_without_backend Sample.rt Sample.PRODUCT_DATA Sample.PRODUCT_DATA
           Sample.down start eq_refl).
Defined.

(** A record without [side_effects] is not accepted as it is, although
    [validate_data_structure] does not ask for that field: the parser turns
    to the backend, whatever else the record holds. *)
Theorem parse_needs_side_effects (rt : Runtime) (raw : dict) (b : backend)
    (H : dict_get "side_effects" raw = None) :
  DataParserAgent.direct raw = None /\
  1 <= calls (trace (snd (DataParserAgent.parse_product_data rt raw b start))).
Proof.
  assert (D : DataParserAgent.direct raw = None).
  { unfold DataParserAgent.direct.
    destruct (Tools.dv_valid _); [|reflexivity].
    destruct (Product_new (VDict raw)) as [p|] eqn:P; [|reflexivity].
    apply Product_new_fields in P
      as (d & n & c & st & ki & be & h & se & p0 & [= <-] & _ & _ & _ & _ &
          _ & _ & _ & _ & _ & _ & G7 & _).
    congruence. }
  split; [exact D|].
  unfold DataParserAgent.parse_product_data. rewrite D. llm.
  destruct (b 0) as [r0|]; llm; [|count].
  destruct (tool_calls r0) as [|tc tcs]; llm.
  - destruct (json_loads rt (unwrap rt (content r0))) as [v|]; llm.
    + destruct (Product_new v); llm; [count|].
      destruct (b 1) as [r1|]; llm; [|count].
      destruct (json_loads rt _) as [v1|]; llm; [|count].
      destruct (Product_new v1); llm; count.
    + destruct (b 1) as [r1|]; llm; [|count].
      destruct (json_loads rt _) as [v1|]; llm; [|count].
      destruct (Product_new v1); llm; count.
  - destruct (run_tools rt DataParserAgent.tool_map (tc :: tcs)); llm; [|count].
    destruct (b 1) as [r1|]; llm; [|count].
    destruct (json_loads rt (unwrap rt (content r1))) as [v|]; llm.
    + destruct (Product_new v); llm; [count|].
      destruct (b 2) as [r2|]; llm; [|count].
      destruct (json_loads rt _) as [v2|]; llm; [|count].
      destruct (Product_new v2); llm; count.
    + destruct (b 2) as [r2|]; llm; [|count].
      destruct (json_loads rt _) as [v2|]; llm; [|count].
      destruct (Product_new v2); llm; count.
Qed.

Lemma parse_needs_side_effects_witness :
  1 <= calls (trace (snd (DataParserAgent.parse_product_data Sample.rt
                            Sample.product_b Sample.down start))).
Proof.
  exact (proj2 (parse_needs_side_effects Sample.rt Sample.product_b
                  Sample.down eq_refl)).
Defined.

(* ===================================================================== *)
(** ** The ingredient comparison *)
(* ===================================================================== *)



(** [compare_ingredients] returns exactly when both arguments can be
    iterated (a list, a dictionary or a string, not [None], a number or a
    boolean) and hold neither a list nor a dictionary, which no set can
    hold; otherwise it raises [TypeError]. *)
Theorem compare_ingredients_defined (rt : Runtime) (x y : value) :
  ((exists r, IngredientsBlock.compare_ingredients rt x y = Ok r) <->
   (exists l m, py_iter x = Ok l /\ py_iter y = Ok m /\
                forallb hashable l = true /\ forallb hashable m = true)) /\
  ((forall r, IngredientsBlock.compare_ingredients rt x y <> Ok r) <->
   IngredientsBlock.compare_ingredients rt x y = Raise TypeError).
Proof.
  unfold IngredientsBlock.compare_ingredients, set_of, py_set.
  split; split.
  - intros [r H].
    destruct x, y; simpl in *; try discriminate;
      repeat match goal with
      | H : context [if forallb hashable ?l then _ else _] |- _ =>
          destruct (forallb hashable l) eqn:?; simpl in H; try discriminate
      end; eauto 6.
  - intros (l & m & Hx & Hy & Hl & Hm).
    destruct x; try discriminate; destruct y; try discriminate;
      simpl in *; injection Hx as ->; injection Hy as ->;
      rewrite Hl, Hm; simpl; eauto.
  - intros H.
    destruct x; simpl in *; try reflexivity;
      match goal with
      | |- context [if forallb hashable ?l then _ else _] =>
          destruct (forallb hashable l); simpl; try reflexivity
      end;
      (destruct y; simpl in *; try reflexivity;
       match goal with
       | |- context [if forallb hashable ?l then _ else _] =>
           destruct (forallb hashable l); simpl; try reflexivity
       end);
      exfalso; eapply H; reflexivity.
  - intros H r. rewrite H. discriminate.
Qed.
(* ===================================================================== *)
(** ** The template registry and the comparison page *)
(* ===================================================================== *)

(** The currency delta does not depend on the order of the two prices,
    whatever the two values are. *)
Theorem price_difference_symmetric (price1 price2 : value) :
  Templates._calculate_price_difference price1 price2 =
  Templates._calculate_price_difference price2 price1.
Proof.
  unfold Templates._calculate_price_difference.
  destruct price1, price2; try reflexivity.
  destruct (Templates.price_number s), (Templates.price_number s0);
    try reflexivity.
  f_equal. f_equal. lia.
Qed.

(** A page that [apply_template] returns comes from one of the three
    registered templates, every field the template declares was present in
    [data], and the page carries the name of the template as its
    [page_type]. *)
Theorem apply_template_page_type (rt : Runtime) (template_name : string)
    (data content_blocks page : dict)
    (H : Templates.apply_template (Templates.new_engine rt) template_name
           data content_blocks = Ok page) :
  exists template,
    Templates.find_template template_name
      (Templates.templates (Templates.new_engine rt)) = Some template /\
    In template_name ["faq"; "product_description"; "comparison"] /\
    (forall f, In f (Templates.get_fields template) -> has_key f data = true) /\
    Templates.apply template data content_blocks = Ok page /\
    dict_get "page_type" page = Some (VStr template_name).
Proof.
  unfold Templates.apply_template in H.
  cbn [Templates.templates Templates.new_engine Templates.find_template] in *.
  assert (Hall : forall fields,
            is_nil (filter (fun f => negb (has_key f data)) fields) = true ->
            forall f, In f fields -> has_key f data = true).
  { intros fields Hn f Hf.
    destruct (has_key f data) eqn:E; [reflexivity|].
    assert (Hin : In f (filter (fun f => negb (has_key f data)) fields))
      by (apply filter_In; rewrite E; auto).
    destruct (filter _ fields); [destruct Hin | discriminate]. }
  destruct (String.eqb_spec template_name "faq") as [->|N1];
    [|destruct (String.eqb_spec template_name "product_description") as [->|N2];
      [|destruct (String.eqb_spec template_name "comparison") as [->|N3];
        [|discriminate]]];
    match type of H with
    | (if negb (is_nil ?m) then _ else _) = _ =>
        destruct (is_nil m) eqn:Em; [|discriminate]
    end; cbn [negb] in H;
    eexists; (split; [reflexivity|]);
    (split; [cbn [In]; auto|]);
    (split; [exact (Hall _ Em)|]); (split; [exact H|]).
  - cbn [Templates.apply Templates.FAQTemplate] in H.
    apply rbind_ok in H as (? & _ & H). apply rbind_ok in H as (? & _ & H).
    apply rbind_ok in H as (? & _ & H). apply rbind_ok in H as (? & _ & H).
    injection H as <-. reflexivity.
  - cbn [Templates.apply Templates.ProductDescriptionTemplate] in H.
    apply rbind_ok in H as (? & _ & H). apply rbind_ok in H as (? & _ & H).
    apply rbind_ok in H as (? & _ & H). apply rbind_ok in H as (? & _ & H).
    apply rbind_ok in H as (? & _ & H).
    injection H as <-. reflexivity.
  - cbn [Templates.apply Templates.ComparisonTemplate] in H.
    apply rbind_ok in H as (? & _ & H). apply rbind_ok in H as (? & _ & H).
    apply rbind_ok in H as (? & _ & H). apply rbind_ok in H as (? & _ & H).
    apply rbind_ok in H as (? & _ & H). apply rbind_ok in H as (? & _ & H).
    injection H as <-. reflexivity.
Qed.

Lemma apply_template_page_type_witness :
  exists page,
    Templates.apply_template (Templates.new_engine Sample.rt) "faq"
      [("questions", VList Sample.five_questions);
       ("product_data", VDict Sample.PRODUCT_DATA)] [] = Ok page /\
    dict_get "page_type" page = Some (VStr "faq").
Proof.
  eexists. split; [reflexivity|].
  destruct (apply_template_page_type Sample.rt "faq"
              [("questions", VList Sample.five_questions);
               ("product_data", VDict Sample.PRODUCT_DATA)] [] _ eq_refl)
    as (t & _ & _ & _ & _ & H).
  exact H.
Defined.

(** [apply_template] raises [ValueError], and runs no template, when the
    name is not registered or when [data] lacks a field the template
    declares; the message names the template, or shows the list of the
    missing fields as Python prints a list, in the order of declaration. *)
Theorem apply_template_rejects (rt : Runtime) (template_name : string)
    (data content_blocks : dict)
    (H : forall template,
           Templates.find_template template_name
             (Templates.templates (Templates.new_engine rt)) = Some template ->
           exists f, In f (Templates.get_fields template) /\
                     has_key f data = false) :
  (~ In template_name ["faq"; "product_description"; "comparison"] /\
   Templates.apply_template (Templates.new_engine rt) template_name
     data content_blocks =
   Raise (ValueError ("Unknown template: " ++ template_name)%string)) \/
  (exists template f rest,
     Templates.find_template template_name
       (Templates.templates (Templates.new_engine rt)) = Some template /\
     filter (fun f => negb (has_key f data)) (Templates.get_fields template) =
       f :: rest /\
     Templates.apply_template (Templates.new_engine rt) template_name
       data content_blocks =
     Raise (ValueError ("Missing required fields: " ++
                        repr_str_list (f :: rest))%string)).
Proof.
  unfold Templates.apply_template.
  destruct (Templates.find_template template_name
              (Templates.templates (Templates.new_engine rt)))
    as [template|] eqn:F.
  - right. destruct (H template eq_refl) as (f & Hf & Hk).
    assert (Hin : In f (filter (fun f => negb (has_key f data))
                          (Templates.get_fields template)))
      by (apply filter_In; rewrite Hk; auto).
    destruct (filter _ (Templates.get_fields template)) as [|f0 rest] eqn:E;
      [destruct Hin|].
    exists template, f0, rest. cbv zeta. rewrite E. auto.
  - left. split; [|reflexivity].
    cbn [Templates.templates Templates.new_engine Templates.find_template] in F.
    intros [<-|[<-|[<-|[]]]]; discriminate.
Qed.

Lemma apply_template_rejects_witness :
  Templates.apply_template (Templates.new_engine Sample.rt) "comparison"
    [("product1_data", VDict Sample.PRODUCT_DATA)] [] =
  Raise (ValueError "Missing required fields: ['product2_data']").
Proof.
  destruct (apply_template_rejects Sample.rt "comparison"
              [("product1_data", VDict Sample.PRODUCT_DATA)] [])
    as [[N _]|(t & f & rest & F & E & R)].
  - intros t [= <-]. exists "product2_data". split; [cbn; auto | reflexivity].
  - exfalso. apply N. cbn. auto.
  - injection F as <-. injection E as <- <-. exact R.
Defined.

Lemma compare_ingredients_shape (rt : Runtime) (x y : value) (r : dict) :
  IngredientsBlock.compare_ingredients rt x y = Ok r ->
  exists common u1 u2 score,
    r = [("common_ingredients", VList common);
         ("unique_to_product1", VList u1);
         ("unique_to_product2", VList u2);
         ("similarity_score", VNum score)].
Proof.
  unfold IngredientsBlock.compare_ingredients. intros H.
  apply rbind_ok in H as (s1 & _ & H). apply rbind_ok in H as (s2 & _ & H).
  apply rbind_ok in H as (l1 & _ & H). apply rbind_ok in H as (l2 & _ & H).
  injection H as <-. eauto.
Qed.

Lemma compare_products_shape (rt : Runtime) (p1 p2 r : dict) :
  Tools.compare_products rt p1 p2 = Ok r ->
  exists pd io u1 u2 bo so,
    r = [("price_difference", pd); ("ingredient_overlap", io);
         ("ingredient_unique_1", u1); ("ingredient_unique_2", u2);
         ("benefit_overlap", bo); ("skin_type_overlap", so)] /\
    Tools.overlap rt "benefits" p1 p2 = Ok bo.
Proof.
  unfold Tools.compare_products. intros H.
  apply rbind_ok in H as (io & _ & H). apply rbind_ok in H as (u1 & _ & H).
  apply rbind_ok in H as (u2 & _ & H). apply rbind_ok in H as (bo & Hbo & H).
  apply rbind_ok in H as (so & _ & H).
  injection H as <-. eauto 10.
Qed.

(** The comparison page is put together from the two products and from
    [compare_ingredients] on their [key_ingredients]: the ingredient section
    of the page holds the four results of [compare_ingredients] unchanged
    (the results of [compare_products], merged into the same dictionary,
    use other keys and reach the page nowhere), the shared benefits are
    those [compare_products] found, and the recommendation is chosen by
    the score alone, against 70. *)
Theorem comparison_page_composition (rt : Runtime)
    (product_a_data product_b_data page : dict)
    (H : ComparisonGeneratorAgent.generate_comparison_page rt
           product_a_data product_b_data = Ok page) :
  exists common u1 u2 score shared,
    IngredientsBlock.compare_ingredients rt
      (get_default "key_ingredients" (VList []) product_a_data)
      (get_default "key_ingredients" (VList []) product_b_data) =
    Ok [("common_ingredients", common); ("unique_to_product1", u1);
        ("unique_to_product2", u2); ("similarity_score", VNum score)] /\
    Tools.overlap rt "benefits" product_a_data product_b_data = Ok shared /\
    page =
      [("page_type", VStr "comparison");
       ("products",
        VDict [("product1", Templates.product_summary product_a_data);
               ("product2", Templates.product_summary product_b_data)]);
       ("comparison", VDict [
          ("ingredients", VDict [
             ("common", common); ("unique_to_product1", u1);
             ("unique_to_product2", u2); ("similarity_score", VNum score)]);
          ("price", VDict [
             ("product1_price",
              get_default "price" (VStr EmptyString) product_a_data);
             ("product2_price",
              get_default "price" (VStr EmptyString) product_b_data);
             ("price_difference",
              VStr (Templates._calculate_price_difference
                      (get_default "price" (VStr EmptyString) product_a_data)
                      (get_default "price" (VStr EmptyString) product_b_data)))]);
          ("benefits", VDict [
             ("product1_benefits",
              get_default "benefits" (VList []) product_a_data);
             ("product2_benefits",
              get_default "benefits" (VList []) product_b_data);
             ("shared_benefits", shared)])]);
       ("recommendation",
        VStr (if Qle_bool score 70
              then "Products differ significantly. Consider your specific skin concerns and budget."
              else "Both products are similar. Choose based on price and specific needs."))].
Proof.
  unfold ComparisonGeneratorAgent.generate_comparison_page in H.
  apply rbind_ok in H as (cr & Hcr & H).
  apply rbind_ok in H as (ic & Hic & H).
  destruct (compare_ingredients_shape _ _ _ _ Hic)
    as (common & u1 & u2 & score & ->).
  destruct (compare_products_shape _ _ _ _ Hcr)
    as (pd & io & cu1 & cu2 & bo & so & -> & Hbo).
  exists (VList common), (VList u1), (VList u2), score, bo.
  split; [exact Hic|]. split; [exact Hbo|].
  unfold Tools.overlap in Hbo.
  apply rbind_ok in Hbo as (b1 & Hb1 & Hbo).
  apply rbind_ok in Hbo as (b2 & Hb2 & Hbo).
  injection Hbo as <-.
  unfold Templates.apply_template in H.
  cbn [Templates.templates Templates.new_engine Templates.find_template
       String.eqb Ascii.eqb Bool.eqb Templates.get_fields
       Templates.ComparisonTemplate filter has_key get get_default dict_get
       negb is_nil Templates.apply as_dict rbind dict_update fold_left
       dict_set fst snd] in H.
  rewrite Hb1, Hb2 in H.
  cbn [rbind Templates._generate_recommendation get_default dict_get
       String.eqb Ascii.eqb Bool.eqb Templates.greater_than_70 negb] in H.
  destruct (Qle_bool score 70); cbn [negb] in H; injection H as <-; reflexivity.
Qed.

Lemma comparison_page_composition_witness :
  exists page,
    ComparisonGeneratorAgent.generate_comparison_page Sample.rt
      Sample.PRODUCT_DATA Sample.product_b = Ok page /\
    dict_get "page_type" page = Some (VStr "comparison").
Proof.
  assert (E : {page | ComparisonGeneratorAgent.generate_comparison_page
                        Sample.rt Sample.PRODUCT_DATA Sample.product_b =
                      Ok page}).
  { eexists. vm_compute. reflexivity. }
  destruct E as [page E]. exists page. split; [exact E|].
  destruct (comparison_page_composition Sample.rt Sample.PRODUCT_DATA
              Sample.product_b page E) as (c & u1 & u2 & s & sh & _ & _ & ->).
  reflexivity.
Defined.

Lemma ensure_list_is_list (k : string) (p : dict) :
  is_list (get k (ComparisonGeneratorAgent.ensure_list k p)) = true.
Proof.
  unfold ComparisonGeneratorAgent.ensure_list.
  destruct (is_list (get k p)) eqn:E; [exact E|].
  unfold get, get_default. rewrite dict_get_set_same.
  now destruct (truthy _).
Qed.

Lemma ensure_list_other (k k' : string) (p : dict) :
  k' <> k ->
  dict_get k' (ComparisonGeneratorAgent.ensure_list k p) = dict_get k' p.
Proof.
  intros N. unfold ComparisonGeneratorAgent.ensure_list.
  destruct (is_list (get k p)); [reflexivity|].
  now apply dict_get_set_other.
Qed.

Lemma ensure_list_keeps (k : string) (p : dict) (l : list value) :
  dict_get k p = Some (VList l) -> ComparisonGeneratorAgent.ensure_list k p = p.
Proof.
  intros H. unfold ComparisonGeneratorAgent.ensure_list, get, get_default.
  now rewrite H.
Qed.

Lemma product_b_normalised (rt : Runtime) (product_a_data : dict) :
  returns
    (fun product_b =>
       (forall k, In k ["skin_type"; "key_ingredients"; "benefits"] ->
          exists l, dict_get k product_b = Some (VList l)) /\
       (forall f, In f Tools.product_required_fields ->
          has_key f product_b = true))
    (ComparisonGeneratorAgent.generate_fictional_product_b rt product_a_data).
Proof.
  unfold ComparisonGeneratorAgent.generate_fictional_product_b.
  do 6 (apply returns_bind_any; intros ?).
  cbv zeta.
  match goal with
  | |- returns _ (if negb (Tools.pv_valid (Tools.validate_product_structure ?p))
                  then _ else _) =>
      set (q := p);
      destruct (Tools.pv_valid (Tools.validate_product_structure q)) eqn:V
  end; cbn [negb]; [|apply returns_raise].
  apply returns_ret. split.
  - assert (L : forall k, is_list (get k q) = true ->
                  exists l, dict_get k q = Some (VList l)).
    { intros k. unfold get, get_default.
      destruct (dict_get k q) as [[]|]; try discriminate. eauto. }
    intros k [<-|[<-|[<-|[]]]]; apply L; unfold q.
    + unfold get, get_default.
      rewrite !ensure_list_other by discriminate.
      apply ensure_list_is_list.
    + unfold get, get_default.
      rewrite !ensure_list_other by discriminate.
      apply ensure_list_is_list.
    + apply ensure_list_is_list.
  - unfold Tools.validate_product_structure in V. cbn [Tools.pv_valid] in V.
    intros f Hf. destruct (has_key f q) eqn:E; [reflexivity|].
    assert (Hin : In f (filter (fun f => negb (has_key f q))
                          Tools.product_required_fields))
      by (apply filter_In; rewrite E; auto).
    destruct (filter _ Tools.product_required_fields);
      [destruct Hin | discriminate].
Qed.

(** The second product, when the comparison stage obtains one, has a list
    under [skin_type], under [key_ingredients] and under [benefits],
    whatever the backend sent there (a value that is not a list is wrapped
    into a list of one item, an empty or absent one becomes the empty
    list), and it has all seven required fields. *)
Theorem product_b_lists (rt : Runtime) (product_a_data : dict)
    (b : backend) (w w' : world) (product_b : dict)
    (H : ComparisonGeneratorAgent.generate_fictional_product_b rt
           product_a_data b w = (Ok product_b, w')) :
  (forall k, In k ["skin_type"; "key_ingredients"; "benefits"] ->
     exists l, dict_get k product_b = Some (VList l)) /\
  (forall f, In f Tools.product_required_fields ->
     has_key f product_b = true).
Proof. exact (product_b_normalised rt product_a_data b w product_b w' H). Qed.

Lemma product_b_lists_witness :
  let sent :=
    [("product_name", VStr "B"); ("concentration", VStr "5%");
     ("skin_type", VNone); ("key_ingredients", VStr "Vitamin C");
     ("benefits", VList [VStr "Hydration"]); ("how_to_use", VStr "daily");
     ("price", VStr "799")] in
  let rt := Sample.reading (fun _ => Some (VDict sent)) in
  exists product_b w',
    ComparisonGeneratorAgent.generate_fictional_product_b rt
      Sample.PRODUCT_DATA (Sample.says "B") start = (Ok product_b, w') /\
    dict_get "skin_type" product_b = Some (VList []) /\
    dict_get "key_ingredients" product_b = Some (VList [VStr "Vitamin C"]) /\
    exists l, dict_get "benefits" product_b = Some (VList l).
Proof.
  intros sent rt.
  assert (E : {r | ComparisonGeneratorAgent.generate_fictional_product_b rt
                     Sample.PRODUCT_DATA (Sample.says "B") start = (Ok (fst r), snd r)}).
  { eexists (_, _). vm_compute. reflexivity. }
  destruct E as [[p w'] E]. cbn [fst snd] in E.
  exists p, w'. split; [exact E|].
  pose proof (proj1 (product_b_lists rt Sample.PRODUCT_DATA (Sample.says "B")
                       start w' p E) "benefits") as L.
  split; [|split; [|apply L; cbn; auto]];
    vm_compute in E; injection E as <- _; reflexivity.
Defined.
(* ===================================================================== *)
(** ** Selection of the questions and the FAQ page *)
(* ===================================================================== *)

Lemma In_firstn_In {A} (n : nat) (l : list A) (x : A) :
  In x (firstn n l) -> In x l.
Proof.
  revert l. induction n as [|n IH]; intros [|a l]; simpl; try tauto.
  intros [H|H]; auto.
Qed.

Lemma In_slice_to {A} (n : Z) (l : list A) (x : A) :
  In x (slice_to n l) -> In x l.
Proof. unfold slice_to. destruct (0 <=? n)%Z; apply In_firstn_In. Qed.

Lemma categorized_add_within (P : value -> Prop) (cat q : value)
    (c : list (value * list value)) :
  P q ->
  (forall e, In e c -> forall x, In x (snd e) -> P x) ->
  forall e, In e (Tools.categorized_add cat q c) ->
  forall x, In x (snd e) -> P x.
Proof.
  intros Hq. induction c as [|[k qs] c IH]; simpl; intros Hc e He x Hx.
  - destruct He as [<-|[]]. simpl in Hx. destruct Hx as [<-|[]]. exact Hq.
  - destruct (py_eqb cat k).
    + destruct He as [<-|He].
      * simpl in Hx. apply in_app_or in Hx as [Hx|[<-|[]]]; [|exact Hq].
        exact (Hc (k, qs) (or_introl eq_refl) x Hx).
      * exact (Hc e (or_intror He) x Hx).
    + destruct He as [<-|He].
      * exact (Hc (k, qs) (or_introl eq_refl) x Hx).
      * apply (IH (fun e' H' => Hc e' (or_intror H')) e He x Hx).
Qed.

Lemma categorize_all_within (P : value -> Prop) (questions : list value)
    (cats : list (value * list value)) :
  (forall q, In q questions -> P q) ->
  Tools.categorize_all questions = Ok cats ->
  forall e, In e cats -> forall x, In x (snd e) -> P x.
Proof.
  unfold Tools.categorize_all.
  assert (G : forall qs acc,
    (forall q, In q qs -> P q) ->
    (forall c, acc = Ok c -> forall e, In e c -> forall x, In x (snd e) -> P x) ->
    fold_left
      (fun acc q =>
         c <- acc ;;
         d <- as_dict q ;;
         let cat := get_default "category" (VStr "Informational") d in
         if hashable cat then Ok (Tools.categorized_add cat q c)
         else Raise TypeError) qs acc = Ok cats ->
    forall e, In e cats -> forall x, In x (snd e) -> P x).
  { induction qs as [|q qs IH]; simpl; intros acc Hqs Hacc E.
    - exact (Hacc cats E).
    - eapply IH; [auto| |exact E].
      intros c Hc. apply rbind_ok in Hc as (c0 & -> & Hc).
      apply rbind_ok in Hc as (d & _ & Hc). cbv zeta in Hc.
      destruct (hashable _); [|discriminate]. injection Hc as <-.
      apply categorized_add_within; eauto. }
  intros Hq E. eapply G; [exact Hq| |exact E].
  intros c [= <-] e [].
Qed.

Lemma max_by_answer_In (qs : list value) (best b : value) (n : nat) :
  Tools.max_by_answer best n qs = Ok b -> b = best \/ In b qs.
Proof.
  revert best n. induction qs as [|q qs IH]; simpl; intros best n E.
  - injection E as <-. now left.
  - apply rbind_ok in E as (m & _ & E).
    destruct (n <? m)%nat; apply IH in E as [->|E]; auto.
Qed.

Lemma best_of_In (qs : list value) (q : value) :
  Tools.best_of qs = Ok (Some q) -> In q qs.
Proof.
  destruct qs as [|q0 qs]; simpl; [discriminate|]. intros E.
  apply rbind_ok in E as (n & _ & E). apply rbind_ok in E as (b & Hb & E).
  injection E as <-. apply max_by_answer_In in Hb as [->|Hb]; auto.
Qed.

Lemma In_insert_desc (x y : value * nat) (l : list (value * nat)) :
  In x (Tools.insert_desc y l) -> x = y \/ In x l.
Proof.
  induction l as [|z l IH]; simpl.
  - intros [<-|[]]. now left.
  - destruct (snd z <? snd y)%nat; simpl; intuition.
Qed.

Lemma In_sort_desc (x : value * nat) (l : list (value * nat)) :
  In x (Tools.sort_desc l) -> In x l.
Proof.
  unfold Tools.sort_desc.
  assert (G : forall l acc,
            In x (fold_left (fun acc x => Tools.insert_desc x acc) l acc) ->
            In x acc \/ In x l).
  { clear l. induction l as [|y l IH]; simpl; intros acc H; [now left|].
    apply IH in H as [H|H]; [|tauto].
    apply In_insert_desc in H as [->|H]; tauto. }
  intros H. apply G in H as [[]|H]. exact H.
Qed.

Lemma keyed_fst (l : list value) (keyed : list (value * nat)) :
  mapM (fun q => n <- Tools.answer_length q ;; Ok (q, n)) l = Ok keyed ->
  map fst keyed = l.
Proof.
  intros H. apply mapM_Forall2 in H.
  induction H as [|q k l keyed Hq _ IH]; simpl; [reflexivity|].
  apply rbind_ok in Hq as (n & _ & [= <-]). simpl. now rewrite IH.
Qed.

Lemma selected_within (P : value -> Prop) (count : Z)
    (cats : list (value * list value)) (selected : list value) :
  (forall e, In e cats -> forall x, In x (snd e) -> P x) ->
  fold_left
    (fun acc (entry : value * list value) =>
       sel <- acc ;;
       if negb (is_nil (snd entry)) && (Z.of_nat (length sel) <? count)%Z
       then
         b <- Tools.best_of (snd entry) ;;
         match b with
         | Some q => Ok (sel ++ [q])
         | None => Ok sel
         end
       else Ok sel) cats (Ok []) = Ok selected ->
  forall x, In x selected -> P x.
Proof.
  intros Hc.
  assert (G : forall cs acc,
    (forall e, In e cs -> forall x, In x (snd e) -> P x) ->
    (forall s, acc = Ok s -> forall x, In x s -> P x) ->
    fold_left
      (fun acc (entry : value * list value) =>
         sel <- acc ;;
         if negb (is_nil (snd entry)) && (Z.of_nat (length sel) <? count)%Z
         then
           b <- Tools.best_of (snd entry) ;;
           match b with
           | Some q => Ok (sel ++ [q])
           | None => Ok sel
           end
         else Ok sel) cs acc = Ok selected ->
    forall x, In x selected -> P x).
  { induction cs as [|e cs IH]; simpl; intros acc Hcs Hacc E.
    - exact (Hacc selected E).
    - eapply IH; [intros e' He'; apply Hcs; now right| |exact E].
      intros s Hs. apply rbind_ok in Hs as (s0 & -> & Hs).
      destruct (negb _ && _).
      + apply rbind_ok in Hs as ([q|] & Hb & Hs); injection Hs as <-.
        * intros x Hx. apply in_app_or in Hx as [Hx|[<-|[]]].
          -- eapply Hacc; eauto.
          -- apply best_of_In in Hb. eapply (Hcs e); [now left | exact Hb].
        * eapply Hacc; eauto.
      + injection Hs as <-. eapply Hacc; eauto. }
  intros E. eapply G; [exact Hc| |exact E].
  intros s [= <-] x [].
Qed.

(** [select_best_questions] invents nothing: every question it returns is
    one of the questions it was given, and it returns at most [count] of
    them; given no more than [count] questions it returns them all, in
    their order. *)
Theorem select_best_questions_members (questions selected : list value)
    (count : Z)
    (Hcount : (0 <= count)%Z)
    (H : Tools.select_best_questions questions count = Ok selected) :
  (forall q, In q selected -> In q questions) /\
  length selected <= Z.to_nat count /\
  (length questions <= Z.to_nat count -> selected = questions).
Proof.
  split; [|split].
  - unfold Tools.select_best_questions in H.
    destruct (Z.of_nat (length questions) <=? count)%Z;
      [injection H as <-; auto|].
    apply rbind_ok in H as (cats & Hcats & H).
    apply rbind_ok in H as (sel & Hsel & H).
    apply rbind_ok in H as (keyed & Hkeyed & H).
    injection H as <-.
    intros q Hq. apply In_slice_to in Hq.
    apply in_app_or in Hq as [Hq|Hq].
    + eapply (selected_within (fun x => In x questions)); [|exact Hsel|exact Hq].
      eapply categorize_all_within; [|exact Hcats]. auto.
    + apply In_slice_to in Hq. apply in_map_iff in Hq as (x & <- & Hx).
      apply In_sort_desc in Hx.
      apply keyed_fst in Hkeyed.
      assert (Hf : In (fst x) (map fst keyed)) by now apply in_map.
      rewrite Hkeyed in Hf. now apply filter_In in Hf.
  - now apply (select_best_questions_bound questions selected count).
  - intros Hl. unfold Tools.select_best_questions in H.
    destruct (Z.leb_spec (Z.of_nat (length questions)) count); [|lia].
    now injection H as <-.
Qed.

Lemma select_best_questions_members_witness :
  exists selected,
    Tools.select_best_questions Sample.twelve_questions 5 = Ok selected /\
    (forall q, In q selected -> In q Sample.twelve_questions) /\
    length selected <= 5.
Proof.
  assert (E : {s | Tools.select_best_questions Sample.twelve_questions 5 = Ok s}).
  { eexists. vm_compute. reflexivity. }
  destruct E as [s E]. exists s. split; [exact E|].
  assert (Hc : (0 <= 5)%Z) by lia.
  destruct (select_best_questions_members Sample.twelve_questions s 5 Hc E)
    as (M & L & _).
  split; [exact M | exact L].
Defined.
Lemma faq_item_shape (rt : Runtime) (qa item : value) :
  Templates.faq_item rt qa = Ok item ->
  exists q a c, item = VDict [("question", q); ("answer", a); ("category", c)].
Proof.
  unfold Templates.faq_item. intros H.
  apply rbind_ok in H as (d & _ & H). apply rbind_ok in H as (c & _ & H).
  injection H as <-. eauto.
Qed.

Lemma faq_template_page (rt : Runtime) (data blocks page : dict) :
  Templates.apply (Templates.FAQTemplate rt) data blocks = Ok page ->
  exists name items cats,
    page = [("page_type", VStr "faq"); ("product_name", name);
            ("faq_items", VList items);
            ("total_questions", VNat (length items));
            ("categories", VList cats)] /\
    length items <= 5 /\
    Forall (fun item => Tools.item_has_question_and_answer item = Ok true) items.
Proof.
  cbn [Templates.apply Templates.FAQTemplate]. intros H.
  apply rbind_ok in H as (batch & Hbatch & H).
  apply rbind_ok in H as (items & Hitems & H).
  apply rbind_ok in H as (pd & _ & H).
  apply rbind_ok in H as (cats & _ & H).
  injection H as <-. do 3 eexists. split; [reflexivity|].
  apply mapM_Forall2 in Hitems. split.
  - rewrite (Forall2_same_length _ _ _ Hitems).
    exact (first_five_length _ _ Hbatch).
  - clear Hbatch. induction Hitems as [|qa item batch items Hq _ IH];
      constructor; [|exact IH].
    apply faq_item_shape in Hq as (q & a & c & ->). reflexivity.
Qed.

Lemma apply_template_faq (rt : Runtime) (data blocks page : dict) :
  Templates.apply_template (Templates.new_engine rt) "faq" data blocks = Ok page ->
  Templates.apply (Templates.FAQTemplate rt) data blocks = Ok page.
Proof.
  unfold Templates.apply_template.
  cbn [Templates.templates Templates.new_engine Templates.find_template
       String.eqb Ascii.eqb Bool.eqb].
  destruct (negb _); [discriminate | auto].
Qed.

Lemma all_items_valid_ok (items : list value) :
  Forall (fun item => Tools.item_has_question_and_answer item = Ok true) items ->
  Tools.all_items_valid items = Ok true.
Proof.
  induction 1 as [|x l Hx _ IH]; simpl; [reflexivity|].
  now rewrite Hx.
Qed.

(** a page made by the FAQ template always passes through
    [validate_faq_structure], which finds it valid exactly when it has five
    items *)
Lemma validate_faq_template_page (name : value) (items cats : list value) :
  Forall (fun item => Tools.item_has_question_and_answer item = Ok true) items ->
  exists v,
    Tools.validate_faq_structure
      [("page_type", VStr "faq"); ("product_name", name);
       ("faq_items", VList items);
       ("total_questions", VNat (length items));
       ("categories", VList cats)] = Ok v /\
    Tools.fv_valid v = (5 <=? length items)%nat.
Proof.
  intros Hitems. unfold Tools.validate_faq_structure.
  cbn [filter has_key get_default dict_get String.eqb Ascii.eqb Bool.eqb negb
       py_len py_iter rbind length Nat.eqb].
  rewrite (all_items_valid_ok _ Hitems). cbn [rbind].
  eexists. split; [reflexivity|]. reflexivity.
Qed.

(** the pages the FAQ stage can return *)
Lemma faq_tool_step_page (rt : Runtime) (product_data : value)
    (P : dict -> Prop) :
  (forall data blocks page,
     Templates.apply (Templates.FAQTemplate rt) data blocks = Ok page -> P page) ->
  forall tcs acc page,
    (forall p, acc = Ok p -> P p) ->
    fold_left
      (fun acc tc =>
         page <- acc ;;
         FAQGeneratorAgent.tool_step rt (Templates.new_engine rt)
           product_data page tc) tcs acc = Ok page ->
    P page.
Proof.
  intros HP. induction tcs as [|tc tcs IH]; simpl; intros acc page Hacc E.
  - auto.
  - eapply IH; [|exact E]. intros p Hp.
    apply rbind_ok in Hp as (p0 & -> & Hp).
    unfold FAQGeneratorAgent.tool_step in Hp.
    destruct (existsb _ _); [|injection Hp as <-; auto].
    destruct (String.eqb _ _).
    + destruct (dict_get _ _); [|discriminate].
      apply rbind_ok in Hp as (c & _ & Hp).
      apply rbind_ok in Hp as (sel & _ & Hp).
      apply apply_template_faq in Hp. eauto.
    + destruct (tool_completes _ _ _); [|discriminate].
      injection Hp as <-. auto.
Qed.

(** A page that [generate_faq_page] returns is a page of the FAQ template:
    its [page_type] is "faq" and it has at most five items.  The backend is
    called at most once, and nothing it sends is parsed; when it is not
    called at all the page has exactly five items.  A page with fewer than
    five items is returned all the same, after the call. *)
Theorem faq_generation (rt : Runtime) (product_data questions : value)
    (b : backend) (page : dict) (w' : world)
    (H : FAQGeneratorAgent.generate_faq_page rt product_data questions b start =
         (Ok page, w')) :
  dict_get "page_type" page = Some (VStr "faq") /\
  (exists items,
     dict_get "faq_items" page = Some (VList items) /\
     dict_get "total_questions" page = Some (VNat (length items)) /\
     length items <= 5 /\
     (trace w' = [] -> length items = 5)) /\
  (trace w' = [] \/ trace w' = [Invoked]).
Proof.
  set (P := fun page : dict =>
              dict_get "page_type" page = Some (VStr "faq") /\
              exists items,
                dict_get "faq_items" page = Some (VList items) /\
                dict_get "total_questions" page = Some (VNat (length items)) /\
                length items <= 5).
  assert (HP : forall data blocks page,
             Templates.apply (Templates.FAQTemplate rt) data blocks = Ok page ->
             P page).
  { intros data blocks p Hp.
    apply faq_template_page in Hp as (name & items & cats & -> & L & _).
    split; [reflexivity|]. exists items. auto. }
  unfold FAQGeneratorAgent.generate_faq_page in H. cbv [bind catch invoke loads lift raise ret log start next_call trace fst snd app negb andb is_nil as_dict] in H.
  destruct (FAQGeneratorAgent.select_best_questions_invoke questions 5)
    as [sel|]; [|discriminate].
  destruct (Templates.apply_template _ _ _ _) as [page0|] eqn:T; [|discriminate].
  apply apply_template_faq in T.
  pose proof (HP _ _ _ T) as P0.
  apply faq_template_page in T as (name & items & cats & -> & L & V).
  destruct (validate_faq_template_page name items cats V) as (v & Ev & Hv).
  rewrite Ev, Hv in H.
  destruct (Nat.leb_spec 5 (length items)) as [L5|L5]; cbn [negb] in H.
  - injection H as <- <-. split; [reflexivity|]. split; [|now left].
    exists items. repeat split; auto. intros _. lia.
  - destruct (b 0) as [r|]; [|discriminate].
    injection H as F <-. rename page into p.
    assert (Pp : P p).
    { eapply (faq_tool_step_page rt product_data P HP); [|exact F].
      intros p0 [= <-]. exact P0. }
    destruct Pp as (T1 & its & I1 & I2 & I3).
    split; [exact T1|]. split; [|now right].
    exists its. repeat split; auto. discriminate.
Qed.

Lemma faq_generation_witness :
  exists page w',
    FAQGeneratorAgent.generate_faq_page Sample.rt (VDict Sample.PRODUCT_DATA)
      (VList (firstn 2 Sample.twelve_questions)) (Sample.says "no tools")
      start = (Ok page, w') /\
    dict_get "page_type" page = Some (VStr "faq") /\
    dict_get "total_questions" page = Some (VNat 2) /\
    trace w' = [Invoked].
Proof.
  assert (E : {r | FAQGeneratorAgent.generate_faq_page Sample.rt
                     (VDict Sample.PRODUCT_DATA)
                     (VList (firstn 2 Sample.twelve_questions))
                     (Sample.says "no tools") start = (Ok (fst r), snd r)}).
  { eexists (_, _). vm_compute. reflexivity. }
  destruct E as [[page w'] E]. cbn [fst snd] in E.
  exists page, w'. split; [exact E|].
  split; [exact (proj1 (faq_generation _ _ _ _ _ _ E))|].
  vm_compute in E. injection E as <- <-. split; reflexivity.
Defined.

(** A page made by the FAQ template always goes through
    [validate_faq_structure]: no field is missing, every item has its
    question and its answer, the count is the page's [total_questions];
    the page is found valid exactly when it has five items, that is when
    at least five questions were given. *)
Theorem faq_page_validation (rt : Runtime) (data content_blocks page : dict)
    (H : Templates.apply (Templates.FAQTemplate rt) data content_blocks =
         Ok page) :
  exists v,
    Tools.validate_faq_structure page = Ok v /\
    Tools.fv_missing_fields v = [] /\
    Tools.fv_all_items_valid v = true /\
    dict_get "total_questions" page = Some (VNat (Tools.fv_item_count v)) /\
    Tools.fv_meets_minimum v = Tools.fv_valid v /\
    (Tools.fv_valid v = true <-> Tools.fv_item_count v = 5).
Proof.
  apply faq_template_page in H as (name & items & cats & -> & L & V).
  unfold Tools.validate_faq_structure.
  cbn [filter has_key get_default dict_get String.eqb Ascii.eqb Bool.eqb negb
       py_len py_iter rbind length Nat.eqb].
  rewrite (all_items_valid_ok _ V). cbn [rbind].
  eexists. split; [reflexivity|].
  cbn [Tools.fv_missing_fields Tools.fv_all_items_valid Tools.fv_item_count
       Tools.fv_meets_minimum Tools.fv_valid andb].
  split; [reflexivity|]. split; [reflexivity|].
  split; [reflexivity|]. split; [reflexivity|].
  destruct (Nat.leb_spec 5 (length items)); split; try lia; discriminate.
Qed.

Lemma faq_page_validation_witness :
  exists page v,
    Templates.apply (Templates.FAQTemplate Sample.rt)
      [("questions", VList Sample.twelve_questions);
       ("product_data", VDict Sample.PRODUCT_DATA)] [] = Ok page /\
    Tools.validate_faq_structure page = Ok v /\
    Tools.fv_valid v = true.
Proof.
  assert (E : {p | Templates.apply (Templates.FAQTemplate Sample.rt)
                     [("questions", VList Sample.twelve_questions);
                      ("product_data", VDict Sample.PRODUCT_DATA)] [] = Ok p}).
  { eexists. vm_compute. reflexivity. }
  destruct E as [p E]. exists p.
  destruct (faq_page_validation _ _ _ _ E) as (v & Hv & _ & _ & Ht & _ & Hvalid).
  exists v. split; [exact E|]. split; [exact Hv|].
  apply Hvalid.
  assert (T : dict_get "total_questions" p = Some (VNat 5)).
  { vm_compute in E. injection E as <-. reflexivity. }
  rewrite T in Ht. injection Ht as Ht.
  apply Nat2Z.inj. symmetry. exact Ht.
Defined.
(* ===================================================================== *)
(** ** The question generator *)
(* ===================================================================== *)

(** [_generate_questions_direct_llm] calls the backend once and parses its
    text at most twice (as it is, then repaired).  It raises only when the
    prompt cannot be written (before any call), when the call itself
    fails, or when [json.loads] refuses the text as it is with an exception
    other than [JSONDecodeError] (the one exception the code catches
    there); a text refused as not being JSON, and refused again after the
    repairs for whatever reason, gives the empty list, not an exception.
    What it returns is a list, unless the text was an object with a
    [questions] entry, which is returned whatever it is. *)
Theorem direct_llm_swallows_bad_text (rt : Runtime) (product_data : value)
    (b : backend) :
  let out :=
    QuestionGeneratorAgent._generate_questions_direct_llm rt product_data
      b start in
  let t := trace (snd out) in
  calls t <= 1 /\ parses t <= 2 /\
  (forall e, fst out = Raise e ->
     (t = [] /\ QuestionGeneratorAgent.prompt product_data = Raise e) \/
     (t = [Invoked] /\ e = BackendError /\ b 0 = Fails) \/
     (t = [Invoked; Parsed false] /\ e <> JSONDecodeError /\
      exists text, json_loads rt text = None /\ json_error rt text = e)) /\
  (failed_parses t = 2 -> fst out = Ok (VList [])) /\
  (forall v, fst out = Ok v ->
     is_list v = true \/
     (parses t = 1 /\ failed_parses t = 0 /\
      exists r d, b 0 = Reply r /\ dict_get "questions" d = Some v)).
Proof.
  unfold QuestionGeneratorAgent._generate_questions_direct_llm. llm.
  destruct (QuestionGeneratorAgent.prompt product_data) as [[]|e0] eqn:Pr; llm.
  2:{ conjs; try (cbn; lia); try discriminate.
      intros e [= <-]. now left. }
  destruct (b 0) as [r|] eqn:B0; llm.
  2:{ conjs; try (cbn; lia); try discriminate.
      intros e [= <-]. right. left. auto. }
  match goal with
  | |- context [json_loads rt ?s] =>
      set (text := s); destruct (json_loads rt text) as [v|] eqn:J
  end; llm.
  - destruct v as [| | | | |d]; llm;
      try (conjs; try (cbn; lia); try discriminate;
           intros v [= <-]; left; reflexivity).
    destruct (has_key "questions" d) eqn:K; llm.
    + conjs; try (cbn; lia); try discriminate.
      intros v [= <-]. right. split; [reflexivity|]. split; [reflexivity|].
      exists r, d. split; [reflexivity|].
      unfold has_key in K. unfold get, get_default.
      destruct (dict_get "questions" d); [reflexivity | discriminate].
    + conjs; try (cbn; lia); try discriminate.
      intros v [= <-]. now left.
  - destruct (json_error rt text) eqn:E; llm;
      try (conjs; try (cbn; lia); try discriminate;
           intros e [= <-]; right; right;
           split; [reflexivity|]; split; [discriminate|];
           exists text; auto).
    match goal with
    | |- context [json_loads rt ?s] => destruct (json_loads rt s) as [v|]
    end; llm.
    + destruct (is_list v) eqn:L; llm;
        (conjs; try (cbn; lia); try discriminate;
         intros x [= <-]; left; auto).
    + conjs; try (cbn; lia); try discriminate; try reflexivity.
      intros x [= <-]. now left.
Qed.

(* ===================================================================== *)
(** ** Calls to the backend *)
(* ===================================================================== *)

Lemma calls_snoc_invoked (t : list event) : calls (t ++ [Invoked]) = S (calls t).
Proof. unfold calls. rewrite filter_app, length_app. simpl. lia. Qed.

Lemma calls_snoc_parsed (t : list event) (ok : bool) :
  calls (t ++ [Parsed ok]) = calls t.
Proof. unfold calls. rewrite filter_app, length_app. simpl. lia. Qed.

Lemma cw_weaken {A} (n m : nat) (c : Llm A) :
  n <= m -> calls_within n c -> calls_within m c.
Proof. intros L H b w. specialize (H b w). lia. Qed.

Lemma cw_ret {A} (n : nat) (a : A) : calls_within n (ret a).
Proof. intros b w. simpl. lia. Qed.

Lemma cw_lift {A} (n : nat) (r : result A) : calls_within n (lift r).
Proof. intros b w. simpl. lia. Qed.

Lemma cw_raise {A} (n : nat) (e : exn) : calls_within n (@raise A e).
Proof. intros b w. simpl. lia. Qed.

Lemma cw_loads (rt : Runtime) (n : nat) (s : string) : calls_within n (loads rt s).
Proof.
  intros b w. unfold loads, log.
  destruct (json_loads rt s); cbn [snd trace]; rewrite calls_snoc_parsed; lia.
Qed.

Lemma cw_invoke (n : nat) : calls_within (S n) invoke.
Proof.
  intros b w. unfold invoke.
  destruct (b (next_call w)); cbn [snd trace]; rewrite calls_snoc_invoked; lia.
Qed.

Lemma cw_bind {A B} (n m : nat) (c : Llm A) (k : A -> Llm B) :
  calls_within n c -> (forall a, calls_within m (k a)) ->
  calls_within (n + m) (bind c k).
Proof.
  intros Hc Hk b w. unfold bind. specialize (Hc b w).
  destruct (c b w) as [[a|e] w1]; cbn [snd] in *.
  - specialize (Hk a b w1). lia.
  - lia.
Qed.

Lemma cw_catch {A} (n m : nat) (c : Llm A) (h : exn -> Llm A) :
  calls_within n c -> (forall e, calls_within m (h e)) ->
  calls_within (n + m) (catch c h).
Proof.
  intros Hc Hh b w. unfold catch. specialize (Hc b w).
  destruct (c b w) as [[a|e] w1]; cbn [snd] in *.
  - lia.
  - specialize (Hh e b w1). lia.
Qed.

Lemma cw_catch_decode {A} (n m : nat) (c : Llm A) (h : exn -> Llm A) :
  calls_within n c -> (forall e, calls_within m (h e)) ->
  calls_within (n + m) (catch_decode c h).
Proof.
  intros Hc Hh b w. unfold catch_decode. specialize (Hc b w).
  destruct (c b w) as [[a|e] w1]; cbn [snd] in *; [lia|].
  destruct e; cbn [snd]; try lia.
  specialize (Hh JSONDecodeError b w1). lia.
Qed.

Lemma cw_bind_free {A B} (n : nat) (c : Llm A) (k : A -> Llm B) :
  calls_within 0 c -> (forall a, calls_within n (k a)) ->
  calls_within n (bind c k).
Proof. intros Hc Hk. exact (cw_bind 0 n c k Hc Hk). Qed.

Lemma cw_bind_invoke {B} (n : nat) (k : response -> Llm B) :
  (forall a, calls_within n (k a)) -> calls_within (S n) (bind invoke k).
Proof. intros Hk. exact (cw_bind 1 n invoke k (cw_invoke 0) Hk). Qed.

Ltac cw_step :=
  match goal with
  | |- calls_within _ (ret _) => apply cw_ret
  | |- calls_within _ (lift _) => apply cw_lift
  | |- calls_within _ (raise _) => apply cw_raise
  | |- calls_within _ (loads _ _) => apply cw_loads
  | |- calls_within (S _) invoke => apply cw_invoke
  | |- calls_within _ (bind (lift _) _) =>
      apply cw_bind_free; [apply cw_lift | intros ?]
  | |- calls_within _ (bind (loads _ _) _) =>
      apply cw_bind_free; [apply cw_loads | intros ?]
  | |- calls_within (S _) (bind invoke _) => apply cw_bind_invoke; intros ?
  | |- calls_within _ (if ?c then _ else _) => destruct c
  | |- calls_within _ (match ?c with _ => _ end) => destruct c
  end.

Ltac cw := cbv zeta; repeat cw_step.

Lemma direct_llm_calls (rt : Runtime) (product_data : value) :
  calls_within 1 (QuestionGeneratorAgent._generate_questions_direct_llm rt
                    product_data).
Proof.
  unfold QuestionGeneratorAgent._generate_questions_direct_llm. cw.
  apply (cw_catch_decode 0 0); [cw | intros _].
  apply (cw_catch 0 0); [cw | intros _; cw].
Qed.

Lemma generate_answer_calls (rt : Runtime) (q c pd : value) :
  calls_within 1 (QuestionGeneratorAgent.generate_answer_for_question q c pd).
Proof. unfold QuestionGeneratorAgent.generate_answer_for_question. cw. Qed.

Lemma validate_question_calls (rt : Runtime) (pd q : value) :
  calls_within 1 (QuestionGeneratorAgent.validate_question rt pd q).
Proof.
  unfold QuestionGeneratorAgent.validate_question.
  destruct q; try apply cw_ret.
  destruct (truthy _); [|apply cw_ret].
  apply cw_bind_free; [cw|intros d1].
  apply cw_bind_free; [cw|intros missing].
  apply (cw_bind 1 0); [|intros; cw].
  destruct missing; [|cw].
  apply (cw_bind 1 0); [apply generate_answer_calls; exact rt | intros; cw].
Qed.

Lemma validate_all_calls (rt : Runtime) (pd : value) (qs : list value) :
  calls_within (length qs) (QuestionGeneratorAgent.validate_all rt pd qs).
Proof.
  induction qs as [|q qs IH]; simpl; [cw|].
  apply (cw_bind 1 (length qs)); [apply validate_question_calls|intros kept].
  replace (length qs) with (length qs + 0) by lia.
  apply cw_bind; [exact IH | intros; cw].
Qed.

Lemma first_items_length (n : Z) (questions : value) (batch : list value) :
  (0 <= n)%Z ->
  QuestionGeneratorAgent.first_items n questions = Ok batch ->
  length batch <= Z.to_nat n.
Proof.
  intros Hn. unfold QuestionGeneratorAgent.first_items.
  destruct questions; try discriminate; intros [= <-];
    now apply slice_to_length.
Qed.

Lemma generate_categorized_calls (rt : Runtime) (pd : value) (n : Z) :
  (0 <= n)%Z ->
  calls_within (3 + Z.to_nat n)
    (QuestionGeneratorAgent.generate_categorized_questions rt pd n).
Proof.
  intros Hn. unfold QuestionGeneratorAgent.generate_categorized_questions.
  apply cw_bind_free; [cw|intros _].
  apply (cw_bind 1 (2 + Z.to_nat n)); [apply direct_llm_calls|intros questions].
  apply cw_bind_free; [cw|intros enough].
  destruct enough; [cw|].
  apply (cw_bind 1 (1 + Z.to_nat n)); [|intros questions1].
  { apply (cw_catch 1 0); [|intros; cw]. cw. }
  apply cw_bind_free; [cw|intros len].
  apply (cw_bind 1 (Z.to_nat n)); [|intros questions2].
  { destruct (_ <? _)%Z; [|cw].
    apply (cw_bind 1 0); [apply direct_llm_calls | intros; cw]. }
  intros b w. unfold bind at 1, lift at 1.
  destruct (QuestionGeneratorAgent.first_items n questions2) as [batch|] eqn:F;
    [|cbn [snd]; lia].
  apply (first_items_length n) in F; [|exact Hn].
  apply (cw_weaken (length batch + 0)); [lia|].
  apply cw_bind; [apply validate_all_calls | intros; cw].
Qed.

(** The question stage calls the backend at most 18 times in a run: once for
    the questions, once more with the tools and once more for additional
    questions when too few came back, and once for each of the at most 15
    questions it keeps that lacks an answer.  It never raises.  The bound
    is attained: a backend that first sends an empty list, then no list,
    then fifteen questions without answers, is called 18 times. *)
Theorem question_stage_calls :
  (forall (rt : Runtime) (state : dict) (b : backend),
     let out := QuestionGeneratorAgent.process rt state b start in
     calls (trace (snd out)) <= 18 /\ exists update, fst out = Ok update) /\
  (exists (rt : Runtime) (state : dict) (b : backend),
     calls (trace (snd (QuestionGeneratorAgent.process rt state b start))) = 18).
Proof.
  split.
  - intros rt state b. cbv zeta. split; [|apply question_process_total].
    assert (H : calls_within 18 (QuestionGeneratorAgent.process rt state)).
    { unfold QuestionGeneratorAgent.process. cbv zeta.
      destruct (negb _); [cw|].
      apply (cw_catch 18 0); [|intros; cw].
      apply (cw_bind 18 0);
        [exact (generate_categorized_calls rt _ 15 ltac:(lia))|intros questions].
      cw. }
    exact (H b start).
  - pose (unanswered :=
            VDict [("question", VStr "What is it?");
                   ("category", VStr "Informational")]).
    exists (Sample.reading
              (fun s =>
                 if String.eqb s "[]" then Some (VList [])
                 else if String.eqb s "[Q]"
                      then Some (VList (repeat unanswered 15))
                      else None)),
           [("parsed_product", VDict Sample.PRODUCT_DATA)],
           (fun n => Reply {| content :=
                                match n with
                                | 0 => "[]"
                                | 1 => "no list"
                                | 2 => "[Q]"
                                | _ => "An answer."
                                end;
                              tool_calls := [] |}).
    vm_compute. reflexivity.
Qed.
(* ===================================================================== *)
(** ** The description page, the content blocks and the output stage *)
(* ===================================================================== *)

(** The description page does not depend on the backend: the page that
    [generate_product_page] returns is the one the description template
    makes of the product and the content blocks (the four [*_content]
    entries of [data] are checked for presence and not read).  The backend
    is called once, for fewer than three recommended sections, and not at
    all otherwise; its reply can make the stage fail but cannot change the
    page. *)
Theorem product_page_ignores_backend (rt : Runtime)
    (product_data content_blocks : dict) (b : backend) (w w' : world)
    (page : dict)
    (H : ProductPageGeneratorAgent.generate_product_page rt product_data
           content_blocks b w = (Ok page, w')) :
  Templates.apply (Templates.ProductDescriptionTemplate rt)
    [("product_data", VDict product_data)] content_blocks = Ok page /\
  dict_get "page_type" page = Some (VStr "product_description") /\
  (if (length (ProductPageGeneratorAgent.recommended_sections
                 content_blocks product_data) <? 3)%nat
   then trace w' = trace w ++ [Invoked]
   else w' = w).
Proof.
  unfold ProductPageGeneratorAgent.generate_product_page in H.
  cbv zeta in H.
  unfold Templates.apply_template in H.
  cbn [Templates.templates Templates.new_engine Templates.find_template
       String.eqb Ascii.eqb Bool.eqb Templates.get_fields
       Templates.ProductDescriptionTemplate filter has_key dict_get negb
       is_nil] in H.
  change (Templates.apply
            {| Templates.get_fields := _; Templates.apply := ?f |})
    with f in H.
  match type of H with
  | context [lift ?r] =>
      assert (T : r = Templates.apply (Templates.ProductDescriptionTemplate rt)
                        [("product_data", VDict product_data)] content_blocks)
        by reflexivity
  end.
  cbv [bind lift] in H.
  rewrite T in H. clear T.
  destruct (Templates.apply (Templates.ProductDescriptionTemplate rt) _ _)
    as [page0|] eqn:A; [|discriminate].
  assert (N : forall l : list string,
            is_nil l || (length l <? 3)%nat = (length l <? 3)%nat)
    by (intros [|? ?]; reflexivity).
  rewrite N in H.
  assert (Hp : dict_get "page_type" page0 = Some (VStr "product_description")).
  { cbn [Templates.apply Templates.ProductDescriptionTemplate] in A.
    apply rbind_ok in A as (? & _ & A). apply rbind_ok in A as (? & _ & A).
    apply rbind_ok in A as (? & _ & A). apply rbind_ok in A as (? & _ & A).
    apply rbind_ok in A as (? & _ & A). injection A as <-. reflexivity. }
  destruct (length _ <? 3)%nat.
  - unfold invoke, ret in H.
    destruct (b (next_call w)) as [r|]; [|discriminate].
    destruct (run_tools rt _ _); [|discriminate].
    injection H as <- <-. auto.
  - injection H as <- <-. auto.
Qed.

Lemma product_page_ignores_backend_witness :
  exists page,
    ProductPageGeneratorAgent.generate_product_page Sample.rt
      Sample.PRODUCT_DATA [] (Sample.says "no tools") start =
    (Ok page, {| next_call := 1; trace := [Invoked] |}) /\
    Templates.apply (Templates.ProductDescriptionTemplate Sample.rt)
      [("product_data", VDict Sample.PRODUCT_DATA)] [] = Ok page.
Proof.
  assert (E : {p | ProductPageGeneratorAgent.generate_product_page Sample.rt
                     Sample.PRODUCT_DATA [] (Sample.says "no tools") start =
                   (Ok p, {| next_call := 1; trace := [Invoked] |})}).
  { eexists. vm_compute. reflexivity. }
  destruct E as [p E]. exists p. split; [exact E|].
  exact (proj1 (product_page_ignores_backend _ _ _ _ _ _ _ E)).
Defined.

Lemma add_block_inv (P : dict -> Prop) (wanted : bool) (name : string)
    (gen : dict -> result value) (pd blocks blocks' : dict) :
  (forall v bs, gen pd = Ok v -> P bs -> P (dict_set name v bs)) ->
  P blocks ->
  ContentBlocksAgent.add_block wanted name gen pd blocks = Ok blocks' ->
  P blocks'.
Proof.
  intros Hset HP. unfold ContentBlocksAgent.add_block.
  destruct wanted; [|now intros [= <-]].
  intros H. apply rbind_ok in H as (v & Hv & [= <-]). auto.
Qed.

Lemma add_block_grows (wanted : bool) (name : string)
    (gen : dict -> result value) (pd blocks blocks' : dict) :
  ContentBlocksAgent.add_block wanted name gen pd blocks = Ok blocks' ->
  (wanted = true \/ blocks <> []) -> blocks' <> [].
Proof.
  unfold ContentBlocksAgent.add_block. destruct wanted.
  - intros H _. apply rbind_ok in H as (v & _ & [= <-]).
    destruct blocks as [|[k x] blocks]; simpl; [discriminate|].
    destruct (String.eqb name k); discriminate.
  - intros [= <-] [H|H]; [discriminate | exact H].
Qed.

Lemma generated_set (logic : ContentLogic) (product_data : dict)
    (name : string) (v : value) (blocks : dict) :
  block_of logic product_data name v ->
  generated logic product_data blocks ->
  generated logic product_data (dict_set name v blocks).
Proof.
  intros Hn Hb k x. destruct (String.eqb_spec k name) as [->|Hne].
  - rewrite dict_get_set_same. intros [= <-]. exact Hn.
  - rewrite dict_get_set_other by exact Hne. apply Hb.
Qed.

Lemma add_blocks_generated (logic : ContentLogic) (product_data : dict)
    (needs : ContentBlocksAgent.content_needs) (blocks blocks' : dict) :
  generated logic product_data blocks ->
  ContentBlocksAgent.add_blocks logic needs product_data blocks = Ok blocks' ->
  generated logic product_data blocks'.
Proof.
  intros G0 H. unfold ContentBlocksAgent.add_blocks in H.
  apply rbind_ok in H as (b1 & H1 & H). apply rbind_ok in H as (b2 & H2 & H).
  apply rbind_ok in H as (b3 & H3 & H).
  assert (G1 : generated logic product_data b1).
  { eapply (add_block_inv (generated logic product_data)); [|exact G0|exact H1].
    intros v bs Hv Hbs. apply generated_set; [|exact Hbs].
    unfold block_of. auto. }
  assert (G2 : generated logic product_data b2).
  { eapply (add_block_inv (generated logic product_data)); [|exact G1|exact H2].
    intros v bs Hv Hbs. apply generated_set; [|exact Hbs].
    unfold block_of. auto. }
  assert (G3 : generated logic product_data b3).
  { eapply (add_block_inv (generated logic product_data)); [|exact G2|exact H3].
    intros v bs Hv Hbs. apply generated_set; [|exact Hbs].
    unfold block_of. auto. }
  eapply (add_block_inv (generated logic product_data)); [|exact G3|exact H].
  intros v bs Hv Hbs. apply generated_set; [|exact Hbs].
  unfold block_of. auto 6.
Qed.

Lemma add_blocks_nonempty (logic : ContentLogic) (product_data : dict)
    (needs : ContentBlocksAgent.content_needs) (blocks' : dict) :
  ContentBlocksAgent.add_blocks logic needs product_data [] = Ok blocks' ->
  ContentBlocksAgent.needs_benefits needs || ContentBlocksAgent.needs_usage needs
  || ContentBlocksAgent.needs_ingredients needs
  || ContentBlocksAgent.needs_safety needs = true ->
  blocks' <> [].
Proof.
  intros H N. unfold ContentBlocksAgent.add_blocks in H.
  apply rbind_ok in H as (b1 & H1 & H). apply rbind_ok in H as (b2 & H2 & H).
  apply rbind_ok in H as (b3 & H3 & H).
  pose proof (add_block_grows _ _ _ _ _ _ H1) as G1.
  pose proof (add_block_grows _ _ _ _ _ _ H2) as G2.
  pose proof (add_block_grows _ _ _ _ _ _ H3) as G3.
  pose proof (add_block_grows _ _ _ _ _ _ H) as G4.
  destruct (ContentBlocksAgent.needs_benefits needs),
           (ContentBlocksAgent.needs_usage needs),
           (ContentBlocksAgent.needs_ingredients needs),
           (ContentBlocksAgent.needs_safety needs);
    try discriminate; auto 10.
Qed.

Lemma tool_steps_generated (rt : Runtime) (logic : ContentLogic)
    (product_data : dict) (tcs : list tool_call) :
  forall (acc : result dict) (blocks : dict),
    (forall bs, acc = Ok bs -> generated logic product_data bs) ->
    fold_left
      (fun acc tc =>
         b <- acc ;; ContentBlocksAgent.tool_step rt logic product_data b tc)
      tcs acc = Ok blocks ->
    generated logic product_data blocks.
Proof.
  induction tcs as [|tc tcs IH]; simpl; intros acc blocks Hacc E; [auto|].
  eapply IH; [|exact E]. intros bs Hbs.
  apply rbind_ok in Hbs as (b0 & -> & Hbs).
  pose proof (Hacc b0 eq_refl) as G0.
  unfold ContentBlocksAgent.tool_step in Hbs.
  destruct (existsb _ _); [|now injection Hbs as <-].
  destruct (String.eqb _ _).
  - destruct (dict_get _ _) as [[]|]; try discriminate.
    exact (add_blocks_generated _ _ _ _ _ G0 Hbs).
  - destruct (tool_completes _ _ _); [|discriminate]. now injection Hbs as <-.
Qed.

(** The content blocks the stage returns are those of the four generators,
    each applied to the product at hand (never to the product a tool call of
    the backend names), under the four names.  When the product has
    any of [benefits], [how_to_use], [key_ingredients], [side_effects] the
    blocks are made without the backend; otherwise the backend is called
    once. *)
Theorem content_blocks_generation (rt : Runtime) (logic : ContentLogic)
    (product_data : dict) (b : backend) (w w' : world) (blocks : dict)
    (H : ContentBlocksAgent.generate_all_blocks rt logic product_data b w =
         (Ok blocks, w')) :
  (forall k v, dict_get k blocks = Some v ->
     (k = "benefits" /\ generate_benefits_content logic product_data = Ok v) \/
     (k = "usage" /\ generate_usage_content logic product_data = Ok v) \/
     (k = "ingredients" /\
      generate_ingredients_content logic product_data = Ok v) \/
     (k = "safety" /\ generate_safety_content logic product_data = Ok v)) /\
  (if truthy (get "benefits" product_data)
      || truthy (get "how_to_use" product_data)
      || truthy (get "key_ingredients" product_data)
      || truthy (get "side_effects" product_data)
   then w' = w /\ blocks <> []
   else trace w' = trace w ++ [Invoked]).
Proof.
  change (generated logic product_data blocks /\
          (if truthy (get "benefits" product_data)
              || truthy (get "how_to_use" product_data)
              || truthy (get "key_ingredients" product_data)
              || truthy (get "side_effects" product_data)
           then w' = w /\ blocks <> []
           else trace w' = trace w ++ [Invoked])).
  assert (G0 : generated logic product_data []) by (intros k v; discriminate).
  unfold ContentBlocksAgent.generate_all_blocks in H. cbv zeta in H.
  cbv [bind lift] in H.
  destruct (ContentBlocksAgent.add_blocks logic _ product_data [])
    as [first|] eqn:A; [|discriminate].
  pose proof (add_blocks_generated _ _ _ _ _ G0 A) as G1.
  pose proof (add_blocks_nonempty _ _ _ _ A) as N1.
  cbn [ContentBlocksAgent.analyze_content_needs
       ContentBlocksAgent.needs_benefits ContentBlocksAgent.needs_usage
       ContentBlocksAgent.needs_ingredients ContentBlocksAgent.needs_safety]
    in N1.
  destruct (truthy (get "benefits" product_data)
            || truthy (get "how_to_use" product_data)
            || truthy (get "key_ingredients" product_data)
            || truthy (get "side_effects" product_data)) eqn:T.
  - specialize (N1 eq_refl).
    destruct first as [|kv first]; [congruence|].
    cbn [is_nil] in H. unfold ret in H. injection H as <- <-.
    split; [exact G1|]. split; [reflexivity | discriminate].
  - assert (first = []).
    { unfold ContentBlocksAgent.add_blocks, ContentBlocksAgent.add_block in A.
      cbn [ContentBlocksAgent.analyze_content_needs
           ContentBlocksAgent.needs_benefits ContentBlocksAgent.needs_usage
           ContentBlocksAgent.needs_ingredients ContentBlocksAgent.needs_safety]
        in A.
      destruct (truthy (get "benefits" product_data)); [discriminate|].
      destruct (truthy (get "how_to_use" product_data)); [discriminate|].
      destruct (truthy (get "key_ingredients" product_data)); [discriminate|].
      destruct (truthy (get "side_effects" product_data)); [discriminate|].
      cbn in A. now injection A as <-. }
    subst first. cbn [is_nil] in H. unfold invoke in H.
    destruct (b (next_call w)) as [r|]; [|discriminate].
    match type of H with
    | context [fold_left ?f ?l ?a] => destruct (fold_left f l a) as [bs|] eqn:F
    end; [|discriminate].
    assert (G2 : generated logic product_data bs).
    { eapply tool_steps_generated; [|exact F]. now intros ? [= <-]. }
    destruct (is_nil bs).
    + destruct (ContentBlocksAgent.add_blocks logic _ product_data [])
        as [all|] eqn:A2; [|discriminate].
      injection H as <- <-. split; [|reflexivity].
      exact (add_blocks_generated _ _ _ _ _ G0 A2).
    + unfold ret in H. injection H as <- <-. split; [exact G2 | reflexivity].
Qed.

Lemma content_blocks_generation_witness :
  exists blocks,
    ContentBlocksAgent.generate_all_blocks Sample.rt Sample.logic
      Sample.PRODUCT_DATA Sample.down start = (Ok blocks, start) /\
    blocks <> [].
Proof.
  assert (E : {bs | ContentBlocksAgent.generate_all_blocks Sample.rt Sample.logic
                      Sample.PRODUCT_DATA Sample.down start = (Ok bs, start)}).
  { eexists. vm_compute. reflexivity. }
  destruct E as [bs E]. exists bs. split; [exact E|].
  exact (proj2 (proj2 (content_blocks_generation Sample.rt Sample.logic
                         Sample.PRODUCT_DATA _ _ _ _ E))).
Defined.
(** The output stage never calls the backend.  Its update reports
    completion exactly when the three pages are there; it reports an error
    exactly when one is missing; it names files exactly when the
    description page and the comparison page are there: all three when the
    FAQ page is there too, those two when it is not (a missing description
    or comparison page leaves the other pages unsaved).  It raises only
    when a page that is there is not a dictionary. *)
Theorem json_output_report (state : dict) (b : backend) (w : world) :
  let faq := truthy (get "faq_page" state) in
  let description := truthy (get "product_page" state) in
  let comparison := truthy (get "comparison_page" state) in
  let out := JSONOutputAgent.process state b w in
  snd out = w /\
  match fst out with
  | Ok update =>
      (dict_get "json_output_complete" update = Some (VBool true) <->
       faq && description && comparison = true) /\
      has_key "errors" update = negb (faq && description && comparison) /\
      has_key "files_created" update = description && comparison /\
      (forall files, dict_get "files_created" update = Some (VDict files) ->
         keys files =
           (if faq then ["faq"; "product_page"; "comparison_page"]
            else ["product_page"; "comparison_page"]))
  | Raise e =>
      e = ValidationError /\ faq && description && comparison = true /\
      is_dict (get "faq_page" state) && is_dict (get "product_page" state)
      && is_dict (get "comparison_page" state) = false
  end.
Proof.
  cbv zeta. unfold JSONOutputAgent.process, JSONOutputAgent.missing_pages.
  destruct (truthy (get "faq_page" state)) eqn:F,
           (truthy (get "product_page" state)) eqn:D,
           (truthy (get "comparison_page" state)) eqn:C;
    cbn [app is_nil negb andb ret fst snd];
    try (split; [reflexivity|];
         split; [split; discriminate|];
         split; [reflexivity|]; split; [reflexivity|];
         intros files [= <-]; reflexivity);
    try (split; [reflexivity|];
         split; [split; discriminate|];
         split; [reflexivity|]; split; [reflexivity|];
         intros files; discriminate).
  unfold JSONOutputAgent.format_and_save, bind, lift, ret.
  destruct (get "faq_page" state); cbn; try (repeat split; reflexivity);
    destruct (get "product_page" state); cbn; try (repeat split; reflexivity);
    destruct (get "comparison_page" state); cbn;
    try (repeat split; reflexivity).
  split; [reflexivity|]. split; [split; reflexivity|].
  split; [reflexivity|]. split; [reflexivity|].
  intros files [= <-]. reflexivity.
Qed.
(* ===================================================================== *)
(** ** The schedule of a run *)
(* ===================================================================== *)

Lemma run_four_steps (rt : Runtime) (logic : ContentLogic)
    (backends : string -> backend) (product_data : dict) :
  exists app,
    Workflow.new_workflow rt logic = Ok app /\
    Workflow.build_and_run rt logic backends product_data =
    (st1 <- Workflow.superstep app backends ["data_parser"]
              (Workflow.initial_state product_data) ;;
     st2 <- Workflow.superstep app backends
              ["content_blocks"; "question_generator"] st1 ;;
     st3 <- Workflow.superstep app backends
              ["faq_generator"; "product_page_generator";
               "comparison_generator"] st2 ;;
     Workflow.superstep app backends ["json_output"] st3).
Proof.
  eexists. split; [apply new_workflow_graph|].
  unfold Workflow.build_and_run. rewrite new_workflow_graph.
  cbn [rbind]. unfold Workflow.run. cbn [Workflow.entry_point].
  unfold Workflow.recursion_limit.
  match goal with
  | |- Workflow.invoke_graph _ ?g _ _ _ = _ => set (app := g)
  end.
  assert (S1 : Workflow.successors app ["data_parser"] =
               ["content_blocks"; "question_generator"]) by reflexivity.
  assert (S2 : Workflow.successors app ["content_blocks"; "question_generator"] =
               ["faq_generator"; "product_page_generator";
                "comparison_generator"]) by reflexivity.
  assert (S3 : Workflow.successors app
                 ["faq_generator"; "product_page_generator";
                  "comparison_generator"] = ["json_output"]) by reflexivity.
  assert (S4 : Workflow.successors app ["json_output"] = []) by reflexivity.
  cbn [Workflow.invoke_graph].
  destruct (Workflow.superstep app backends ["data_parser"] _) as [st1|];
    [|reflexivity].
  cbn [rbind]. rewrite S1. cbn [Workflow.invoke_graph].
  destruct (Workflow.superstep app backends _ st1) as [st2|]; [|reflexivity].
  cbn [rbind]. rewrite S2. cbn [Workflow.invoke_graph].
  destruct (Workflow.superstep app backends _ st2) as [st3|]; [|reflexivity].
  cbn [rbind]. rewrite S3. cbn [Workflow.invoke_graph].
  destruct (Workflow.superstep app backends _ st3) as [st4|]; [|reflexivity].
  cbn [rbind]. rewrite S4. reflexivity.
Qed.

(** A run is four steps, whatever the stages do: the parser; the content
    blocks and the question generator, side by side on the same state; the
    three page generators, side by side; the output stage.  Nothing runs
    twice and the recursion limit of the library is never met. *)
Theorem run_schedule (rt : Runtime) (logic : ContentLogic)
    (backends : string -> backend) (product_data : dict) :
  exists app,
    Workflow.new_workflow rt logic = Ok app /\
    Workflow.build_and_run rt logic backends product_data =
    (st1 <- Workflow.superstep app backends ["data_parser"]
              (Workflow.initial_state product_data) ;;
     st2 <- Workflow.superstep app backends
              ["content_blocks"; "question_generator"] st1 ;;
     st3 <- Workflow.superstep app backends
              ["faq_generator"; "product_page_generator";
               "comparison_generator"] st2 ;;
     Workflow.superstep app backends ["json_output"] st3).
Proof. exact (run_four_steps rt logic backends product_data). Qed.


Lemma write_channel_raise (e : exn) (k : string) (updates : list dict) :
  Workflow.write_channel (Raise e) k updates = Raise e.
Proof. reflexivity. Qed.

Lemma merge_keys_raise (e : exn) (ks : list string) (updates : list dict) :
  fold_left (fun acc k => Workflow.write_channel acc k updates) ks (Raise e) =
  Raise e.
Proof. induction ks as [|k ks IH]; simpl; [reflexivity | exact IH]. Qed.

Lemma merge_keys_defined (updates : list dict) (ks : list string) :
  forall st,
    (exists st', fold_left (fun acc k => Workflow.write_channel acc k updates)
                   ks (Ok st) = Ok st') <->
    (forall k, In k ks -> length (Workflow.writes_to k updates) <= 1).
Proof.
  induction ks as [|k ks IH]; intros st; cbn [fold_left].
  - split; [intros _ k [] | eauto].
  - unfold Workflow.write_channel at 2. cbn [rbind].
    destruct (Workflow.writes_to k updates) as [|v [|v' vs]] eqn:W.
    + rewrite IH. split.
      * intros H k' [<-|Hk]; [rewrite W; simpl; lia | auto].
      * intros H k' Hk. apply H. now right.
    + rewrite IH. split.
      * intros H k' [<-|Hk]; [rewrite W; simpl; lia | auto].
      * intros H k' Hk. apply H. now right.
    + rewrite merge_keys_raise. split.
      * intros [st' E]. discriminate.
      * intros H. specialize (H k (or_introl eq_refl)). rewrite W in H.
        simpl in H. lia.
Qed.

Lemma merge_keys_first_conflict (updates : list dict) (ks : list string) :
  forall st e,
    fold_left (fun acc k => Workflow.write_channel acc k updates) ks (Ok st) =
      Raise e ->
    exists k, e = InvalidUpdateError k /\ In k ks /\
              2 <= length (Workflow.writes_to k updates).
Proof.
  induction ks as [|k ks IH]; intros st e; cbn [fold_left]; [discriminate|].
  unfold Workflow.write_channel at 2. cbn [rbind].
  destruct (Workflow.writes_to k updates) as [|v [|v' vs]] eqn:W.
  - intros H. apply IH in H as (k' & -> & Hk & L). exists k'. simpl. auto.
  - intros H. apply IH in H as (k' & -> & Hk & L). exists k'. simpl. auto.
  - rewrite merge_keys_raise. intros [= <-]. exists k.
    split; [reflexivity|]. split; [now left|]. rewrite W. simpl. lia.
Qed.

(** The updates of one step are merged exactly when no key of the state is
    written by two of them; otherwise the step raises [InvalidUpdateError]
    for a key written twice, and no update of the step is kept. *)
Theorem merge_defined (g : Workflow.StateGraph) (state : dict)
    (updates : list dict) :
  ((exists state', Workflow.merge g state updates = Ok state') <->
   (forall k, In k (Workflow.schema g) ->
      length (Workflow.writes_to k updates) <= 1)) /\
  (forall e, Workflow.merge g state updates = Raise e ->
     exists k, e = InvalidUpdateError k /\ In k (Workflow.schema g) /\
               2 <= length (Workflow.writes_to k updates)).
Proof.
  unfold Workflow.merge. split.
  - apply merge_keys_defined.
  - apply merge_keys_first_conflict.
Qed.

Lemma merge_errors_conflict (rt : Runtime) (logic : ContentLogic)
    (g : Workflow.StateGraph) (state : dict) (m1 m2 : string) :
  Workflow.new_workflow rt logic = Ok g ->
  Workflow.merge g state [errors_update m1; errors_update m2] =
  Raise (InvalidUpdateError "errors").
Proof.
  rewrite new_workflow_graph. intros [= <-]. reflexivity.
Qed.

(** Without a parsed product the second step cannot be taken: the content
    blocks and the question generator each report under [errors], the two
    writes meet in one step, and the run raises [InvalidUpdateError].  This
    is what a run on an empty record does, whatever the backend: the report
    of the parser is never returned. *)
Theorem missing_product_aborts (rt : Runtime) (logic : ContentLogic)
    (backends : string -> backend) (app : Workflow.StateGraph) (state : dict)
    (Happ : Workflow.new_workflow rt logic = Ok app)
    (H : truthy (get_default "parsed_product" (VDict []) state) = false) :
  Workflow.superstep app backends ["content_blocks"; "question_generator"]
    state = Raise (InvalidUpdateError "errors") /\
  Workflow.build_and_run rt logic backends [] =
    Raise (InvalidUpdateError "errors").
Proof.
  assert (S : forall st,
    truthy (get_default "parsed_product" (VDict []) st) = false ->
    Workflow.superstep app backends ["content_blocks"; "question_generator"]
      st = Raise (InvalidUpdateError "errors")).
  { intros st Hst. unfold Workflow.superstep.
    pose proof Happ as Hg. rewrite new_workflow_graph in Hg.
    injection Hg as Hg.
    assert (R1 : Workflow.run_node app backends st "content_blocks" =
                 Ok (errors_update
                       "No product data available for content block generation")).
    { rewrite <- Hg. unfold Workflow.run_node.
      cbn [Workflow.nodes Workflow.find_node String.eqb Ascii.eqb Bool.eqb].
      unfold ContentBlocksAgent.process. rewrite Hst. reflexivity. }
    assert (R2 : Workflow.run_node app backends st "question_generator" =
                 Ok (errors_update
                       "No product data available for question generation")).
    { rewrite <- Hg. unfold Workflow.run_node.
      cbn [Workflow.nodes Workflow.find_node String.eqb Ascii.eqb Bool.eqb].
      unfold QuestionGeneratorAgent.process. rewrite Hst. reflexivity. }
    cbn [mapM]. rewrite R1, R2. cbn [rbind].
    exact (merge_errors_conflict rt logic app st _ _ Happ). }
  split; [exact (S state H)|].
  destruct (run_four_steps rt logic backends []) as (app' & Happ' & ->).
  assert (app' = app) by congruence. subst app'.
  assert (E1 : exists st1,
            Workflow.superstep app backends ["data_parser"]
              (Workflow.initial_state []) = Ok st1 /\
            truthy (get_default "parsed_product" (VDict []) st1) = false).
  { pose proof Happ as Hg. rewrite new_workflow_graph in Hg.
    injection Hg as Hg. rewrite <- Hg.
    eexists. split; [vm_compute; reflexivity | reflexivity]. }
  destruct E1 as (st1 & -> & T1). cbn [rbind]. now rewrite (S st1 T1).
Qed.

Lemma missing_product_aborts_witness :
  Workflow.build_and_run Sample.rt Sample.logic Sample.all_fine [] =
  Raise (InvalidUpdateError "errors").
Proof.
  exact (proj2 (missing_product_aborts Sample.rt Sample.logic Sample.all_fine
                  _ (Workflow.initial_state [])
                  (new_workflow_graph Sample.rt Sample.logic) eq_refl)).
Defined.
(* ===================================================================== *)
(** ** The text of a response *)
(* ===================================================================== *)

Lemma append_assoc (a b c : string) :
  ((a ++ b) ++ c = a ++ (b ++ c))%string.
Proof. induction a as [|x a IH]; simpl; [reflexivity | now rewrite IH]. Qed.

Lemma from_first_spec (c : ascii) (s rest : string) :
  from_first c s = Some rest ->
  exists pre tail,
    s = (pre ++ rest)%string /\ rest = String c tail /\
    all_chars (fun a => negb (Ascii.eqb a c)) pre = true.
Proof.
  revert rest. induction s as [|a s IH]; simpl; intros rest; [discriminate|].
  destruct (Ascii.eqb a c) eqn:E.
  - intros [= <-]. apply Ascii.eqb_eq in E. subst.
    exists EmptyString, s. auto.
  - intros H. apply IH in H as (pre & tail & -> & -> & Hpre).
    exists (String a pre), tail. simpl. rewrite E. auto.
Qed.

Lemma from_first_none (c : ascii) (s : string) :
  from_first c s = None <-> all_chars (fun a => negb (Ascii.eqb a c)) s = true.
Proof.
  induction s as [|a s IH]; simpl; [tauto|].
  destruct (Ascii.eqb a c); simpl; [split; discriminate | exact IH].
Qed.

Lemma upto_last_spec (c : ascii) (s p : string) :
  upto_last c s = Some p ->
  exists body post,
    s = (p ++ post)%string /\ p = (body ++ String c EmptyString)%string /\
    all_chars (fun a => negb (Ascii.eqb a c)) post = true.
Proof.
  revert p. induction s as [|a s IH]; simpl; intros p; [discriminate|].
  destruct (upto_last c s) as [q|] eqn:U.
  - intros [= <-]. destruct (IH q eq_refl) as (body & post & -> & -> & Hpost).
    exists (String a body), post. auto.
  - destruct (Ascii.eqb a c) eqn:E; [|discriminate].
    intros [= <-]. apply Ascii.eqb_eq in E. subst.
    exists EmptyString, s. split; [reflexivity|]. split; [reflexivity|].
    clear IH. induction s as [|b s IHs]; simpl in *; [reflexivity|].
    destruct (upto_last c s); [discriminate|].
    destruct (Ascii.eqb b c); [discriminate|]. simpl. auto.
Qed.

Lemma upto_last_none (c : ascii) (s : string) :
  upto_last c s = None <-> all_chars (fun a => negb (Ascii.eqb a c)) s = true.
Proof.
  induction s as [|a s IH]; simpl; [tauto|].
  destruct (upto_last c s).
  - split; [discriminate|]. intros H. apply andb_prop in H as [_ H].
    apply IH in H. discriminate.
  - destruct (Ascii.eqb a c); simpl; [split; discriminate|].
    split; [intros _; now apply IH | reflexivity].
Qed.

(** [search_array] finds what the pattern [\[.*\]] matches: the text from
    the first opening bracket to the last closing bracket after it.  No
    opening bracket comes before what it finds and no closing bracket
    after; it finds nothing exactly when no closing bracket follows the
    first opening bracket. *)
Theorem search_array_spec (s : string) :
  match search_array s with
  | Some found =>
      exists pre body post,
        s = (pre ++ found ++ post)%string /\
        found = ("[" ++ body ++ "]")%string /\
        all_chars (fun a => negb (Ascii.eqb a "[")) pre = true /\
        all_chars (fun a => negb (Ascii.eqb a "]")) post = true
  | None =>
      all_chars (fun a => negb (Ascii.eqb a "[")) s = true \/
      exists pre rest,
        s = (pre ++ "[" ++ rest)%string /\
        all_chars (fun a => negb (Ascii.eqb a "[")) pre = true /\
        all_chars (fun a => negb (Ascii.eqb a "]")) rest = true
  end.
Proof.
  unfold search_array.
  destruct (from_first "[" s) as [r|] eqn:F.
  - apply from_first_spec in F as (pre & tail & -> & -> & Hpre).
    destruct (upto_last "]" tail) as [p|] eqn:U.
    + apply upto_last_spec in U as (body & post & -> & -> & Hpost).
      exists pre, body, post. split; [|split; [reflexivity|auto]].
      simpl. now rewrite append_assoc.
    + right. exists pre, tail. split; [reflexivity|]. split; [exact Hpre|].
      now apply upto_last_none.
  - left. now apply from_first_none.
Qed.
Lemma append_nil_r (s : string) : (s ++ EmptyString)%string = s.
Proof. induction s as [|a s IH]; simpl; [reflexivity | now rewrite IH]. Qed.

Lemma prefix_app (sep x : string) : String.prefix sep (sep ++ x) = true.
Proof.
  induction sep as [|a sep IH]; simpl; [now destruct x|].
  destruct (ascii_dec a a); [exact IH | congruence].
Qed.

Lemma drop_app (sep x : string) : drop (String.length sep) (sep ++ x) = x.
Proof. induction sep as [|a sep IH]; simpl; [now destruct x | exact IH]. Qed.

Lemma contains_prefix (sep hay : string) :
  String.prefix sep hay = true -> contains sep hay = true.
Proof.
  intros H. destruct hay; cbn [contains after_first before_first];
    now rewrite H.
Qed.

Lemma after_first_prefix (sep hay : string) :
  String.prefix sep hay = true ->
  after_first sep hay = Some (drop (String.length sep) hay).
Proof.
  intros H. destruct hay; cbn [contains after_first before_first];
    now rewrite H.
Qed.

Lemma before_first_prefix (sep hay : string) :
  String.prefix sep hay = true -> before_first sep hay = EmptyString.
Proof.
  intros H. destruct hay; cbn [contains after_first before_first];
    now rewrite H.
Qed.

Lemma prefix_backquote (sep' : string) (a : ascii) (s : string) :
  Ascii.eqb a "`" = false ->
  String.prefix (String "`" sep') (String a s) = false.
Proof.
  intros H. cbn [String.prefix].
  destruct (ascii_dec "`" a) as [<-|_]; [discriminate | reflexivity].
Qed.

Lemma before_first_skip (sep' x y : string) :
  no_backquote x ->
  before_first (String "`" sep') (x ++ y) =
  (x ++ before_first (String "`" sep') y)%string.
Proof.
  unfold no_backquote. induction x as [|a x IH]; intros H; [reflexivity|].
  simpl in H. apply andb_prop in H as [Ha Hx].
  apply negb_true_iff in Ha.
  change ((String a x ++ y)%string) with (String a (x ++ y)).
  cbn [before_first]. rewrite (prefix_backquote sep' a (x ++ y) Ha).
  simpl. now rewrite IH.
Qed.

Lemma before_first_none (sep' x : string) :
  no_backquote x -> before_first (String "`" sep') x = x.
Proof.
  intros H. rewrite <- (append_nil_r x) at 1.
  rewrite before_first_skip by exact H. simpl.
  now rewrite append_nil_r.
Qed.

Lemma contains_skip (sep' x y : string) :
  no_backquote x ->
  contains (String "`" sep') (x ++ y) = contains (String "`" sep') y.
Proof.
  unfold no_backquote. induction x as [|a x IH]; intros H; [reflexivity|].
  simpl in H. apply andb_prop in H as [Ha Hx].
  apply negb_true_iff in Ha.
  change ((String a x ++ y)%string) with (String a (x ++ y)).
  cbn [contains]. rewrite (prefix_backquote sep' a (x ++ y) Ha).
  simpl. now apply IH.
Qed.

Lemma contains_none (sep' x : string) :
  no_backquote x -> contains (String "`" sep') x = false.
Proof.
  intros H. rewrite <- (append_nil_r x). rewrite contains_skip by exact H.
  reflexivity.
Qed.

(** A reply that opens with a [json] code fence is unwrapped to what stands
    between that fence and the next one, stripped; a text without any
    backquote is left as it is. *)
Theorem unwrap_fenced (rt : Runtime) (body post : string)
    (Hbody : no_backquote body) (Hpost : no_backquote post) :
  unwrap rt (json_fence ++ body ++ fence ++ post) = py_strip rt body /\
  unwrap_json_only rt (json_fence ++ body ++ fence ++ post) = py_strip rt body /\
  unwrap rt body = body /\
  unwrap_json_only rt body = body.
Proof.
  assert (C : contains json_fence (json_fence ++ body ++ fence ++ post) = true)
    by apply contains_prefix, prefix_app.
  assert (S : before_first fence
                (split_1 json_fence (json_fence ++ body ++ fence ++ post)) =
              body).
  { unfold split_1.
    rewrite (after_first_prefix _ _ (prefix_app _ _)), drop_app.
    unfold json_fence at 1.
    rewrite before_first_skip by exact Hbody.
    destruct (String.prefix "```json" (fence ++ post)) eqn:P.
    - rewrite (before_first_prefix _ _ P), append_nil_r.
      now apply before_first_none.
    - assert (B : before_first "```json" (fence ++ post) = (fence ++ post)%string).
      { destruct post as [|c post]; [reflexivity|].
        unfold Text.no_backquote in Hpost. simpl in Hpost.
        apply andb_prop in Hpost as [Hc Hp]. apply negb_true_iff in Hc.
        unfold fence in *. cbn [append] in *. cbn [before_first].
        rewrite P.
        assert (P1 : String.prefix "```json" (String "`" (String "`" (String c post))) = false).
        { cbn [String.prefix]. destruct (ascii_dec "`" "`"); [|reflexivity].
          destruct (ascii_dec "`" c) as [<-|_]; [discriminate | reflexivity]. }
        assert (P2 : String.prefix "```json" (String "`" (String c post)) = false).
        { cbn [String.prefix]. destruct (ascii_dec "`" "`"); [|reflexivity].
          destruct (ascii_dec "`" c) as [<-|_]; [discriminate | reflexivity]. }
        rewrite P1, P2. do 3 f_equal.
        apply (before_first_none _ (String c post)).
        unfold Text.no_backquote. simpl. rewrite Hc, Hp. reflexivity. }
      rewrite B. unfold fence. rewrite before_first_skip by exact Hbody.
      rewrite (before_first_prefix _ _ (prefix_app "```" post)).
      apply append_nil_r. }
  unfold unwrap, unwrap_json_only. rewrite C, S.
  unfold json_fence, fence. rewrite !contains_none by exact Hbody. auto.
Qed.

Lemma unwrap_fenced_witness :
  unwrap Sample.rt (json_fence ++ " [1, 2] " ++ fence ++ "") = "[1, 2]".
Proof.
  refine (eq_trans (proj1 (unwrap_fenced Sample.rt " [1, 2] " "" _ _)) _);
    reflexivity.
Defined.
(* ===================================================================== *)
(** ** The generators of the benefit and ingredient blocks *)
(* ===================================================================== *)

Lemma In_keys_dict_set (k k' : string) (v : value) (d : dict) :
  In k' (keys (dict_set k v d)) <-> k' = k \/ In k' (keys d).
Proof.
  induction d as [|[k0 v0] d IH]; simpl.
  - intuition.
  - destruct (String.eqb_spec k k0) as [->|Hne]; simpl.
    + intuition.
    + rewrite IH. intuition.
Qed.

Lemma NoDup_keys_dict_set (k : string) (v : value) (d : dict) :
  NoDup (keys d) -> NoDup (keys (dict_set k v d)).
Proof.
  induction d as [|[k0 v0] d IH]; simpl; intros H.
  - constructor; [intros [] | constructor].
  - inversion H as [|? ? Hn Hd]; subst.
    destruct (String.eqb_spec k k0) as [->|Hne]; simpl.
    + constructor; assumption.
    + constructor; [|auto]. rewrite In_keys_dict_set. intros [->|Hin]; auto.
Qed.

Lemma In_keys_has_key (k : string) (d : dict) :
  In k (keys d) <-> has_key k d = true.
Proof.
  unfold has_key. induction d as [|[k0 v0] d IH]; simpl.
  - split; [intros [] | discriminate].
  - destruct (String.eqb_spec k k0) as [->|Hne].
    + split; auto.
    + rewrite <- IH. split; [intros [E|H]; [congruence | exact H] | auto].
Qed.

Lemma fold_dict_set_spec (f : string -> value) (P : string -> bool)
    (l : list string) :
  forall acc,
    let d := fold_left (fun acc k => if P k then dict_set k (f k) acc else acc)
                       l acc in
    (NoDup (keys acc) -> NoDup (keys d)) /\
    (forall k, In k (keys d) <-> In k (keys acc) \/ (In k l /\ P k = true)) /\
    (forall k v, dict_get k d = Some v ->
       dict_get k acc = Some v \/ (In k l /\ P k = true /\ v = f k)).
Proof.
  induction l as [|x l IH]; intros acc; cbn [fold_left].
  - cbv zeta. split; [auto|]. split; [intros k; simpl; tauto | auto].
  - specialize (IH (if P x then dict_set x (f x) acc else acc)).
    cbv zeta in *. destruct IH as (N & K & G).
    destruct (P x) eqn:Px.
    + split; [|split].
      * intros H. apply N. now apply NoDup_keys_dict_set.
      * intros k. rewrite K, In_keys_dict_set. simpl.
        split; [intros [[->|H]|[H1 H2]]; auto | ].
        intros [H|[[<-|H] H2]]; auto.
      * intros k v H. apply G in H as [H|(H1 & H2 & H3)].
        -- destruct (String.eqb_spec k x) as [->|Hne].
           ++ rewrite dict_get_set_same in H. injection H as <-.
              right. simpl. auto.
           ++ rewrite dict_get_set_other in H by exact Hne. now left.
        -- right. simpl. auto.
    + split; [exact N|]. split.
      * intros k. rewrite K. simpl.
        split; [intros [H|[H1 H2]]; auto|].
        intros [H|[[<-|H] H2]]; auto. congruence.
      * intros k v H. apply G in H as [H|(H1 & H2 & H3)]; [now left|].
        right. simpl. auto.
Qed.

(** The ingredient block counts the ingredients as listed and lists them
    all as active, but keeps one detail entry for each different
    ingredient: the entries are as many as the ingredients exactly when no
    ingredient is listed twice.  Every entry is of type "active", and the
    benefits it names are benefits of the product: those related to the
    ingredient, or the first two of the product when none is related, so
    that a product with benefits has none of its ingredients without. *)
Theorem ingredient_details_entries (rt : Runtime)
    (py_split : string -> list string) (ingredients : list string)
    (concentration : string) (product_benefits : list string) :
  let content :=
    ContentBlocks.generate_ingredients_content rt py_split ingredients
      concentration product_benefits in
  exists details,
    dict_get "ingredient_details" content = Some (VDict details) /\
    dict_get "ingredient_count" content = Some (VNat (length ingredients)) /\
    dict_get "active_ingredients" content = Some (VList (map VStr ingredients)) /\
    dict_get "supporting_ingredients" content = Some (VList []) /\
    NoDup (keys details) /\
    (forall i, In i (keys details) <-> In i ingredients) /\
    length details <= length ingredients /\
    (length details = length ingredients <-> NoDup ingredients) /\
    (forall i entry, dict_get i details = Some entry ->
       exists benefits conc,
         entry = VDict [("type", VStr "active");
                        ("benefits", VList (map VStr benefits));
                        ("concentration", VStr conc);
                        ("description",
                         VStr (i ++ " - Key active ingredient in this product")%string)] /\
         (forall b, In b benefits -> In b product_benefits) /\
         (product_benefits <> [] -> benefits <> [])).
Proof.
  cbv zeta. unfold ContentBlocks.generate_ingredients_content.
  match goal with
  | |- context [fold_left ?f ingredients []] => set (details := fold_left f ingredients [])
  end.
  exists details. do 4 (split; [reflexivity|]).
  destruct (fold_dict_set_spec
              (ContentBlocks.ingredient_detail rt py_split concentration
                 product_benefits)
              (fun _ => true) ingredients []) as (N & K & G).
  cbv zeta in N, K, G. fold details in N, K, G.
  assert (ND : NoDup (keys details)) by (apply N; constructor).
  assert (KI : forall i, In i (keys details) <-> In i ingredients).
  { intros i. rewrite K. simpl. tauto. }
  assert (L : length details = length (keys details))
    by (unfold keys; now rewrite length_map).
  split; [exact ND|]. split; [exact KI|]. split; [|split].
  - rewrite L. apply NoDup_incl_length; [exact ND|]. intros i. apply KI.
  - rewrite L. split.
    + intros E. eapply NoDup_incl_NoDup; [exact ND | lia |].
      intros i. apply KI.
    + intros H. apply Permutation_length.
      apply NoDup_Permutation; assumption.
  - intros i entry H. apply G in H as [H|(_ & _ & ->)]; [discriminate|].
    unfold ContentBlocks.ingredient_detail. cbv zeta.
    do 2 eexists. split; [reflexivity|]. split.
    + intros b. destruct (filter _ product_benefits) eqn:F; cbn [is_nil negb].
      * apply In_firstn_In.
      * rewrite <- F. intros Hb. now apply filter_In in Hb.
    + intros Hne. destruct (filter _ product_benefits) eqn:F; cbn [is_nil negb].
      * destruct product_benefits; [congruence | discriminate].
      * discriminate.
Qed.

(** The benefit block has one formatted entry for each benefit, in their
    order.  An ingredient has an entry among [ingredient_benefits] exactly
    when some benefit is related to it, and it is then named as a support
    of that benefit: the supports of a benefit are the ingredients related
    to it, or all the ingredients when none is, so that with ingredients at
    hand no benefit is left without support. *)
Theorem benefits_content_consistent (rt : Runtime)
    (py_split : string -> list string) (benefits ingredients : list string) :
  let content :=
    ContentBlocks.generate_benefits_content rt py_split benefits ingredients in
  exists by_ingredient formatted,
    dict_get "ingredient_benefits" content = Some (VDict by_ingredient) /\
    dict_get "formatted_benefits" content = Some (VList formatted) /\
    dict_get "benefit_count" content = Some (VNat (length formatted)) /\
    Forall2
      (fun benefit entry =>
         exists supports,
           entry = VDict [("benefit", VStr benefit);
                          ("description",
                           VStr ("Provides " ++ py_lower rt benefit ++
                                 " benefits")%string);
                          ("supported_by", VList (map VStr supports))] /\
           (forall i, In i supports -> In i ingredients) /\
           (ingredients <> [] -> supports <> []) /\
           (forall i, has_key i by_ingredient = true ->
              ContentBlocks.related rt py_split i benefit = true ->
              In i supports))
      benefits formatted /\
    (forall i, has_key i by_ingredient = true <->
       In i ingredients /\
       exists b, In b benefits /\
                 ContentBlocks.related rt py_split i b = true).
Proof.
  cbv zeta. unfold ContentBlocks.generate_benefits_content.
  exists (ContentBlocks.ingredient_benefits rt py_split benefits ingredients),
         (map (ContentBlocks.formatted_benefit rt py_split ingredients) benefits).
  split; [reflexivity|]. split; [reflexivity|].
  split; [now rewrite length_map|].
  assert (HK : forall i,
    has_key i (ContentBlocks.ingredient_benefits rt py_split benefits
                 ingredients) = true <->
    In i ingredients /\
    exists b, In b benefits /\ ContentBlocks.related rt py_split i b = true).
  { intros i. rewrite <- In_keys_has_key.
    unfold ContentBlocks.ingredient_benefits. cbv zeta.
    destruct (fold_dict_set_spec
                (fun k => VStr (String.concat ", "
                   (filter (ContentBlocks.related rt py_split k) benefits)))
                (fun k => negb (is_nil
                   (filter (ContentBlocks.related rt py_split k) benefits)))
                ingredients []) as (_ & K & _).
    cbv zeta in K. rewrite K. simpl.
    split.
    - intros [[]|[Hi Hr]]. split; [exact Hi|].
      destruct (filter _ benefits) as [|b l] eqn:F; [discriminate|].
      exists b. apply filter_In. rewrite F. now left.
    - intros (Hi & b & Hb & Hr). right. split; [exact Hi|].
      assert (Hin : In b (filter (ContentBlocks.related rt py_split i) benefits))
        by (apply filter_In; auto).
      destruct (filter _ benefits); [destruct Hin | reflexivity]. }
  split; [|exact HK].
  set (by_ingredient :=
         ContentBlocks.ingredient_benefits rt py_split benefits ingredients)
    in *.
  clearbody by_ingredient.
  assert (HE : forall b,
    exists supports,
      ContentBlocks.formatted_benefit rt py_split ingredients b =
      VDict [("benefit", VStr b);
             ("description",
              VStr ("Provides " ++ py_lower rt b ++ " benefits")%string);
             ("supported_by", VList (map VStr supports))] /\
      (forall i, In i supports -> In i ingredients) /\
      (ingredients <> [] -> supports <> []) /\
      (forall i, has_key i by_ingredient = true ->
         ContentBlocks.related rt py_split i b = true -> In i supports)).
  { intros b. unfold ContentBlocks.formatted_benefit. cbv zeta.
    eexists. split; [reflexivity|]. split; [|split].
    + intros i. destruct (filter _ ingredients) eqn:F; cbn [is_nil negb].
      * auto.
      * rewrite <- F. intros Hi. now apply filter_In in Hi.
    + intros Hne. destruct (filter _ ingredients) eqn:F; cbn [is_nil negb].
      * exact Hne.
      * discriminate.
    + intros i Hi Hr. apply HK in Hi as [Hi _].
      assert (Hin : In i (filter (fun ingredient =>
                 ContentBlocks.related rt py_split ingredient b) ingredients))
        by (apply filter_In; auto).
      destruct (filter _ ingredients) eqn:F; cbn [is_nil negb];
        [destruct Hin | exact Hin]. }
  clear HK. induction benefits as [|b benefits IH]; simpl; constructor.
  - exact (HE b).
  - exact IH.
Qed.
Lemma percent_match_spec (s found : string) :
  ContentBlocks.percent_match s = Some found ->
  exists pre run post,
    s = (pre ++ run ++ "%" ++ post)%string /\
    found = (run ++ "%")%string /\
    run <> EmptyString /\ all_chars is_digit run = true.
Proof.
  induction s as [|c s IH]; [discriminate|].
  assert (Hnext : ContentBlocks.percent_match s = Some found ->
                  exists pre run post,
                    String c s = (pre ++ run ++ "%" ++ post)%string /\
                    found = (run ++ "%")%string /\
                    run <> EmptyString /\ all_chars is_digit run = true).
  { intros H. apply IH in H as (pre & run & post & -> & -> & Hr & Hd).
    exists (String c pre), run, post. auto. }
  cbn [ContentBlocks.percent_match].
  destruct (is_digit c) eqn:D; [|exact Hnext].
  destruct (span_digits_spec (String c s)) as (Hs & Hd & _).
  destruct (snd (span_digits (String c s))) as [|p post] eqn:R; [exact Hnext|].
  destruct (Ascii.eqb_spec p "%") as [->|Hp].
  - intros [= <-]. exists EmptyString, (fst (span_digits (String c s))), post.
    split; [exact Hs|]. split; [reflexivity|]. split; [|exact Hd].
    cbn [span_digits]. rewrite D. destruct (span_digits s). discriminate.
  - intros H. apply Hnext.
    destruct p as [[] [] [] [] [] [] [] []]; try exact H; congruence.
Qed.

Lemma span_digits_run (run rest : string) :
  all_chars is_digit run = true -> no_leading_digit rest ->
  span_digits (run ++ rest) = (run, rest).
Proof.
  induction run as [|c run IH]; simpl; intros Hd Hr.
  - destruct rest as [|a rest]; [reflexivity|]. simpl in *. now rewrite Hr.
  - apply andb_prop in Hd as [Hc Hd]. rewrite Hc, (IH Hd Hr). reflexivity.
Qed.

Lemma percent_match_complete (pre run post : string) :
  run <> EmptyString -> all_chars is_digit run = true ->
  ContentBlocks.percent_match (pre ++ run ++ "%" ++ post) <> None.
Proof.
  intros Hr Hd. induction pre as [|a pre IH].
  - destruct run as [|c run]; [congruence|].
    change ((EmptyString ++ String c run ++ "%" ++ post)%string)
      with (String c (run ++ "%" ++ post)).
    cbn [ContentBlocks.percent_match].
    pose proof Hd as Hd'. simpl in Hd'. apply andb_prop in Hd' as [Hc _].
    rewrite Hc.
    change (String c (run ++ "%" ++ post))
      with ((String c run ++ String "%" post)%string).
    rewrite (span_digits_run (String c run) (String "%" post) Hd eq_refl).
    discriminate.
  - change ((String a pre ++ run ++ "%" ++ post)%string)
      with (String a (pre ++ run ++ "%" ++ post)).
    cbn [ContentBlocks.percent_match].
    destruct (is_digit a); [|exact IH].
    destruct (snd (span_digits _)) as [|p rest]; [exact IH|].
    destruct p as [[] [] [] [] [] [] [] []]; try exact IH; discriminate.
Qed.

(** For a concentration written in ASCII characters and rupee signs: the
    concentration shown for an ingredient is "As listed" when the lowered
    name of the ingredient does not occur in the lowered concentration of
    the product.  When it occurs, the concentration shown is a run of
    digits followed by a percent sign that stands in the concentration of
    the product, or, when no digit followed by a percent sign stands in
    it, that concentration as it is. *)
Theorem ingredient_concentration_source (rt : Runtime)
    (py_split : string -> list string) (concentration : string)
    (product_benefits : list string) (ingredient : string)
    (Hascii : rupee_text concentration = true) :
  exists shown,
    dict_get "concentration"
      match ContentBlocks.ingredient_detail rt py_split concentration
              product_benefits ingredient with
      | VDict entry => entry
      | _ => []
      end = Some (VStr shown) /\
    (if contains (py_lower rt ingredient)
          (ContentBlocks.concentration_text rt concentration)
     then (shown = concentration /\
           forall pre run post,
             concentration = (pre ++ run ++ "%" ++ post)%string ->
             all_chars is_digit run = true -> run = EmptyString) \/
          exists pre run post,
            concentration = (pre ++ run ++ "%" ++ post)%string /\
            shown = (run ++ "%")%string /\
            run <> EmptyString /\ all_chars is_digit run = true
     else shown = "As listed").
Proof.
  unfold ContentBlocks.ingredient_detail. cbv zeta.
  eexists. split; [reflexivity|].
  destruct (contains _ _); [|reflexivity].
  destruct (ContentBlocks.percent_match concentration) as [found|] eqn:M.
  - right. now apply percent_match_spec.
  - left. split; [reflexivity|]. intros pre run post E Hd.
    destruct run as [|c run]; [reflexivity|]. exfalso.
    rewrite E in M. revert M.
    apply percent_match_complete; [discriminate | exact Hd].
Qed.

Lemma ingredient_concentration_source_witness :
  exists shown,
    dict_get "concentration"
      match ContentBlocks.ingredient_detail Sample.rt (fun s => [s])
              "10% Vitamin C" ["Brightening"] "Vitamin C" with
      | VDict entry => entry
      | _ => []
      end = Some (VStr shown) /\
    exists pre run post,
      "10% Vitamin C" = (pre ++ run ++ "%" ++ post)%string /\
      shown = (run ++ "%")%string.
Proof.
  destruct (ingredient_concentration_source Sample.rt (fun s => [s])
              "10% Vitamin C" ["Brightening"] "Vitamin C" eq_refl)
    as (shown & G & H).
  exists shown. split; [exact G|].
  assert (C : contains (py_lower Sample.rt "Vitamin C")
                (ContentBlocks.concentration_text Sample.rt "10% Vitamin C")
              = true) by reflexivity.
  rewrite C in H. destruct H as [[_ N]|(pre & run & post & E & S & _)].
  - specialize (N EmptyString "10" " Vitamin C" eq_refl eq_refl).
    discriminate.
  - exists pre, run, post. auto.
Defined.
